(** * Collective Learning Network: coordinator stores and predictive engine

    A shallow embedding of [src/intelligence/CollectiveIntelligence.js]
    (classes [CollectiveIntelligence], [SharedMemory], [Graph]), of
    [src/intelligence/PredictiveEngine.js] (class [PredictiveEngine]) and
    of the learning endpoint of [server.js], with the properties the
    specification states about them.

    Conventions of the embedding.
    - A JavaScript number is a rational [Q]; where the source divides by a
      quantity that can be zero the result has type [number], which adds
      [Infinity] and [NaN].  Rounding of binary floating point is not
      modelled.
    - A property that may be missing from a JSON object is an [option]:
      [None] is [undefined].  Reading a property of a record that is itself
      [None] is the [TypeError] JavaScript raises.  A property that is
      present has the type the code uses it at.
    - A JavaScript [Map] keyed by strings is a [gmap]; a [Map] or [Set] whose
      iteration order is observable is a list in insertion order.
    - [Date.now()] is an argument of the method that reads it.
    - Methods the classes call but do not define are the fields of an
      interface record, and a call to one that returns nothing is recorded
      in a call log. *)

From Stdlib Require Import ZArith QArith Qround Lia Lqa List Sorting.Sorted.
From stdpp Require Import base option list sorting gmap strings pretty.

Local Open Scope Q_scope.

(** ** JavaScript values shared by both classes *)

Module Js.

Inductive number : Type :=
| Fin (q : Q)
| Infinity
| NaN.

Inductive error : Type :=
| TypeError
| SyntaxError
| Error (message : string).

Inductive completion (A : Type) : Type :=
| Normal (a : A)
| Throw (e : error).
Arguments Normal {A} a.
Arguments Throw {A} e.

(** Opaque JSON payloads that the coordinator stores without looking
    inside. *)
#[local] Unset Elimination Schemes.
Inductive json : Type :=
| JUndefined
| JNull
| JBool (b : bool)
| JNum (q : Q)
| JStr (s : string)
| JArr (l : list json)
| JObj (l : list (string * json)).
#[local] Set Elimination Schemes.

(** [a > b] on numbers. *)
Definition gt (a b : Q) : bool := negb (Qle_bool a b).

(** [x > c] where [x] may be [undefined]: [undefined > c] is [false]. *)
Definition gt_opt (x : option Q) (c : Q) : bool :=
  match x with
  | Some q => gt q c
  | None => false
  end.

(** [a / b] for two counts ([array.length], [map.size]). *)
Definition div_counts (a b : nat) : number :=
  match b with
  | O => match a with O => NaN | S _ => Infinity end
  | S _ => Fin (Z.of_nat a # Pos.of_nat b)
  end.

(** [array.slice(0, end)]: a negative [end] counts from the end. *)
Definition slice0 {A : Type} (l : list A) (e : Z) : list A :=
  let len := Z.of_nat (length l) in
  let k := if (e <? 0)%Z then Z.max (len + e) 0 else Z.min e len in
  firstn (Z.to_nat k) l.

(** [array.slice(-n)]: the last [n] elements. *)
Definition slice_last {A : Type} (n : nat) (l : list A) : list A :=
  skipn (length l - n) l.

(** [array.sort(cmp)]: a stable sort; [cmp a b > 0] puts [a] after [b]. *)
Fixpoint sort_insert {A : Type} (cmp : A -> A -> Q) (x : A) (l : list A) : list A :=
  match l with
  | [] => [x]
  | y :: l' => if gt (cmp x y) 0 then y :: sort_insert cmp x l' else x :: y :: l'
  end.

Fixpoint sort {A : Type} (cmp : A -> A -> Q) (l : list A) : list A :=
  match l with
  | [] => []
  | x :: l' => sort_insert cmp x (sort cmp l')
  end.

(** [array.reduce((acc, x, index) => f(acc, x, index), init)] *)
Fixpoint reduce_indexed {A B : Type} (f : B -> A -> nat -> B) (l : list A) (index : nat) (acc : B) : B :=
  match l with
  | [] => acc
  | x :: l' => reduce_indexed f l' (S index) (f acc x index)
  end.

(** What the specification calls a weighted mean: the weighted sum
    divided by the sum of the weights. *)
Definition weighted_sum (ws xs : list Q) : Q :=
  fold_right Qplus 0 (zip_with Qmult ws xs).

Definition weighted_mean (ws xs : list Q) : Q :=
  weighted_sum ws xs / fold_right Qplus 0 ws.

(** Sequencing of calls that may throw (or reject). *)
Definition and_then {A B : Type} (c : completion A) (f : A -> completion B) : completion B :=
  match c with
  | Normal a => f a
  | Throw e => Throw e
  end.

(** [for (const x of l) { ... await f(x) ... }], collecting the results. *)
Fixpoint for_each {A B : Type} (f : A -> completion B) (l : list A) : completion (list B) :=
  match l with
  | [] => Normal []
  | x :: l' => and_then (f x) (fun y => and_then (for_each f l') (fun ys => Normal (y :: ys)))
  end.

(** [Math.round]: the nearest integer, halves upwards. *)
Definition round (q : Q) : Z := Qfloor (q + (1 # 2)).

(** [array.join(sep)] *)
Definition join (sep : string) (l : list string) : string := String.concat sep l.

End Js.

(** ** class Graph *)

Module Graph.
Import Js.

Record Edge : Type := { to : string; weight : Q }.

(** [nodes] and [edges] are [Map]s keyed by node id.  An edge set is a
    [Set] of freshly allocated objects, so it never merges two edges:
    it is the list of the edges in insertion order. *)
Record t : Type := {
  nodes : gmap string json;
  edges : gmap string (list Edge)
}.

Definition empty : t := {| nodes := ∅; edges := ∅ |}.

Definition addNode (g : t) (id : string) (data : json) : t :=
  {| nodes := <[id := data]> (nodes g);
     edges := match edges g !! id with
              | Some _ => edges g
              | None => <[id := []]> (edges g)
              end |}.

(** [this.edges.get(from).add(...)] raises when [from] was never added. *)
Definition addEdge (g : t) (from to_ : string) (w : option Q) : completion t :=
  match edges g !! from with
  | None => Throw TypeError
  | Some s =>
      Normal {| nodes := nodes g;
                edges := <[from := s ++ [{| to := to_; weight := default 1 w |}]]> (edges g) |}
  end.

Definition findStrongestConnections (g : t) (nodeId : string) (limit : option Z) : list Edge :=
  let connections := default [] (edges g !! nodeId) in
  slice0 (sort (fun a b => weight b - weight a) connections) (default 5%Z limit).

(** Non-increasing weight. *)
Definition heavier (a b : Edge) : Prop := weight b <= weight a.

(** A graph in which one agent has worked with three others. *)
Definition sample : t :=
  {| nodes := {[ "marcus"%string := JNull ]};
     edges := {[ "marcus"%string :=
                   [ {| to := "sophia"; weight := 1 |};
                     {| to := "chen"; weight := 3 |};
                     {| to := "elena"; weight := 2 |} ] ]} |}.

End Graph.

(** ** class SharedMemory *)

Module Interaction.

(** One customer interaction as [updateCustomerProfile] receives it. *)
Record t : Type := {
  sentiment : option Q;
  items : option (list string);
  feedback : option string;
  notes : option string
}.

End Interaction.

Module Profile.

Record t : Type := {
  id : string;
  preferences : list string;
  interactions : list Interaction.t;
  sentiment : Js.number;
  lifetime_value : Q;
  special_dates : list Js.json;
  allergies : list string;
  favorite_items : list string
}.

End Profile.

Module SharedMemory.
Import Js.

(** The argument of [updateEmotionalMatrix]. *)
Record EmotionalData : Type := {
  detected : option string;
  response : option string;
  effectiveness : option Q;
  customerFeedback : json
}.

(** A cell of [emotionalMatrix].  The field [samples] is the array the
    source stores under the property [effectiveness]. *)
Record Cell : Type := {
  samples : list (option Q);
  count : nat;
  averageEffectiveness : number
}.

Record t : Type := {
  customerProfiles : gmap string Profile.t;
  operationalData : gmap string json;
  emotionalMatrix : gmap string Cell;
  relationships : Graph.t
}.

Definition new : t :=
  {| customerProfiles := ∅; operationalData := ∅; emotionalMatrix := ∅;
     relationships := Graph.empty |}.

(** Text primitives that come from outside the repository: the sentiment
    analyzer of the [natural] package and the string and regular
    expression built-ins used by [extractDietaryInfo]. *)
Record Text : Type := {
  (** [analyzer.getSentiment(text)]: it may throw, as the analyzer of
      the package does when it is handed a string, which it takes for an
      array of words *)
  getSentiment : string -> completion Q;
  (** [text.toLowerCase().includes(keyword)] *)
  lower_includes : string -> string -> bool;
  (** [text.match(new RegExp(keyword + "\s+to\s+(\w+)", "i"))], group 1 *)
  match_keyword_to : string -> string -> option string
}.

(** A value interpolated in a template string. *)
Definition template (s : option string) : string := default "undefined"%string s.

(** The key [`${data.detected}_${data.response}`]. *)
Definition cell_key (data : EmotionalData) : string :=
  (template (detected data) +:+ "_" +:+ template (response data))%string.

(** [array.reduce((a, b) => a + b, 0)] over samples that may be
    [undefined]: [None] is the [NaN] the sum becomes. *)
Definition add_sample (a : option Q) (b : option Q) : option Q :=
  match a, b with
  | Some x, Some y => Some (x + y)
  | _, _ => None
  end.

Definition sum_samples (l : list (option Q)) : option Q :=
  fold_left add_sample l (Some 0).

Definition updateEmotionalMatrix (sm : t) (data : EmotionalData) : t :=
  let key := cell_key data in
  let matrix := default {| samples := []; count := 0; averageEffectiveness := NaN |}
                        (emotionalMatrix sm !! key) in
  let effectiveness' := samples matrix ++ [effectiveness data] in
  let count' := S (count matrix) in
  let avg := match sum_samples effectiveness' with
             | Some s => Fin (s / inject_Z (Z.of_nat (length effectiveness')))
             | None => NaN
             end in
  {| customerProfiles := customerProfiles sm;
     operationalData := operationalData sm;
     emotionalMatrix :=
       <[key := {| samples := effectiveness'; count := count'; averageEffectiveness := avg |}]>
         (emotionalMatrix sm);
     relationships := relationships sm |}.

(** [i.sentiment || 0] *)
Definition sentiment_or_zero (i : Interaction.t) : Q :=
  match Interaction.sentiment i with
  | Some q => if Qeq_bool q 0 then 0 else q
  | None => 0
  end.

(** The weight [(index + 1) / recent.length] of the source. *)
Definition weight (n index : nat) : Q :=
  inject_Z (Z.of_nat (index + 1)) / inject_Z (Z.of_nat n).

Definition calculateSentiment (interactions : list Interaction.t) : number :=
  let sentiments := map sentiment_or_zero interactions in
  let recent := slice_last 10 sentiments in
  let n := length recent in
  let weightedSum :=
    reduce_indexed (fun sum sentiment index => sum + sentiment * weight n index) recent 0%nat 0 in
  match n with
  | O => NaN
  | S _ => Fin (weightedSum / inject_Z (Z.of_nat n))
  end.

(** [[...new Set(l)]]: the first occurrence of each element, in order. *)
Fixpoint uniq (seen l : list string) : list string :=
  match l with
  | [] => []
  | x :: l' => if bool_decide (x ∈ seen) then uniq seen l' else x :: uniq (x :: seen) l'
  end.

Definition allergyKeywords : list string :=
  ["allergic"; "allergy"; "intolerant"; "cannot eat"]%string.

Definition preferenceKeywords : list string :=
  ["vegetarian"; "vegan"; "kosher"; "halal"; "gluten-free"]%string.

Definition extractDietaryInfo (tx : Text) (text : string) : list string * list string :=
  let allergies :=
    omap (fun keyword =>
            if lower_includes tx text keyword then match_keyword_to tx keyword text else None)
         allergyKeywords in
  let preferences := filter (fun pref => lower_includes tx text pref = true) preferenceKeywords in
  (allergies, preferences).

(** The loop [interaction.items.forEach(item => ...)]: the favourite
    items when the loop ends, and how it ends.  The analyzer is called
    for each item; when it throws the loop is left with the favourites
    as they are. *)
Fixpoint items_forEach (tx : Text) (feedback : string) (its fav : list string)
    : list string * completion unit :=
  match its with
  | [] => (fav, Normal tt)
  | item :: its' =>
      match getSentiment tx feedback with
      | Normal sentiment =>
          items_forEach tx feedback its'
            (if gt sentiment 0 && negb (bool_decide (item ∈ fav)) then fav ++ [item] else fav)
      | Throw e => (fav, Throw e)
      end
  end.

(** The method changes [profile] in place: the result is the profile as
    the method leaves it and how the method ends.  When the loop over the
    items throws, the notes are not read. *)
Definition extractPreferences (tx : Text) (profile : Profile.t) (interaction : Interaction.t)
    : Profile.t * completion unit :=
  let looped :=
    match Interaction.items interaction with
    | Some its =>
        items_forEach tx (default ""%string (Interaction.feedback interaction)) its
                      (Profile.favorite_items profile)
    | None => (Profile.favorite_items profile, Normal tt)
    end in
  let dietary :=
    match looped.2, Interaction.notes interaction with
    | Normal _, Some (String c s) =>
        let dietary := extractDietaryInfo tx (String c s) in
        (uniq [] (Profile.allergies profile ++ dietary.1),
         uniq [] (Profile.preferences profile ++ dietary.2))
    | _, _ => (Profile.allergies profile, Profile.preferences profile)
    end in
  ({| Profile.id := Profile.id profile;
      Profile.preferences := dietary.2;
      Profile.interactions := Profile.interactions profile;
      Profile.sentiment := Profile.sentiment profile;
      Profile.lifetime_value := Profile.lifetime_value profile;
      Profile.special_dates := Profile.special_dates profile;
      Profile.allergies := dietary.1;
      Profile.favorite_items := looped.1 |},
   looped.2).

Definition new_profile (customerId : string) : Profile.t :=
  {| Profile.id := customerId; Profile.preferences := []; Profile.interactions := [];
     Profile.sentiment := Fin 0; Profile.lifetime_value := 0; Profile.special_dates := [];
     Profile.allergies := []; Profile.favorite_items := [] |}.

(** Returns the memory after the update and the profile the source
    returns, or the error it throws.  The profile is in the map before
    anything is computed and is changed in place, so what was written
    before an error stays written. *)
Definition updateCustomerProfile (tx : Text) (sm : t) (customerId : string)
    (interaction : Interaction.t) : t * completion Profile.t :=
  let profile := default (new_profile customerId) (customerProfiles sm !! customerId) in
  let interactions' := Profile.interactions profile ++ [interaction] in
  let pushed :=
    {| Profile.id := Profile.id profile;
       Profile.preferences := Profile.preferences profile;
       Profile.interactions := interactions';
       Profile.sentiment := calculateSentiment interactions';
       Profile.lifetime_value := Profile.lifetime_value profile;
       Profile.special_dates := Profile.special_dates profile;
       Profile.allergies := Profile.allergies profile;
       Profile.favorite_items := Profile.favorite_items profile |} in
  let extracted := extractPreferences tx pushed interaction in
  let profile' := extracted.1 in
  ({| customerProfiles := <[customerId := profile']> (customerProfiles sm);
      operationalData := operationalData sm;
      emotionalMatrix := emotionalMatrix sm;
      relationships := relationships sm |},
   and_then extracted.2 (fun _ => Normal profile')).

(** The successive submissions of a run, oldest first. *)
Definition submit_all (sm : t) (subs : list EmotionalData) : t :=
  fold_left updateEmotionalMatrix subs sm.

(** The count stored for a key; a key never submitted has no cell. *)
Definition cell_count (sm : t) (key : string) : nat :=
  match emotionalMatrix sm !! key with
  | Some c => count c
  | None => 0%nat
  end.

(** The submissions of a run that fall under [key], oldest first. *)
Definition submissions_for (key : string) (subs : list EmotionalData) : list EmotionalData :=
  filter (fun d => cell_key d = key) subs.

(** Modelled from the spec: the submissions of a run made for the pair
    [(detected, response)], oldest first. *)
Definition submissions_of_pair (detected' response' : option string)
    (subs : list EmotionalData) : list EmotionalData :=
  filter (fun d => detected d = detected' /\ response d = response') subs.

(** What a cell holds after a run, in terms of the submissions of the
    run. *)
Definition cell_of (l : list EmotionalData) : option Cell :=
  match l with
  | [] => None
  | _ :: _ =>
      let smp := map effectiveness l in
      Some {| samples := smp; count := length l;
              averageEffectiveness :=
                match sum_samples smp with
                | Some s => Fin (s / inject_Z (Z.of_nat (length smp)))
                | None => NaN
                end |}
  end.

(** The weights [1/n, 2/n, ..., n/n] the source gives a window of [n]
    sentiments, oldest first. *)
Definition window_weights (n : nat) : list Q := map (weight n) (seq 0 n).

(** An emotional read: a sad customer was offered a dessert. *)
Definition sad_dessert (effectiveness : Q) : EmotionalData :=
  {| detected := Some "sad"%string; response := Some "dessert"%string;
     effectiveness := Some effectiveness; customerFeedback := JNull |}.

(** Two emotional reads for different pairs whose keys spell the same
    text, [sad_very_hug]. *)
Definition very_sad_hug : EmotionalData :=
  {| detected := Some "sad_very"%string; response := Some "hug"%string;
     effectiveness := Some 1; customerFeedback := JNull |}.

Definition sad_long_hug : EmotionalData :=
  {| detected := Some "sad"%string; response := Some "very_hug"%string;
     effectiveness := Some 0; customerFeedback := JNull |}.

(** A text environment for runs that carry no feedback and no notes. *)
Definition no_text : Text :=
  {| getSentiment := fun _ => Throw TypeError;
     lower_includes := fun _ _ => false;
     match_keyword_to := fun _ _ => None |}.

(** An interaction that carries only a sentiment. *)
Definition rated (q : Q) : Interaction.t :=
  {| Interaction.sentiment := Some q; Interaction.items := None;
     Interaction.feedback := None; Interaction.notes := None |}.

End SharedMemory.

(** ** class CollectiveIntelligence: the messages *)

(** The [context] object of an inbound message. *)
Module Context.
Record t : Type := {
  situation : option string;
  mood : Js.json;
  approach : Js.json;
  crisisType : option string;
  severity : option Q;
  actions : Js.json;
  agentsInvolved : Js.json;
  action : option string;
  conditions : Js.json
}.
End Context.

(** The [outcome] object of an inbound message. *)
Module Outcome.
Record t : Type := {
  satisfaction : option Q;
  resolved : option bool;
  duration : option Q;
  effectiveness : option Q;
  feedback : Js.json
}.
End Outcome.

(** The [emotion] object of an inbound message. *)
Module Emotion.
Record t : Type := {
  detected : option string;
  response : option string
}.
End Emotion.

(** A parsed message: the properties [processAgentCommunication] and
    [enhanceCollaborationPatterns] read from [data]. *)
Module Report.
Record t : Type := {
  type : option string;
  context : option Context.t;
  outcome : option Outcome.t;
  emotion : option Emotion.t;
  learning : Js.json;
  agents : Js.json;
  task : Js.json;
  coordination : Js.json
}.
End Report.

(** The record built by [learnFromCustomerInteraction]. *)
Module CustomerPattern.
Record t : Type := {
  situation : option string;
  customerMood : Js.json;
  approach : Js.json;
  result : option Q;
  timestamp : Z
}.
End CustomerPattern.

(** The record built by [learnCrisisManagement]. *)
Module Crisis.
Record t : Type := {
  type : option string;
  severity : option Q;
  response : Js.json;
  resolution : option bool;
  timeToResolve : option Q;
  agentsInvolved : Js.json
}.
End Crisis.

(** The record built by [recordSuccessPattern]. *)
Module Pattern.
Record t : Type := {
  id : string;
  agent : string;
  action : option string;
  conditions : Js.json;
  result : option Outcome.t;
  replicable : bool
}.
End Pattern.

(** An entry of [brain.successPatterns]: the pattern spread, with
    [confidence] and [variations]. *)
Module SuccessPattern.
Record t : Type := {
  pattern : Pattern.t;
  confidence : Js.number;
  variations : list Pattern.t
}.
End SuccessPattern.

(** The record built by [enhanceCollaborationPatterns]. *)
Module Collaboration.
Record t : Type := {
  agents : Js.json;
  task : Js.json;
  coordination : Js.json;
  outcome : option Outcome.t
}.
End Collaboration.

(** The message [broadcastLearning] sends. *)
Module Learning.
Record t : Type := {
  type : string;
  source : string;
  learning : Js.json;
  timestamp : Z
}.
End Learning.

(** ** class CollectiveIntelligence: the coordinator *)

(** Calls to methods that [CollectiveIntelligence] invokes but does not
    define.  Each call is recorded with its arguments. *)
Module Call.
Inductive t : Type :=
| syncAgentKnowledge (agentId : string)
| extractBestPractice (pattern : CustomerPattern.t)
| notifyRelevantAgents (situation : option string) (pattern : CustomerPattern.t)
| updateCrisisPlaybook (crisisType : option string) (crisis : Crisis.t)
| distributeTraining (kind : string) (crisis : Crisis.t)
| findSimilarPatterns (pattern : Pattern.t)
| createSOP (pattern : Pattern.t)
| broadcastEmotionalLearning (data : SharedMemory.EmotionalData)
| updateTeamFormations (agents : Js.json) (task : Js.json).
End Call.

Module CollectiveIntelligence.
Import Js.

(** [ws.readyState] *)
Inductive ReadyState : Type := CONNECTING | OPEN | CLOSING | CLOSED.

#[global] Instance ReadyState_eq_dec : EqDecision ReadyState.
Proof. solve_decision. Defined.

Record Brain : Type := {
  customerPatterns : gmap (option string) (list CustomerPattern.t);
  operationalInsights : gmap string json;
  crisisResponses : gmap (option string) Crisis.t;
  successPatterns : gmap (option string) SuccessPattern.t
}.

(** The coordinator.  [agents] is the [Map] from agent id to socket, in
    insertion order, a socket being its [readyState]; [sent] lists the
    [ws.send] calls, oldest first, each with the agent whose socket
    received it; [calls] lists the calls to undefined methods. *)
Record t : Type := {
  agents : list (string * ReadyState);
  brain : Brain;
  sharedMemory : SharedMemory.t;
  sent : list (string * Learning.t);
  calls : list Call.t
}.

Definition new : t :=
  {| agents := [];
     brain := {| customerPatterns := ∅; operationalInsights := ∅;
                 crisisResponses := ∅; successPatterns := ∅ |};
     sharedMemory := SharedMemory.new;
     sent := [];
     calls := [] |}.

(** The methods the class calls for a value but does not define. *)
Record Helpers : Type := {
  extractAgentId : json -> string;
  calculateEffectiveness : Crisis.t -> Q;
  findSimilarPatterns : t -> Pattern.t -> list Pattern.t;
  analyzeTeamDynamics : Collaboration.t -> Q
}.

Definition with_agents (a : list (string * ReadyState)) (st : t) : t :=
  {| agents := a; brain := brain st; sharedMemory := sharedMemory st;
     sent := sent st; calls := calls st |}.

Definition with_brain (b : Brain) (st : t) : t :=
  {| agents := agents st; brain := b; sharedMemory := sharedMemory st;
     sent := sent st; calls := calls st |}.

Definition with_sharedMemory (m : SharedMemory.t) (st : t) : t :=
  {| agents := agents st; brain := brain st; sharedMemory := m;
     sent := sent st; calls := calls st |}.

Definition with_sent (s : list (string * Learning.t)) (st : t) : t :=
  {| agents := agents st; brain := brain st; sharedMemory := sharedMemory st;
     sent := s; calls := calls st |}.

Definition with_calls (c : list Call.t) (st : t) : t :=
  {| agents := agents st; brain := brain st; sharedMemory := sharedMemory st;
     sent := sent st; calls := c |}.

(** A method body: it runs on the coordinator and either completes or
    throws; what it wrote before throwing stays written. *)
Definition M (A : Type) : Type := t -> t * completion A.

Definition ret {A : Type} (a : A) : M A := fun st => (st, Normal a).

Definition throw {A : Type} (e : error) : M A := fun st => (st, Throw e).

Definition bind {A B : Type} (m : M A) (f : A -> M B) : M B :=
  fun st =>
    match m st with
    | (st', Normal a) => f a st'
    | (st', Throw e) => (st', Throw e)
    end.

Notation "'let*' x ':=' m 'in' k" := (bind m (fun x => k))
  (at level 10, x pattern, m at level 100, k at level 200).

Definition get : M t := fun st => (st, Normal st).

Definition modify (f : t -> t) : M unit := fun st => (f st, Normal tt).

(** A call to an undefined method. *)
Definition call (c : Call.t) : M unit :=
  modify (fun st => with_calls (calls st ++ [c]) st).

(** The object whose property is about to be read: reading a property of
    [undefined] or [null] throws. *)
Definition object {A : Type} (o : option A) : M A :=
  match o with
  | Some a => ret a
  | None => throw TypeError
  end.

(** [map.set(key, value)] on a [Map] kept in insertion order. *)
Fixpoint map_set {V : Type} (key : string) (v : V) (m : list (string * V)) : list (string * V) :=
  match m with
  | [] => [(key, v)]
  | (k, v0) :: m' => if decide (k = key) then (k, v) :: m' else (k, v0) :: map_set key v m'
  end.

Section Methods.
Variable h : Helpers.

Definition learnFromCustomerInteraction (now : Z) (agentId : string)
    (context : option Context.t) (outcome : option Outcome.t) : M unit :=
  let* ctx := object context in
  let* out := object outcome in
  let pattern :=
    {| CustomerPattern.situation := Context.situation ctx;
       CustomerPattern.customerMood := Context.mood ctx;
       CustomerPattern.approach := Context.approach ctx;
       CustomerPattern.result := Outcome.satisfaction out;
       CustomerPattern.timestamp := now |} in
  let* _ := modify (fun st =>
    let b := brain st in
    let stored := default [] (customerPatterns b !! Context.situation ctx) in
    with_brain
      {| customerPatterns := <[Context.situation ctx := stored ++ [pattern]]> (customerPatterns b);
         operationalInsights := operationalInsights b;
         crisisResponses := crisisResponses b;
         successPatterns := successPatterns b |} st) in
  let* _ := (if gt_opt (Outcome.satisfaction out) (8 # 10)
             then call (Call.extractBestPractice pattern)
             else ret tt) in
  call (Call.notifyRelevantAgents (Context.situation ctx) pattern).

(** The record [learnCrisisManagement] builds from a report. *)
Definition crisis_of (ctx : Context.t) (out : Outcome.t) : Crisis.t :=
  {| Crisis.type := Context.crisisType ctx;
     Crisis.severity := Context.severity ctx;
     Crisis.response := Context.actions ctx;
     Crisis.resolution := Outcome.resolved out;
     Crisis.timeToResolve := Outcome.duration out;
     Crisis.agentsInvolved := Context.agentsInvolved ctx |}.

Definition learnCrisisManagement (agentId : string)
    (context : option Context.t) (outcome : option Outcome.t) : M unit :=
  let* ctx := object context in
  let* out := object outcome in
  let crisis := crisis_of ctx out in
  let effectiveness := calculateEffectiveness h crisis in
  let* _ := (if gt effectiveness (7 # 10)
             then
               let* _ := modify (fun st =>
                 let b := brain st in
                 with_brain
                   {| customerPatterns := customerPatterns b;
                      operationalInsights := operationalInsights b;
                      crisisResponses := <[Context.crisisType ctx := crisis]> (crisisResponses b);
                      successPatterns := successPatterns b |} st) in
               call (Call.updateCrisisPlaybook (Context.crisisType ctx) crisis)
             else ret tt) in
  call (Call.distributeTraining "crisis" crisis).

(** The record [recordSuccessPattern] builds from a report. *)
Definition pattern_of (now : Z) (agentId : string) (ctx : Context.t)
    (outcome : option Outcome.t) : Pattern.t :=
  {| Pattern.id := ("success_" +:+ pretty now)%string;
     Pattern.agent := agentId;
     Pattern.action := Context.action ctx;
     Pattern.conditions := Context.conditions ctx;
     Pattern.result := outcome;
     Pattern.replicable := true |}.

Definition recordSuccessPattern (now : Z) (agentId : string)
    (context : option Context.t) (outcome : option Outcome.t) : M unit :=
  let* ctx := object context in
  let pattern := pattern_of now agentId ctx outcome in
  let* st0 := get in
  let similarity := findSimilarPatterns h st0 pattern in
  let* _ := call (Call.findSimilarPatterns pattern) in
  if (3 <? length similarity)%nat
  then
    let* _ := modify (fun st =>
      let b := brain st in
      with_brain
        {| customerPatterns := customerPatterns b;
           operationalInsights := operationalInsights b;
           crisisResponses := crisisResponses b;
           successPatterns :=
             <[Pattern.action pattern :=
                 {| SuccessPattern.pattern := pattern;
                    SuccessPattern.confidence :=
                      div_counts (length similarity) (length (agents st));
                    SuccessPattern.variations := similarity |}]> (successPatterns b) |} st) in
    call (Call.createSOP pattern)
  else ret tt.

Definition updateEmotionalIntelligence (agentId : string)
    (emotion : option Emotion.t) (outcome : option Outcome.t) : M unit :=
  let* em := object emotion in
  let* out := object outcome in
  let emotionalData :=
    {| SharedMemory.detected := Emotion.detected em;
       SharedMemory.response := Emotion.response em;
       SharedMemory.effectiveness := Outcome.effectiveness out;
       SharedMemory.customerFeedback := Outcome.feedback out |} in
  let* _ := modify (fun st =>
    with_sharedMemory (SharedMemory.updateEmotionalMatrix (sharedMemory st) emotionalData) st) in
  call (Call.broadcastEmotionalLearning emotionalData).

Definition enhanceCollaborationPatterns (data : Report.t) : M unit :=
  let collaboration :=
    {| Collaboration.agents := Report.agents data;
       Collaboration.task := Report.task data;
       Collaboration.coordination := Report.coordination data;
       Collaboration.outcome := Report.outcome data |} in
  let teamEffectiveness := analyzeTeamDynamics h collaboration in
  if gt teamEffectiveness (85 # 100)
  then call (Call.updateTeamFormations (Collaboration.agents collaboration)
                                       (Collaboration.task collaboration))
  else ret tt.

(** The agents [broadcastLearning] sends to, in the order of the
    [forEach]. *)
Definition recipients (sourceAgent : string) (a : list (string * ReadyState)) : list string :=
  map fst (filter (fun e => e.1 <> sourceAgent /\ e.2 = OPEN) a).

Definition broadcastLearning (now : Z) (sourceAgent : string) (learning : json) : M unit :=
  let message :=
    {| Learning.type := "COLLECTIVE_LEARNING";
       Learning.source := sourceAgent;
       Learning.learning := learning;
       Learning.timestamp := now |} in
  modify (fun st =>
    with_sent (sent st ++ map (fun agentId => (agentId, message))
                              (recipients sourceAgent (agents st))) st).

(** [now] is the clock read by the handler, [now'] the clock read by
    [broadcastLearning].  [data] is [None] when the parsed value is
    [null], whose destructuring throws. *)
Definition processAgentCommunication (now now' : Z) (agentId : string)
    (data : option Report.t) : M unit :=
  let* d := object data in
  let type := Report.type d in
  let* _ :=
    (if decide (type = Some "CUSTOMER_INTERACTION"%string) then
       learnFromCustomerInteraction now agentId (Report.context d) (Report.outcome d)
     else if decide (type = Some "CRISIS_HANDLED"%string) then
       learnCrisisManagement agentId (Report.context d) (Report.outcome d)
     else if decide (type = Some "SUCCESS_PATTERN"%string) then
       recordSuccessPattern now agentId (Report.context d) (Report.outcome d)
     else if decide (type = Some "EMOTIONAL_READ"%string) then
       updateEmotionalIntelligence agentId (Report.emotion d) (Report.outcome d)
     else if decide (type = Some "COLLABORATIVE_SOLUTION"%string) then
       enhanceCollaborationPatterns d
     else ret tt) in
  broadcastLearning now' agentId (Report.learning d).

(** What [JSON.parse] makes of a frame received on a socket: it throws
    on text that is not JSON, and yields [null] or a value whose
    properties are read. *)
Inductive Frame : Type :=
| NotJSON
| ParsedNull
| Parsed (data : Report.t).

(** The ['message'] listener installed for [agentId]. *)
Definition onMessage (now now' : Z) (agentId : string) (frame : Frame) : M unit :=
  match frame with
  | NotJSON => throw SyntaxError
  | ParsedNull => processAgentCommunication now now' agentId None
  | Parsed d => processAgentCommunication now now' agentId (Some d)
  end.

(** The ['connection'] listener: [ws] is the new socket, [req] the
    upgrade request. *)
Definition onConnection (ws : ReadyState) (req : json) : M string :=
  let agentId := extractAgentId h req in
  let* _ := modify (fun st => with_agents (map_set agentId ws (agents st)) st) in
  let* _ := call (Call.syncAgentKnowledge agentId) in
  ret agentId.

End Methods.

(** The objects the handler of a report dereferences are there:
    [context] and [outcome] for a customer interaction and for a handled
    crisis, [context] for a success pattern, [emotion] and [outcome] for
    an emotional read; the other reports have no object read this way. *)
Definition readable (d : Report.t) : bool :=
  if decide (Report.type d = Some "CUSTOMER_INTERACTION"%string) then
    bool_decide (is_Some (Report.context d)) && bool_decide (is_Some (Report.outcome d))
  else if decide (Report.type d = Some "CRISIS_HANDLED"%string) then
    bool_decide (is_Some (Report.context d)) && bool_decide (is_Some (Report.outcome d))
  else if decide (Report.type d = Some "SUCCESS_PATTERN"%string) then
    bool_decide (is_Some (Report.context d))
  else if decide (Report.type d = Some "EMOTIONAL_READ"%string) then
    bool_decide (is_Some (Report.emotion d)) && bool_decide (is_Some (Report.outcome d))
  else true.

(** The coordinator after a method has run, whether it completed or
    threw. *)
Definition exec {A : Type} (m : M A) (st : t) : t := (m st).1.

(** Unfolds the method combinators. *)
Ltac run_method :=
  unfold exec, bind, object, ret, throw, modify, call, get in *; simpl in *.

(** A method that neither connects an agent nor sends on a socket. *)
Definition quiet (m : M unit) : Prop :=
  forall st, agents (m st).1 = agents st /\ sent (m st).1 = sent st.

(** The message [broadcastLearning] builds. *)
Definition learning_message (now : Z) (sourceAgent : string) (learning : json) : Learning.t :=
  {| Learning.type := "COLLECTIVE_LEARNING";
     Learning.source := sourceAgent;
     Learning.learning := learning;
     Learning.timestamp := now |}.

(** A run of [CrisisHandled] reports, oldest first. *)
Definition learn_crises (h : Helpers) (st : t) (rs : list (string * Context.t * Outcome.t)) : t :=
  fold_left (fun s r => exec (learnCrisisManagement h r.1.1 (Some r.1.2) (Some r.2)) s) rs st.

(** A run of [SuccessPattern] reports, oldest first, each with the clock
    at its arrival and the agent that sent it. *)
Definition record_successes (h : Helpers) (st : t)
    (rs : list (Z * string * Context.t * option Outcome.t)) : t :=
  fold_left (fun s r => exec (recordSuccessPattern h r.1.1.1 r.1.1.2 (Some r.1.2) r.2) s) rs st.

(** The crises of a run that [calculateEffectiveness] rates above 0.7
    and that are of type [k], oldest first. *)
Definition qualifying (h : Helpers) (k : option string)
    (rs : list (string * Context.t * Outcome.t)) : list Crisis.t :=
  filter (fun c => Crisis.type c = k /\ gt (calculateEffectiveness h c) (7 # 10) = true)
         (map (fun r => crisis_of r.1.2 r.2) rs).

(** The number of reports of a run whose action is [a]. *)
Definition action_count (a : option string)
    (rs : list (Z * string * Context.t * option Outcome.t)) : nat :=
  length (filter (fun r => Context.action r.1.2 = a) rs).

(** The patterns handed to [findSimilarPatterns] so far. *)
Definition seen_patterns (cs : list Call.t) : list Pattern.t :=
  omap (fun c => match c with Call.findSimilarPatterns p => Some p | _ => None end) cs.

(** Modelled from the spec: [findSimilarPatterns] is called by
    [recordSuccessPattern] and defined nowhere in the repository.
    Section 4.4 of the specification calls two reports similar when they
    share the same [action] value, conditions not being compared, and
    counts the report at hand among them ("exceeds 3, i.e. >= 4 total").
    The earlier reports are the arguments of the earlier calls. *)
Definition findSimilarPatterns_spec (st : t) (p : Pattern.t) : list Pattern.t :=
  filter (fun q => Pattern.action q = Pattern.action p) (seen_patterns (calls st) ++ [p]).

(** Modelled from the spec: [calculateEffectiveness] is called by
    [learnCrisisManagement] and defined nowhere in the repository.
    Section 4.3 of the specification asks for a deterministic function
    gated by [resolved] (an unresolved crisis never qualifies),
    decreasing in [duration] and increasing in [severity]; this one is
    the severity scaled by [60 / (60 + duration)]. *)
Definition calculateEffectiveness_spec (c : Crisis.t) : Q :=
  match Crisis.resolution c, Crisis.severity c, Crisis.timeToResolve c with
  | Some true, Some s, Some d => s * (60 / (60 + d))
  | _, _, _ => 0
  end.

(** Modelled from the spec: [extractAgentId] and [analyzeTeamDynamics]
    are defined nowhere in the repository.  The agent id is an opaque
    string taken from the connection request (section 4.1); the team
    effectiveness is a monotonic function of the reported success
    (section 4.6), here the reported satisfaction. *)
Definition helpers_spec : Helpers :=
  {| extractAgentId := fun req => match req with JStr s => s | _ => ""%string end;
     calculateEffectiveness := calculateEffectiveness_spec;
     findSimilarPatterns := findSimilarPatterns_spec;
     analyzeTeamDynamics := fun c =>
       default 0 (Collaboration.outcome c ≫= Outcome.satisfaction) |}.

(** *** Sample data *)

Definition no_context : Context.t :=
  {| Context.situation := None; Context.mood := JUndefined; Context.approach := JUndefined;
     Context.crisisType := None; Context.severity := None; Context.actions := JUndefined;
     Context.agentsInvolved := JUndefined; Context.action := None;
     Context.conditions := JUndefined |}.

Definition no_outcome : Outcome.t :=
  {| Outcome.satisfaction := None; Outcome.resolved := None; Outcome.duration := None;
     Outcome.effectiveness := None; Outcome.feedback := JUndefined |}.

(** A message of the given type carrying the given objects. *)
Definition report (type : string) (context : option Context.t) (outcome : option Outcome.t) : Report.t :=
  {| Report.type := Some type; Report.context := context; Report.outcome := outcome;
     Report.emotion := None; Report.learning := JStr type;
     Report.agents := JUndefined; Report.task := JUndefined; Report.coordination := JUndefined |}.

(** A resolved crisis of the given type, severity and duration. *)
Definition crisis_context (crisisType : string) (severity : Q) : Context.t :=
  {| Context.situation := None; Context.mood := JUndefined; Context.approach := JUndefined;
     Context.crisisType := Some crisisType; Context.severity := Some severity;
     Context.actions := JArr [JStr "evacuate"]; Context.agentsInvolved := JArr [JStr "marcus"];
     Context.action := None; Context.conditions := JUndefined |}.

Definition resolved_in (duration : Q) : Outcome.t :=
  {| Outcome.satisfaction := None; Outcome.resolved := Some true; Outcome.duration := Some duration;
     Outcome.effectiveness := None; Outcome.feedback := JUndefined |}.

(** A success report for the given action. *)
Definition success_context (action : string) : Context.t :=
  {| Context.situation := None; Context.mood := JUndefined; Context.approach := JUndefined;
     Context.crisisType := None; Context.severity := None; Context.actions := JUndefined;
     Context.agentsInvolved := JUndefined; Context.action := Some action;
     Context.conditions := JObj [("mood"%string, JStr "happy")] |}.

(** Five reports of the same action, sent in turn by two agents. *)
Definition five_desserts : list (Z * string * Context.t * option Outcome.t) :=
  [(1%Z, "marcus"%string, success_context "offer_dessert", None);
   (2%Z, "sophia"%string, success_context "offer_dessert", None);
   (3%Z, "marcus"%string, success_context "offer_dessert", None);
   (4%Z, "sophia"%string, success_context "offer_dessert", None);
   (5%Z, "marcus"%string, success_context "offer_dessert", None)].

(** Four reports of the same action. *)
Definition four_desserts : list (Z * string * Context.t * option Outcome.t) :=
  take 4 five_desserts.

(** Two agents connected with open sockets. *)
Definition two_agents : t :=
  with_agents [("marcus"%string, OPEN); ("sophia"%string, OPEN)] new.

End CollectiveIntelligence.

(** ** server.js: the learning endpoint *)

Module Server.
Import Js CollectiveIntelligence.

(** What the endpoint answers: [res.json({success: true, ...})] or
    [res.status(500).json({error: ...})]. *)
Inductive Response : Type :=
| Success (message : string)
| Status500 (error : string).

(** The answer of a request and what it wrote with [console.error]. *)
Record Handled : Type := {
  response : Response;
  console_error : list string
}.

(** [app.post('/api/intelligence/learn', ...)]: the body carries
    [agentId] and [interaction], and the call of
    [processAgentCommunication] sits in a [try]/[catch]. *)
Definition learn (h : Helpers) (now now' : Z) (agentId : string)
    (interaction : option Report.t) (st : CollectiveIntelligence.t)
    : CollectiveIntelligence.t * Handled :=
  match processAgentCommunication h now now' agentId interaction st with
  | (st', Normal _) =>
      (st', {| response := Success "Learning recorded"; console_error := [] |})
  | (st', Throw _) =>
      (st', {| response := Status500 "Failed to record learning";
               console_error := ["Learning error:"%string] |})
  end.

End Server.

(** ** class PredictiveEngine: the predictions *)

(** What [predictNextOrder] returns. *)
Module NextOrder.
Record t : Type := {
  items : list string;
  confidence : Q;
  reasoning : option string
}.
End NextOrder.

(** What [predictArrivalTime] returns. *)
Module ArrivalTime.
Record t : Type := {
  estimatedTime : string;
  probability : Q;
  alternativeTimes : list string
}.
End ArrivalTime.

(** An element of what [predictSpecialRequests] returns. *)
Module SpecialRequest.
Record t : Type := {
  type : string;
  action : string;
  confidence : Q
}.
End SpecialRequest.

(** What [predictSatisfaction] returns: the method is not defined, so
    the value is opaque but for the [confidence] it may carry. *)
Module Satisfaction.
Record t : Type := {
  value : Js.json;
  confidence : option Q
}.
End Satisfaction.

(** The bundle [predictCustomerNeeds] builds, in the order of its keys;
    [None] is a sub-prediction that is [undefined] or [null]. *)
Module Predictions.
Record t : Type := {
  nextOrder : option NextOrder.t;
  arrivalTime : option ArrivalTime.t;
  specialRequest : option (list SpecialRequest.t);
  satisfaction : option Satisfaction.t;
  churnRisk : option Q
}.
End Predictions.

(** An element of what [generateProactiveActions] returns; [time] and
    [items] are the properties only some action types have. *)
Module ProactiveAction.
Record t : Type := {
  type : string;
  time : option string;
  items : option (list string);
  priority : string;
  agent : string;
  action : string
}.
End ProactiveAction.

(** One day of what [forecastDemand] returns; [None] is the [NaN] that
    [Math.round] makes of a missing forecast value. *)
Module DayForecast.
Record t : Type := {
  date : Z;
  expectedCovers : option Z;
  peakHour : option Z;
  confidence : Q
}.
End DayForecast.

Module Forecast.
Record t : Type := {
  daily : list DayForecast.t;
  hourly : list Js.json;
  items : gmap string Js.json
}.
End Forecast.

(** The thresholds of [generateProactiveActions]. *)
Module Thresholds.
Record t : Type := {
  arrival : Q;
  order : Q;
  churn : Q;
  special : Q
}.
End Thresholds.

Module PredictiveEngine.
Import Js.

(** What the class calls but does not define, for the two predictions
    modelled here: its own missing methods, the trained models and the
    tensor constructor of TensorFlow.js.  Each may throw or reject. *)
Record Engine : Type := {
  getCustomerHistory : string -> completion (list json);
  extractOrderPatterns : list json -> list json;
  (** [dayOfWeek], [hour], [getCurrentSeason()], [getWeatherContext()] *)
  timeFactors : completion (list json);
  (** [models.customerBehavior.predict(tf.tensor3d([[...]]))] *)
  customerBehavior : list json -> completion (list Q);
  decodePrediction : list Q -> completion (list string);
  (** [prediction.max().dataSync()[0]] *)
  prediction_max : list Q -> Q;
  explainPrediction : list json -> list json -> string;
  getHistoricalDemand : completion (list (list Q));
  (** [tf.tensor2d(historicalData)] *)
  tensor2d : list (list Q) -> completion (list (list Q));
  (** [(await models.demandForecast.predict(timeSeries)).data()] *)
  demandForecast : list (list Q) -> completion (list Q);
  addDays : Z -> nat -> Z;
  calculateForecastConfidence : list (list Q) -> nat -> Q;
  getTopItems : completion (list (string * json));
  forecastItemDemand : string * json -> completion json
}.

Section Methods.
Variable e : Engine.

Definition predictNextOrder (customerId : string) : completion NextOrder.t :=
  and_then (getCustomerHistory e customerId) (fun history =>
  if (length history <? 3)%nat
  then Normal {| NextOrder.items := []; NextOrder.confidence := 0; NextOrder.reasoning := None |}
  else
    let patterns := extractOrderPatterns e history in
    and_then (timeFactors e) (fun factors =>
    and_then (customerBehavior e (patterns ++ factors)) (fun prediction =>
    and_then (decodePrediction e prediction) (fun items =>
    Normal {| NextOrder.items := items;
              NextOrder.confidence := prediction_max e prediction;
              NextOrder.reasoning := Some (explainPrediction e patterns factors) |})))).

(** The body of the loop [for (let i = 0; i < 7; i++)]. *)
Definition dayForecast (today : Z) (historicalData : list (list Q)) (forecastData : list Q)
    (i : nat) : DayForecast.t :=
  {| DayForecast.date := addDays e today i;
     DayForecast.expectedCovers := round <$> forecastData !! (i * 2)%nat;
     DayForecast.peakHour := round <$> forecastData !! (i * 2 + 1)%nat;
     DayForecast.confidence := calculateForecastConfidence e historicalData i |}.

(** [today] is [new Date()]. *)
Definition forecastDemand (today : Z) : completion Forecast.t :=
  and_then (getHistoricalDemand e) (fun historicalData =>
  and_then (tensor2d e historicalData) (fun timeSeries =>
  and_then (demandForecast e timeSeries) (fun forecastData =>
  let daily := map (dayForecast today historicalData forecastData) (seq 0 7) in
  and_then (getTopItems e) (fun topItems =>
  and_then (for_each (fun item => and_then (forecastItemDemand e item)
                                           (fun f => Normal (item.1, f))) topItems)
           (fun forecasts =>
  Normal {| Forecast.daily := daily;
            Forecast.hourly := [];
            Forecast.items := fold_left (fun m kv => <[kv.1 := kv.2]> m) forecasts ∅ |}))))).

End Methods.

Definition prepare_table (a : ArrivalTime.t) : ProactiveAction.t :=
  {| ProactiveAction.type := "PREPARE_TABLE";
     ProactiveAction.time := Some (ArrivalTime.estimatedTime a);
     ProactiveAction.items := None;
     ProactiveAction.priority := "high";
     ProactiveAction.agent := "marcus";
     ProactiveAction.action :=
       ("Prepare preferred table for customer arrival at " +:+ ArrivalTime.estimatedTime a)%string |}.

Definition prep_ingredients (o : NextOrder.t) : ProactiveAction.t :=
  {| ProactiveAction.type := "PREP_INGREDIENTS";
     ProactiveAction.time := None;
     ProactiveAction.items := Some (NextOrder.items o);
     ProactiveAction.priority := "medium";
     ProactiveAction.agent := "sophia";
     ProactiveAction.action :=
       ("Begin prep for likely order: " +:+ join ", " (NextOrder.items o))%string |}.

Definition retention : ProactiveAction.t :=
  {| ProactiveAction.type := "RETENTION";
     ProactiveAction.time := None;
     ProactiveAction.items := None;
     ProactiveAction.priority := "high";
     ProactiveAction.agent := "marcus";
     ProactiveAction.action := "Offer personalized promotion or complimentary item" |}.

Definition special_prep (request : SpecialRequest.t) : ProactiveAction.t :=
  {| ProactiveAction.type := "SPECIAL_PREP";
     ProactiveAction.time := None;
     ProactiveAction.items := None;
     ProactiveAction.priority := "high";
     ProactiveAction.agent :=
       if decide (SpecialRequest.type request = "birthday"%string) then "chen" else "marcus";
     ProactiveAction.action := SpecialRequest.action request |}.

(** [generateProactiveActions] with its four thresholds as a parameter. *)
Definition generateProactiveActions_at (t : Thresholds.t) (predictions : Predictions.t)
    : list ProactiveAction.t :=
  (match Predictions.arrivalTime predictions with
   | Some a => if gt (ArrivalTime.probability a) (Thresholds.arrival t) then [prepare_table a] else []
   | None => []
   end)
  ++ (match Predictions.nextOrder predictions with
      | Some o => if gt (NextOrder.confidence o) (Thresholds.order t) then [prep_ingredients o] else []
      | None => []
      end)
  ++ (if gt_opt (Predictions.churnRisk predictions) (Thresholds.churn t) then [retention] else [])
  ++ (match Predictions.specialRequest predictions with
      | Some requests =>
          map special_prep
              (filter (fun r => gt (SpecialRequest.confidence r) (Thresholds.special t) = true)
                      requests)
      | None => []
      end).

(** The thresholds written in the source. *)
Definition configured : Thresholds.t :=
  {| Thresholds.arrival := 7 # 10; Thresholds.order := 8 # 10;
     Thresholds.churn := 6 # 10; Thresholds.special := 8 # 10 |}.

Definition generateProactiveActions (predictions : Predictions.t) : list ProactiveAction.t :=
  (match Predictions.arrivalTime predictions with
   | Some a => if gt (ArrivalTime.probability a) (7 # 10) then [prepare_table a] else []
   | None => []
   end)
  ++ (match Predictions.nextOrder predictions with
      | Some o => if gt (NextOrder.confidence o) (8 # 10) then [prep_ingredients o] else []
      | None => []
      end)
  ++ (if gt_opt (Predictions.churnRisk predictions) (6 # 10) then [retention] else [])
  ++ (match Predictions.specialRequest predictions with
      | Some requests =>
          map special_prep
              (filter (fun r => gt (SpecialRequest.confidence r) (8 # 10) = true) requests)
      | None => []
      end).

(** [p?.confidence] for each of [Object.values(predictions)]: an arrival
    time, an array and a number have no such property. *)
Definition confidence_readings (predictions : Predictions.t) : list (option Q) :=
  [ NextOrder.confidence <$> Predictions.nextOrder predictions;
    None;
    None;
    Predictions.satisfaction predictions ≫= Satisfaction.confidence;
    None ].

(** The values that pass [filter(p => p?.confidence)]: a confidence that
    is [undefined] or [0] is falsy. *)
Definition truthy_confidences (readings : list (option Q)) : list Q :=
  omap (fun c => match c with
                 | Some q => if Qeq_bool q 0 then None else Some q
                 | None => None
                 end) readings.

Definition weights : list Q := [3 # 10; 2 # 10; 2 # 10; 15 # 100; 15 # 100].

(** [weights[i] || 0.1] *)
Definition weight_at (i : nat) : Q := default (1 # 10) (weights !! i).

Definition calculateConfidence_of (readings : list (option Q)) : Q :=
  let confidences := truthy_confidences readings in
  match confidences with
  | [] => 0
  | _ :: _ => reduce_indexed (fun sum conf i => sum + conf * weight_at i) confidences 0%nat 0
  end.

Definition calculateConfidence (predictions : Predictions.t) : Q :=
  calculateConfidence_of (confidence_readings predictions).

(** Thresholds [t'] that are nowhere above [t]. *)
Definition lowered (t' t : Thresholds.t) : Prop :=
  Thresholds.arrival t' <= Thresholds.arrival t
  /\ Thresholds.order t' <= Thresholds.order t
  /\ Thresholds.churn t' <= Thresholds.churn t
  /\ Thresholds.special t' <= Thresholds.special t.

(** The thresholds are literals of the source and each test compares a
    value of the bundle with its literal, so lowering a threshold by a
    margin is moving the value up by that margin: the bundle
    [predictions] with the arrival probability, the order confidence,
    the churn risk and the request confidences moved up by the margins
    [margins]. *)
Definition raised (margins : Thresholds.t) (predictions : Predictions.t) : Predictions.t :=
  {| Predictions.nextOrder :=
       (fun o => {| NextOrder.items := NextOrder.items o;
                    NextOrder.confidence := NextOrder.confidence o + Thresholds.order margins;
                    NextOrder.reasoning := NextOrder.reasoning o |})
       <$> Predictions.nextOrder predictions;
     Predictions.arrivalTime :=
       (fun a => {| ArrivalTime.estimatedTime := ArrivalTime.estimatedTime a;
                    ArrivalTime.probability := ArrivalTime.probability a + Thresholds.arrival margins;
                    ArrivalTime.alternativeTimes := ArrivalTime.alternativeTimes a |})
       <$> Predictions.arrivalTime predictions;
     Predictions.specialRequest :=
       map (fun r => {| SpecialRequest.type := SpecialRequest.type r;
                        SpecialRequest.action := SpecialRequest.action r;
                        SpecialRequest.confidence :=
                          SpecialRequest.confidence r + Thresholds.special margins |})
       <$> Predictions.specialRequest predictions;
     Predictions.satisfaction := Predictions.satisfaction predictions;
     Predictions.churnRisk := (fun c => c + Thresholds.churn margins) <$> Predictions.churnRisk predictions |}.

(** The thresholds of the source lowered by the margins [margins]. *)
Definition lowered_by (margins : Thresholds.t) : Thresholds.t :=
  {| Thresholds.arrival := (7 # 10) - Thresholds.arrival margins;
     Thresholds.order := (8 # 10) - Thresholds.order margins;
     Thresholds.churn := (6 # 10) - Thresholds.churn margins;
     Thresholds.special := (8 # 10) - Thresholds.special margins |}.

(** What justifies an action [a] of the result: the prediction it is
    derived from, above its threshold. *)
Definition justified (t : Thresholds.t) (predictions : Predictions.t) (a : ProactiveAction.t) : Prop :=
  (exists p, Predictions.arrivalTime predictions = Some p
             /\ Thresholds.arrival t < ArrivalTime.probability p /\ a = prepare_table p)
  \/ (exists o, Predictions.nextOrder predictions = Some o
                /\ Thresholds.order t < NextOrder.confidence o /\ a = prep_ingredients o)
  \/ (exists c, Predictions.churnRisk predictions = Some c
                /\ Thresholds.churn t < c /\ a = retention)
  \/ (exists requests r, Predictions.specialRequest predictions = Some requests
                         /\ r ∈ requests
                         /\ Thresholds.special t < SpecialRequest.confidence r
                         /\ a = special_prep r).

(** *** Sample data *)

Definition tensor2d_error : error :=
  Error "tensor2d() requires shape to be provided when `values` are a flat/TypedArray".

(** An engine with no demand history, whose tensor constructor rejects,
    as [tf.tensor2d] does, an array that is not a non-empty list of rows,
    and whose forecast confidence is the share of a week of history
    available. *)
Definition no_history : Engine :=
  {| getCustomerHistory := fun _ => Normal [];
     extractOrderPatterns := fun hist => hist;
     timeFactors := Normal [];
     customerBehavior := fun _ => Normal [];
     decodePrediction := fun _ => Normal [];
     prediction_max := fun _ => 0;
     explainPrediction := fun _ _ => ""%string;
     getHistoricalDemand := Normal [];
     tensor2d := fun d =>
       match d with
       | [] => Throw tensor2d_error
       | _ :: _ => Normal d
       end;
     demandForecast := fun _ => Normal [];
     addDays := fun today i => (today + Z.of_nat i)%Z;
     calculateForecastConfidence := fun d _ => inject_Z (Z.of_nat (Nat.min 7 (length d))) / 7;
     getTopItems := Normal [];
     forecastItemDemand := fun _ => Normal JNull |}.

(** Margins of one fifth. *)
Definition fifth : Thresholds.t :=
  {| Thresholds.arrival := 1 # 5; Thresholds.order := 1 # 5;
     Thresholds.churn := 1 # 5; Thresholds.special := 1 # 5 |}.

(** A bundle just below every threshold: a table at 19:30 with
    probability 0.6, an order of soup with confidence 0.7, a churn risk
    of 0.5 and a birthday request of confidence 0.7. *)
Definition hesitant : Predictions.t :=
  {| Predictions.nextOrder :=
       Some {| NextOrder.items := ["soup"%string]; NextOrder.confidence := 7 # 10;
               NextOrder.reasoning := None |};
     Predictions.arrivalTime :=
       Some {| ArrivalTime.estimatedTime := "19:30"; ArrivalTime.probability := 6 # 10;
               ArrivalTime.alternativeTimes := [] |};
     Predictions.specialRequest :=
       Some [ {| SpecialRequest.type := "birthday"; SpecialRequest.action := "Prepare cake";
                 SpecialRequest.confidence := 7 # 10 |} ];
     Predictions.satisfaction := None;
     Predictions.churnRisk := Some (5 # 10) |}.

(** Thresholds all at one half. *)
Definition halved : Thresholds.t :=
  {| Thresholds.arrival := 1 # 2; Thresholds.order := 1 # 2;
     Thresholds.churn := 1 # 2; Thresholds.special := 1 # 2 |}.

(** A bundle as [predictCustomerNeeds] builds it: the next order is
    predicted with full confidence, the arrival with probability 0.9,
    there is no special request and no satisfaction prediction, and the
    churn risk is 0.2.  Only the next order has a [confidence]. *)
Definition confident_order : Predictions.t :=
  {| Predictions.nextOrder :=
       Some {| NextOrder.items := ["soup"%string]; NextOrder.confidence := 1;
               NextOrder.reasoning := None |};
     Predictions.arrivalTime :=
       Some {| ArrivalTime.estimatedTime := "19:30"; ArrivalTime.probability := 9 # 10;
               ArrivalTime.alternativeTimes := [] |};
     Predictions.specialRequest := Some [];
     Predictions.satisfaction := None;
     Predictions.churnRisk := Some (2 # 10) |}.

End PredictiveEngine.

(** ** Orders used by the sorts of the code *)

Module Ranking.

(** Non-increasing key. *)
Definition descending {A : Type} (key : A -> Q) (a b : A) : Prop := key b <= key a.

(** A node whose three edges all have the default weight. *)
Definition regulars : Graph.t :=
  {| Graph.nodes := {[ "marcus"%string := Js.JNull ]};
     Graph.edges := {[ "marcus"%string :=
                         [ {| Graph.to := "sophia"; Graph.weight := 1 |};
                           {| Graph.to := "chen"; Graph.weight := 1 |};
                           {| Graph.to := "elena"; Graph.weight := 1 |} ] ]} |}.

End Ranking.

(** ** More of class SharedMemory: runs of profile updates *)

Module Profiles.
Import Js SharedMemory.

(** A run of [updateCustomerProfile] calls, oldest first. *)
Definition update_all (tx : Text) (sm : SharedMemory.t) (us : list (string * Interaction.t))
    : SharedMemory.t :=
  fold_left (fun s u => (updateCustomerProfile tx s u.1 u.2).1) us sm.

(** The interactions of a run that concern one customer, oldest first. *)
Definition interactions_of (customerId : string) (us : list (string * Interaction.t))
    : list Interaction.t :=
  map snd (filter (fun u => u.1 = customerId) us).

(** A profile whose three derived lists hold no value twice and whose
    preferences are among the keywords [extractDietaryInfo] looks for. *)
Definition tidy (p : Profile.t) : Prop :=
  NoDup (Profile.favorite_items p)
  /\ NoDup (Profile.allergies p)
  /\ NoDup (Profile.preferences p)
  /\ Profile.preferences p ⊆ preferenceKeywords.

(** The profile stored for a customer once [updateCustomerProfile] has
    run, whether it returned or threw. *)
Definition stored (tx : Text) (sm : SharedMemory.t) (customerId : string)
    (interaction : Interaction.t) : Profile.t :=
  default (new_profile customerId)
          (customerProfiles (updateCustomerProfile tx sm customerId interaction).1 !! customerId).

(** The text environment as the code meets it: the analyzer of the
    package iterates over an array of words and throws on the string it
    is handed; a keyword is found when the text, here already in lower
    case, includes it, and the word after [allergic to] is found when it
    is [nuts]. *)
Definition natural_text : Text :=
  {| getSentiment := fun _ => Throw TypeError;
     lower_includes := fun text keyword => bool_decide (is_Some (String.index 0 keyword text));
     match_keyword_to := fun keyword text =>
       if bool_decide (is_Some (String.index 0 (keyword +:+ " to nuts") text))
       then Some "nuts"%string else None |}.

(** An interaction that carries dietary notes and no items. *)
Definition dietary_notes : Interaction.t :=
  {| Interaction.sentiment := Some (1 # 2);
     Interaction.items := None;
     Interaction.feedback := None;
     Interaction.notes := Some "vegan, allergic to nuts"%string |}.

(** An interaction with two dishes, a feedback and dietary notes. *)
Definition dinner : Interaction.t :=
  {| Interaction.sentiment := Some (9 # 10);
     Interaction.items := Some ["soup"; "soup"; "risotto"]%string;
     Interaction.feedback := Some "wonderful"%string;
     Interaction.notes := Some "vegan, allergic to nuts"%string |}.

(** An emotional read that reports no effectiveness. *)
Definition unrated_dessert : EmotionalData :=
  {| detected := Some "sad"%string; response := Some "dessert"%string;
     effectiveness := None; customerFeedback := JNull |}.

End Profiles.

(** ** More of class CollectiveIntelligence *)

(** An element of what [findSimilarContext] returns. *)
Module Situation.
Record t : Type := {
  bestAction : Js.json;
  successRate : Q;
  dataPoints : Q
}.
End Situation.

(** An element of what [predictNextAction] returns. *)
Module ActionPrediction.
Record t : Type := {
  action : Js.json;
  probability : Q;
  confidence : Q
}.
End ActionPrediction.

Module Coordinator.
Import Js CollectiveIntelligence.

(** The key of the sort in [predictNextAction]. *)
Definition score (p : ActionPrediction.t) : Q :=
  ActionPrediction.probability p * ActionPrediction.confidence p.

Definition prediction_of (situation : Situation.t) : ActionPrediction.t :=
  {| ActionPrediction.action := Situation.bestAction situation;
     ActionPrediction.probability := Situation.successRate situation;
     ActionPrediction.confidence := Situation.dataPoints situation / 100 |}.

(** [findSimilarContext] is called and not defined: it is an argument. *)
Definition predictNextAction
    (findSimilarContext : CollectiveIntelligence.t -> json -> list Situation.t)
    (context : json) (st : CollectiveIntelligence.t) : list ActionPrediction.t :=
  let similarSituations := findSimilarContext st context in
  let predictions := map prediction_of similarSituations in
  sort (fun a b =>
          ActionPrediction.probability b * ActionPrediction.confidence b
          - ActionPrediction.probability a * ActionPrediction.confidence a)
       predictions.

(** A run of [CustomerInteraction] reports, oldest first, each with the
    clock at its arrival and the agent that sent it. *)
Definition learn_interactions (st : CollectiveIntelligence.t)
    (rs : list (Z * string * Context.t * Outcome.t)) : CollectiveIntelligence.t :=
  fold_left (fun s r => exec (learnFromCustomerInteraction r.1.1.1 r.1.1.2 (Some r.1.2) (Some r.2)) s)
            rs st.

(** The record [learnFromCustomerInteraction] builds from a report. *)
Definition customer_pattern (r : Z * string * Context.t * Outcome.t) : CustomerPattern.t :=
  {| CustomerPattern.situation := Context.situation r.1.2;
     CustomerPattern.customerMood := Context.mood r.1.2;
     CustomerPattern.approach := Context.approach r.1.2;
     CustomerPattern.result := Outcome.satisfaction r.2;
     CustomerPattern.timestamp := r.1.1.1 |}.

(** The patterns of a run filed under one situation, oldest first. *)
Definition patterns_for (k : option string) (rs : list (Z * string * Context.t * Outcome.t))
    : list CustomerPattern.t :=
  map customer_pattern (filter (fun r => Context.situation r.1.2 = k) rs).

(** The calls a run of customer interactions makes, in order. *)
Definition interaction_calls (rs : list (Z * string * Context.t * Outcome.t)) : list Call.t :=
  concat (map (fun r =>
    (if gt_opt (Outcome.satisfaction r.2) (8 # 10)
     then [Call.extractBestPractice (customer_pattern r)] else [])
    ++ [Call.notifyRelevantAgents (Context.situation r.1.2) (customer_pattern r)]) rs).

(** What happens to a coordinator: a socket connects, a frame arrives
    on the socket of an agent, a request reaches the learning endpoint of
    the server, or the socket of an agent changes its [readyState]. *)
Inductive Event : Type :=
| Connect (ws : ReadyState) (req : json)
| Message (now now' : Z) (agentId : string) (frame : Frame)
| Learn (now now' : Z) (agentId : string) (interaction : option Report.t)
| Socket (agentId : string) (readyState : ReadyState).

Definition step (h : Helpers) (ev : Event) (st : CollectiveIntelligence.t)
    : CollectiveIntelligence.t :=
  match ev with
  | Connect ws req => exec (onConnection h ws req) st
  | Message now now' agentId frame => exec (onMessage h now now' agentId frame) st
  | Learn now now' agentId interaction => (Server.learn h now now' agentId interaction st).1
  | Socket agentId readyState =>
      with_agents (map (fun a => if decide (a.1 = agentId) then (a.1, readyState) else a)
                       (agents st)) st
  end.

Definition run (h : Helpers) (st : CollectiveIntelligence.t) (evs : list Event)
    : CollectiveIntelligence.t :=
  fold_left (fun s ev => step h ev s) evs st.

(** The ids of the registered agents. *)
Definition agent_ids (st : CollectiveIntelligence.t) : list string := map fst (agents st).

(** A customer interaction rated [satisfaction] in a given situation. *)
Definition interaction_context (situation : string) : Context.t :=
  {| Context.situation := Some situation; Context.mood := JStr "calm";
     Context.approach := JStr "listen"; Context.crisisType := None; Context.severity := None;
     Context.actions := JUndefined; Context.agentsInvolved := JUndefined;
     Context.action := None; Context.conditions := JUndefined |}.

Definition satisfied (satisfaction : Q) : Outcome.t :=
  {| Outcome.satisfaction := Some satisfaction; Outcome.resolved := None;
     Outcome.duration := None; Outcome.effectiveness := None; Outcome.feedback := JUndefined |}.

(** Two situations the coordinator has seen before. *)
Definition seen_before (st : CollectiveIntelligence.t) (context : json) : list Situation.t :=
  [ {| Situation.bestAction := JStr "apologise"; Situation.successRate := 1 # 2;
       Situation.dataPoints := 40 |};
    {| Situation.bestAction := JStr "offer dessert"; Situation.successRate := 9 # 10;
       Situation.dataPoints := 250 |} ].

End Coordinator.

(** ** More of class PredictiveEngine *)

(** What [getArrivalPatterns] returns. *)
Module ArrivalPatterns.
Record t : Type := {
  lastReservation : Js.json;
  averageArrivalTime : Js.json
}.
End ArrivalPatterns.

(** The [context] of a prediction request: the properties the engine
    reads, and those the coordinator reads when the server hands it the
    same object. *)
Module RequestContext.
Record t : Type := {
  fields : Context.t;
  dayOfWeek : Js.json;
  specialEvent : Js.json;
  weather : Js.json
}.
End RequestContext.

(** The [factors] object of [predictArrivalTime]. *)
Module Factors.
Record t : Type := {
  lastReservation : Js.json;
  averageTime : Js.json;
  dayOfWeek : Js.json;
  specialEvent : Js.json;
  weather : Js.json;
  traffic : Js.json
}.
End Factors.

(** What [getCustomerProfile] returns; [dietaryHistory] is [None] when
    it is missing or falsy. *)
Module CustomerRecord.
Record t : Type := {
  birthday : Js.json;
  visits : Js.json;
  dietaryHistory : option Js.json
}.
End CustomerRecord.

(** What [optimizeDaySchedule] returns. *)
Module DaySchedule.
Record t : Type := {
  plan : Js.json;
  cost : Q
}.
End DaySchedule.

(** What [optimizeStaffing] returns. *)
Module Optimization.
Record t : Type := {
  schedule : list DaySchedule.t;
  cost : Q;
  serviceLevel : Q;
  recommendations : Js.json
}.
End Optimization.

(** The [factors] object of [predictRevenue]. *)
Module RevenueFactors.
Record t : Type := {
  historicalRevenue : Js.json;
  bookings : Js.json;
  events : Js.json;
  seasonality : Js.json;
  marketing : Js.json;
  competition : Js.json
}.
End RevenueFactors.

(** What [predictRevenue] returns; [None] is the [undefined] or [NaN]
    that an empty model output gives. *)
Module Revenue.
Record t : Type := {
  expected : option Q;
  bestCase : option Q;
  worstCase : option Q;
  confidence : Q;
  breakdown : Js.json;
  opportunities : Js.json
}.
End Revenue.

(** What [predictCustomerNeeds] returns. *)
Module Needs.
Record t : Type := {
  predictions : Predictions.t;
  actions : list ProactiveAction.t;
  confidence : Q
}.
End Needs.

Module Engine.
Import Js PredictiveEngine.

(** The other methods the class calls and does not define. *)
Record Rest : Type := {
  getArrivalPatterns : string -> completion (option ArrivalPatterns.t);
  getTrafficData : completion json;
  generateTimeSlots : list string;
  calculateArrivalProbability : string -> Factors.t -> Q;
  getAlternativeTimes : list (string * Q) -> list string;
  getCustomerProfile : string -> completion (option CustomerRecord.t);
  isNearBirthday : json -> Z -> bool;
  isNearAnniversary : json -> Z -> bool;
  predictDietaryNeeds : json -> SpecialRequest.t;
  predictSatisfaction : option RequestContext.t -> completion (option Satisfaction.t);
  predictChurnRisk : string -> completion (option Q);
  getStaffAvailability : completion json;
  optimizeDaySchedule : DayForecast.t -> json -> json -> DaySchedule.t;
  calculateServiceLevel : list DaySchedule.t -> Forecast.t -> Q;
  generateStaffingRecommendations : list DaySchedule.t -> Q -> Q -> Forecast.t -> json;
  getHistoricalRevenue : Q -> completion json;
  getBookings : Q -> completion json;
  getScheduledEvents : Q -> completion json;
  getSeasonalityFactor : json;
  getMarketingImpact : completion json;
  getCompetitiveFactors : completion json;
  (** [prepareRevenueInputs], [models.revenue.predict] and [data()] *)
  revenueModel : RevenueFactors.t -> completion (list Q);
  calculateRevenueConfidence : RevenueFactors.t -> Q;
  generateRevenueBreakdown : list Q -> RevenueFactors.t -> json;
  identifyRevenueOpportunities : RevenueFactors.t -> json
}.

Section Methods.
Variable e : Engine.
Variable r : Rest.

(** The [probabilities] map: one entry per slot, in the order the slots
    first appear. *)
Definition arrival_probabilities (factors : Factors.t) : list (string * Q) :=
  fold_left (fun m slot =>
               CollectiveIntelligence.map_set slot (calculateArrivalProbability r slot factors) m)
            (generateTimeSlots r) [].

Definition arrival_factors (patterns : ArrivalPatterns.t) (context : RequestContext.t)
    (traffic : json) : Factors.t :=
  {| Factors.lastReservation := ArrivalPatterns.lastReservation patterns;
     Factors.averageTime := ArrivalPatterns.averageArrivalTime patterns;
     Factors.dayOfWeek := RequestContext.dayOfWeek context;
     Factors.specialEvent := RequestContext.specialEvent context;
     Factors.weather := RequestContext.weather context;
     Factors.traffic := traffic |}.

Definition predictArrivalTime (customerId : string) (context : option RequestContext.t)
    : completion ArrivalTime.t :=
  and_then (getArrivalPatterns r customerId) (fun patterns =>
  match patterns with
  | None => Throw TypeError
  | Some patterns =>
  match context with
  | None => Throw TypeError
  | Some context =>
  and_then (getTrafficData r) (fun traffic =>
  let factors := arrival_factors patterns context traffic in
  let probabilities := arrival_probabilities factors in
  match sort (fun a b => b.2 - a.2) probabilities with
  | [] => Throw TypeError
  | mostLikely :: _ =>
      Normal {| ArrivalTime.estimatedTime := mostLikely.1;
                ArrivalTime.probability := mostLikely.2;
                ArrivalTime.alternativeTimes := getAlternativeTimes r probabilities |}
  end)
  end
  end).

Definition birthday_request : SpecialRequest.t :=
  {| SpecialRequest.type := "birthday";
     SpecialRequest.action := "Prepare birthday dessert";
     SpecialRequest.confidence := 95 # 100 |}.

Definition anniversary_request : SpecialRequest.t :=
  {| SpecialRequest.type := "anniversary";
     SpecialRequest.action := "Reserve special table";
     SpecialRequest.confidence := 85 # 100 |}.

(** [date] is [new Date()]. *)
Definition predictSpecialRequests (customerId : string) (date : Z)
    : completion (list SpecialRequest.t) :=
  and_then (getCustomerProfile r customerId) (fun profile =>
  match profile with
  | None => Throw TypeError
  | Some profile =>
      Normal
        ((if isNearBirthday r (CustomerRecord.birthday profile) date
          then [birthday_request] else [])
         ++ (if isNearAnniversary r (CustomerRecord.visits profile) date
             then [anniversary_request] else [])
         ++ (match CustomerRecord.dietaryHistory profile with
             | Some history =>
                 let dietary := predictDietaryNeeds r history in
                 if gt (SpecialRequest.confidence dietary) (7 # 10) then [dietary] else []
             | None => []
             end))
  end).

Definition predictCustomerNeeds (customerId : string) (context : option RequestContext.t)
    (date : Z) : completion Needs.t :=
  and_then (predictNextOrder e customerId) (fun nextOrder =>
  and_then (predictArrivalTime customerId context) (fun arrivalTime =>
  and_then (predictSpecialRequests customerId date) (fun specialRequest =>
  and_then (predictSatisfaction r context) (fun satisfaction =>
  and_then (predictChurnRisk r customerId) (fun churnRisk =>
  let predictions :=
    {| Predictions.nextOrder := Some nextOrder;
       Predictions.arrivalTime := Some arrivalTime;
       Predictions.specialRequest := Some specialRequest;
       Predictions.satisfaction := satisfaction;
       Predictions.churnRisk := churnRisk |} in
  Normal {| Needs.predictions := predictions;
            Needs.actions := generateProactiveActions predictions;
            Needs.confidence := calculateConfidence predictions |}))))).

Definition optimizeStaffing (today : Z) (constraints : json) : completion Optimization.t :=
  and_then (forecastDemand e today) (fun demand =>
  and_then (getStaffAvailability r) (fun staffAvailability =>
  let schedule :=
    map (fun day => optimizeDaySchedule r day staffAvailability constraints)
        (Forecast.daily demand) in
  let cost := fold_left (fun c daySchedule => c + DaySchedule.cost daySchedule) schedule 0 in
  let serviceLevel := calculateServiceLevel r schedule demand in
  Normal {| Optimization.schedule := schedule;
            Optimization.cost := cost;
            Optimization.serviceLevel := serviceLevel;
            Optimization.recommendations :=
              generateStaffingRecommendations r schedule cost serviceLevel demand |})).

(** [timeframe] is 30 when the caller gives none. *)
Definition predictRevenue (timeframe : option Q) : completion Revenue.t :=
  let timeframe := default 30 timeframe in
  and_then (getHistoricalRevenue r (timeframe * 2)) (fun historicalRevenue =>
  and_then (getBookings r timeframe) (fun bookings =>
  and_then (getScheduledEvents r timeframe) (fun events =>
  and_then (getMarketingImpact r) (fun marketing =>
  and_then (getCompetitiveFactors r) (fun competition =>
  let factors :=
    {| RevenueFactors.historicalRevenue := historicalRevenue;
       RevenueFactors.bookings := bookings;
       RevenueFactors.events := events;
       RevenueFactors.seasonality := getSeasonalityFactor r;
       RevenueFactors.marketing := marketing;
       RevenueFactors.competition := competition |} in
  and_then (revenueModel r factors) (fun revenueData =>
  Normal {| Revenue.expected := revenueData !! 0%nat;
            Revenue.bestCase := (fun x => x * (12 # 10)) <$> revenueData !! 0%nat;
            Revenue.worstCase := (fun x => x * (8 # 10)) <$> revenueData !! 0%nat;
            Revenue.confidence := calculateRevenueConfidence r factors;
            Revenue.breakdown := generateRevenueBreakdown r revenueData factors;
            Revenue.opportunities := identifyRevenueOpportunities r factors |})))))).

End Methods.

(** *** Sample data *)

(** An engine that knows a returning customer: five past orders, two
    weeks of demand history and a model output for each of them. *)
Definition regular_engine : Engine :=
  {| getCustomerHistory := fun _ => Normal [JStr "soup"; JStr "soup"; JStr "risotto";
                                             JStr "soup"; JStr "tiramisu"];
     extractOrderPatterns := fun hist => hist;
     timeFactors := Normal [JNum 5; JNum 19];
     customerBehavior := fun _ => Normal [9 # 10; 1 # 10];
     decodePrediction := fun _ => Normal ["soup"%string];
     prediction_max := fun p => default 0 (head p);
     explainPrediction := fun _ _ => "orders soup on Fridays"%string;
     getHistoricalDemand := Normal (repeat [40; 19] 14);
     tensor2d := fun d => match d with [] => Throw tensor2d_error | _ :: _ => Normal d end;
     demandForecast := fun d => Normal (concat (take 6 d));
     addDays := fun today i => (today + Z.of_nat i)%Z;
     calculateForecastConfidence := fun d _ => inject_Z (Z.of_nat (Nat.min 7 (length d))) / 7;
     getTopItems := Normal [("soup"%string, JNum 12); ("risotto"%string, JNum 7);
                            ("soup"%string, JNum 13)];
     forecastItemDemand := fun item => Normal item.2 |}.

(** The rest of the engine for a customer near the birthday, with a
    dietary prediction of confidence 0.75 and three time slots. *)
Definition regular_rest : Rest :=
  {| getArrivalPatterns := fun _ =>
       Normal (Some {| ArrivalPatterns.lastReservation := JStr "19:00";
                       ArrivalPatterns.averageArrivalTime := JStr "19:30" |});
     getTrafficData := Normal (JStr "light");
     generateTimeSlots := ["18:00"; "19:30"; "21:00"; "19:30"]%string;
     calculateArrivalProbability := fun slot _ =>
       if decide (slot = "19:30"%string) then 8 # 10 else 1 # 10;
     getAlternativeTimes := fun probabilities => map fst probabilities;
     getCustomerProfile := fun _ =>
       Normal (Some {| CustomerRecord.birthday := JStr "11-03";
                       CustomerRecord.visits := JArr [];
                       CustomerRecord.dietaryHistory := Some (JStr "vegan") |});
     isNearBirthday := fun _ _ => true;
     isNearAnniversary := fun _ _ => false;
     predictDietaryNeeds := fun _ =>
       {| SpecialRequest.type := "dietary"; SpecialRequest.action := "Offer vegan menu";
          SpecialRequest.confidence := 75 # 100 |};
     predictSatisfaction := fun _ =>
       Normal (Some {| Satisfaction.value := JNum (9 # 10); Satisfaction.confidence := Some 1 |});
     predictChurnRisk := fun _ => Normal (Some (2 # 10));
     getStaffAvailability := Normal JNull;
     optimizeDaySchedule := fun day _ _ =>
       {| DaySchedule.plan := JNull;
          DaySchedule.cost := inject_Z (default 0%Z (DayForecast.expectedCovers day)) * 3 |};
     calculateServiceLevel := fun _ _ => 1;
     generateStaffingRecommendations := fun _ _ _ _ => JNull;
     getHistoricalRevenue := fun _ => Normal JNull;
     getBookings := fun _ => Normal JNull;
     getScheduledEvents := fun _ => Normal JNull;
     getSeasonalityFactor := JNum 1;
     getMarketingImpact := Normal JNull;
     getCompetitiveFactors := Normal JNull;
     revenueModel := fun _ => Normal [-500];
     calculateRevenueConfidence := fun _ => 1 # 2;
     generateRevenueBreakdown := fun _ _ => JNull;
     identifyRevenueOpportunities := fun _ => JNull |}.

(** A request context for a Friday evening. *)
Definition friday : RequestContext.t :=
  {| RequestContext.fields := Coordinator.interaction_context "reservation";
     RequestContext.dayOfWeek := JNum 5;
     RequestContext.specialEvent := JNull;
     RequestContext.weather := JStr "rain" |}.

End Engine.

(** ** server.js: the prediction endpoint *)

Module Api.
Import Js CollectiveIntelligence.

(** What the endpoint answers: [res.json(predictions)] or
    [res.status(500).json({error: ...})]. *)
Inductive Response : Type :=
| Predicted (predictions : Needs.t)
| Status500 (error : string).

Record Handled : Type := {
  response : Response;
  console_error : list string
}.

(** The message the endpoint hands to the coordinator: the [outcome]
    object holds the predictions and nothing the coordinator reads. *)
Definition shared_report (context : option RequestContext.t) : Report.t :=
  {| Report.type := Some "CUSTOMER_INTERACTION"%string;
     Report.context := RequestContext.fields <$> context;
     Report.outcome := Some no_outcome;
     Report.emotion := None;
     Report.learning := JUndefined;
     Report.agents := JUndefined;
     Report.task := JUndefined;
     Report.coordination := JUndefined |}.

(** [app.post('/api/intelligence/predict', ...)]: the body carries
    [customerId] and [context]; [date] is the clock of the engine, [now]
    and [now'] the clocks of the coordinator. *)
Definition predict (e : PredictiveEngine.Engine) (r : Engine.Rest) (h : Helpers)
    (date now now' : Z) (customerId : string) (context : option RequestContext.t)
    (st : CollectiveIntelligence.t) : CollectiveIntelligence.t * Handled :=
  let failed := {| response := Status500 "Failed to generate predictions";
                   console_error := ["Prediction error:"%string] |} in
  match Engine.predictCustomerNeeds e r customerId context date with
  | Throw _ => (st, failed)
  | Normal predictions =>
      match processAgentCommunication h now now' "api" (Some (shared_report context)) st with
      | (st', Normal _) => (st', {| response := Predicted predictions; console_error := [] |})
      | (st', Throw _) => (st', failed)
      end
  end.

End Api.

(** * Properties *)

(** ** Arithmetic and array helpers *)

Section Js_facts.
Import Js.

Lemma gt_spec (a b : Q) : gt a b = true <-> b < a.
Proof.
  unfold gt. rewrite negb_true_iff, <- not_true_iff_false, Qle_bool_iff.
  split; [apply Qnot_le_lt | apply Qlt_not_le].
Qed.

Lemma gt_false (a b : Q) : gt a b = false <-> a <= b.
Proof.
  unfold gt. rewrite negb_false_iff. apply Qle_bool_iff.
Qed.




End Js_facts.

(** ** Relationship graph *)

Section Graph_facts.
Import Js Graph.








End Graph_facts.

(** ** Shared memory: the emotional response matrix *)

Section EmotionalMatrix_facts.
Import Js SharedMemory.

Lemma submit_all_snoc (sm : SharedMemory.t) (subs : list EmotionalData) (d : EmotionalData) :
  submit_all sm (subs ++ [d]) = updateEmotionalMatrix (submit_all sm subs) d.
Proof. unfold submit_all. apply fold_left_app. Qed.

Lemma submissions_for_snoc (key : string) (subs : list EmotionalData) (d : EmotionalData) :
  submissions_for key (subs ++ [d]) =
  submissions_for key subs ++ (if decide (cell_key d = key) then [d] else []).
Proof.
  unfold submissions_for. rewrite filter_app. f_equal.
Qed.

Lemma sum_samples_numeric (qs : list Q) (a : Q) :
  exists s, fold_left add_sample (map Some qs) (Some a) = Some s
            /\ s == a + fold_right Qplus 0 qs.
Proof.
  revert a. induction qs as [|q qs IH]; intros a; simpl.
  - exists a. split; [reflexivity | lra].
  - destruct (IH (a + q)) as [s [Hs Heq]]. exists s. split; [exact Hs | lra].
Qed.

Lemma submit_all_lookup (subs : list EmotionalData) (key : string) :
  emotionalMatrix (submit_all new subs) !! key = cell_of (submissions_for key subs).
Proof.
  induction subs as [|d subs IH] using rev_ind.
  - reflexivity.
  - rewrite submit_all_snoc, submissions_for_snoc.
    unfold updateEmotionalMatrix; simpl.
    destruct (decide (cell_key d = key)) as [<-|Hne].
    + rewrite lookup_insert_eq, IH.
      destruct (submissions_for (cell_key d) subs) as [|d0 l] eqn:Hl; simpl.
      * reflexivity.
      * rewrite !map_app, !length_app, !length_map. simpl.
        replace (S (length l + 1)) with (S (S (length l))) by lia.
        replace (length l + 1)%nat with (S (length l)) by lia.
        reflexivity.
    + rewrite lookup_insert_ne by exact Hne. rewrite app_nil_r. exact IH.
Qed.

(** The key is the text [detected + "_" + response]: two pairs that
    spell the same text share a cell. *)
Remark cell_key_shared :
  cell_key {| detected := Some "sad_very"%string; response := Some "hug"%string;
              effectiveness := None; customerFeedback := JNull |}
  = cell_key {| detected := Some "sad"%string; response := Some "very_hug"%string;
                effectiveness := None; customerFeedback := JNull |}.
Proof. reflexivity. Qed.

Lemma fold_add_sample_none (l : list (option Q)) (acc : option Q) :
  fold_left add_sample l acc = None <-> acc = None \/ None ∈ l.
Proof.
  revert acc. induction l as [|x l IH]; intros acc; simpl.
  - rewrite elem_of_nil. tauto.
  - rewrite IH, elem_of_cons. destruct acc as [a|], x as [b|]; simpl; split;
      intros [H|H]; auto; try discriminate; try (destruct H as [H|H]; auto; discriminate).
Qed.

Lemma filter_length_le {A : Type} (P Q : A -> Prop)
    `{!forall x, Decision (P x)} `{!forall x, Decision (Q x)} (l : list A) :
  (forall x, x ∈ l -> P x -> Q x) -> (length (filter P l) <= length (filter Q l))%nat.
Proof.
  induction l as [|x l IH]; intros Himp; [reflexivity|].
  assert (Hl : (length (filter P l) <= length (filter Q l))%nat).
  { apply IH. intros y Hy. apply Himp. right. exact Hy. }
  rewrite !filter_cons. destruct (decide (P x)) as [Hp|Hp].
  - rewrite decide_True by (apply Himp; [left | exact Hp]). simpl. lia.
  - destruct (decide (Q x)); simpl; lia.
Qed.

Lemma filter_agree {A : Type} (P Q : A -> Prop)
    `{!forall x, Decision (P x)} `{!forall x, Decision (Q x)} (l : list A) :
  (forall x, x ∈ l -> (P x <-> Q x)) -> filter P l = filter Q l.
Proof.
  induction l as [|x l IH]; intros Hiff; [reflexivity|].
  assert (Hl : filter P l = filter Q l).
  { apply IH. intros y Hy. apply Hiff. right. exact Hy. }
  rewrite !filter_cons, Hl. destruct (decide (P x)) as [Hp|Hp].
  - rewrite decide_True by (apply Hiff; [left | exact Hp]). reflexivity.
  - rewrite decide_False; [reflexivity|]. intros Hq. apply Hp, Hiff; [left | exact Hq].
Qed.

(** C7 (as amended). A cell of the matrix is keyed by the text
    [detected + "_" + response], not by the pair.  In a run of
    [EmotionalRead] submissions (duplicates included), each submission
    raises the count of the cell under its text by exactly one and
    leaves the other cells alone; the count of a cell is the number of
    submissions whose text is its key, and its samples are theirs in
    order.  For a pair this is at least the number of its own
    submissions, and exactly that number when no submission of another
    pair spells the same text.  When the samples of a cell are numbers
    [averageEffectiveness] is their arithmetic mean; when one of them is
    missing it is [NaN]. *)
Theorem emotional_count_is_submissions (subs : list EmotionalData) (data : EmotionalData) :
  let before := submit_all new subs in
  let after := updateEmotionalMatrix before data in
  let text := fun d => (template (detected d) +:+ "_" +:+ template (response d))%string in
  cell_count after (text data) = S (cell_count before (text data))
  /\ (forall k, k <> text data -> emotionalMatrix after !! k = emotionalMatrix before !! k)
  /\ (forall k, cell_count before k = length (filter (fun d => text d = k) subs))
  /\ (forall a b,
        (length (submissions_of_pair (Some a) (Some b) subs)
         <= cell_count before (a +:+ "_" +:+ b))%nat)
  /\ (forall a b,
        (forall d, d ∈ subs -> text d = (a +:+ "_" +:+ b)%string ->
                   detected d = Some a /\ response d = Some b) ->
        cell_count before (a +:+ "_" +:+ b)
        = length (submissions_of_pair (Some a) (Some b) subs))
  /\ (forall k c, emotionalMatrix before !! k = Some c ->
        samples c = map effectiveness (filter (fun d => text d = k) subs)
        /\ (forall qs, samples c = map Some qs ->
               exists q, averageEffectiveness c = Fin q
                         /\ q * inject_Z (Z.of_nat (count c)) == fold_right Qplus 0 qs)
        /\ (None ∈ samples c -> averageEffectiveness c = NaN)).
Proof.
  intros before after text.
  assert (Htext : forall d, text d = cell_key d) by reflexivity.
  assert (Hfor : forall k, filter (fun d => text d = k) subs = submissions_for k subs)
    by reflexivity.
  assert (Hcount : forall l k, cell_count (submit_all new l) k = length (submissions_for k l)).
  { intros l k. unfold cell_count. rewrite submit_all_lookup.
    destruct (submissions_for k l); reflexivity. }
  split; [|split; [|split; [|split; [|split]]]].
  - rewrite Htext. subst after before.
    rewrite <- submit_all_snoc, !Hcount, submissions_for_snoc.
    rewrite decide_True by reflexivity. rewrite length_app. simpl. lia.
  - intros k Hk. subst after. unfold updateEmotionalMatrix; simpl.
    apply lookup_insert_ne. rewrite Htext in Hk. congruence.
  - intros k. rewrite Hfor. apply Hcount.
  - intros a b. subst before. rewrite Hcount. unfold submissions_of_pair, submissions_for.
    apply filter_length_le. intros d _ [Hd Hr]. unfold cell_key. rewrite Hd, Hr. reflexivity.
  - intros a b Honly. subst before. rewrite Hcount.
    unfold submissions_of_pair, submissions_for. f_equal. apply filter_agree.
    intros d Hd. split.
    + intros Hk. apply Honly; [exact Hd | rewrite Htext; exact Hk].
    + intros [Ha Hb]. unfold cell_key. rewrite Ha, Hb. reflexivity.
  - intros k c Hc. subst before. rewrite submit_all_lookup in Hc. rewrite Hfor.
    destruct (submissions_for k subs) as [|d0 l] eqn:Hl; [discriminate|].
    simpl in Hc. injection Hc as <-. simpl. split; [reflexivity|]. split.
    + intros qs Hqs. rewrite Hqs.
      destruct (sum_samples_numeric qs 0) as [s [Hs Heq]].
      unfold sum_samples. rewrite Hs. eexists. split; [reflexivity|].
      rewrite length_map.
      assert (Hnz : ~ inject_Z (Z.of_nat (S (length l))) == 0).
      { unfold Qeq; simpl. lia. }
      field_simplify_eq; [|exact Hnz]. rewrite Heq. ring.
    + intros Hnone.
      assert (Hsum : sum_samples (effectiveness d0 :: map effectiveness l) = None).
      { apply fold_add_sample_none. right. exact Hnone. }
      rewrite Hsum. reflexivity.
Qed.

Lemma emotional_count_is_submissions_witness :
  cell_count (submit_all new [sad_dessert (1 # 2); sad_dessert (1 # 2)]) "sad_dessert" = 2%nat
  /\ cell_count (submit_all new [sad_dessert (1 # 2); sad_dessert (1 # 2)]) "sad_dessert"
     = length (submissions_of_pair (Some "sad"%string) (Some "dessert"%string)
                 [sad_dessert (1 # 2); sad_dessert (1 # 2)])
  /\ emotionalMatrix (updateEmotionalMatrix (submit_all new [sad_dessert (1 # 2)])
                                            (sad_dessert (1 # 2))) !! "angry_apology"%string
     = emotionalMatrix (submit_all new [sad_dessert (1 # 2)]) !! "angry_apology"%string.
Proof.
  split; [|split].
  - destruct (emotional_count_is_submissions [sad_dessert (1 # 2); sad_dessert (1 # 2)]
                                             (sad_dessert (1 # 2))) as (_ & _ & Hcount & _).
    exact (Hcount "sad_dessert"%string).
  - destruct (emotional_count_is_submissions [sad_dessert (1 # 2); sad_dessert (1 # 2)]
                                             (sad_dessert (1 # 2))) as (_ & _ & _ & _ & Hpair & _).
    apply (Hpair "sad"%string "dessert"%string).
    intros d Hd _. apply elem_of_cons in Hd as [->|Hd]; [split; reflexivity|].
    apply list_elem_of_singleton in Hd. subst d. split; reflexivity.
  - destruct (emotional_count_is_submissions [sad_dessert (1 # 2)] (sad_dessert (1 # 2)))
      as (_ & Hother & _).
    apply Hother. discriminate.
Defined.

(** C7, counterexample. The pair (sad_very, hug) is submitted once and
    the pair (sad, very_hug) once; both land in the cell [sad_very_hug],
    whose count is 2 and whose average mixes the two samples. *)
Lemma emotional_count_mixes_pairs :
  length (submissions_of_pair (Some "sad_very"%string) (Some "hug"%string)
            [very_sad_hug; sad_long_hug]) = 1%nat
  /\ cell_key very_sad_hug = "sad_very_hug"%string
  /\ cell_key sad_long_hug = "sad_very_hug"%string
  /\ cell_count (submit_all new [very_sad_hug; sad_long_hug]) "sad_very_hug" = 2%nat
  /\ averageEffectiveness
       <$> emotionalMatrix (submit_all new [very_sad_hug; sad_long_hug]) !! "sad_very_hug"%string
     = Some (Fin (1 # 2)).
Proof.
  repeat split; vm_compute; reflexivity.
Qed.

End EmotionalMatrix_facts.

(** ** Shared memory: customer sentiment *)

Section Sentiment_facts.
Import Js SharedMemory.

Lemma reduce_indexed_weighted (n : nat) (recent : list Q) (i0 : nat) (acc : Q) :
  reduce_indexed (fun sum sentiment index => sum + sentiment * weight n index) recent i0 acc
  == acc + weighted_sum (map (weight n) (seq i0 (length recent))) recent.
Proof.
  revert i0 acc. induction recent as [|x recent IH]; intros i0 acc; simpl.
  - unfold weighted_sum. simpl. lra.
  - rewrite IH. unfold weighted_sum. simpl. lra.
Qed.

Lemma slice_last_length {A : Type} (n : nat) (l : list A) :
  length (slice_last n l) = Nat.min n (length l).
Proof. unfold slice_last. rewrite length_skipn. lia. Qed.

Lemma slice_last_cons {A : Type} (n : nat) (x : A) (l : list A) :
  (n <= length l)%nat -> slice_last n (x :: l) = slice_last n l.
Proof.
  intros Hn. unfold slice_last. simpl length.
  replace (S (length l) - n)%nat with (S (length l - n)) by lia. reflexivity.
Qed.

Lemma weight_increasing (n i j : nat) :
  (0 < n)%nat -> (i < j)%nat -> weight n i < weight n j.
Proof.
  intros Hn Hij. unfold weight, Qdiv.
  apply Qmult_lt_compat_r.
  - apply Qinv_lt_0_compat. change 0 with (inject_Z 0).
    rewrite <- Zlt_Qlt. lia.
  - rewrite <- Zlt_Qlt. lia.
Qed.

Lemma calculateSentiment_closed_form (l : list Interaction.t) :
  l <> [] ->
  let recent := slice_last 10 (map sentiment_or_zero l) in
  let n := length recent in
  exists q, calculateSentiment l = Fin q
            /\ q == weighted_sum (window_weights n) recent / inject_Z (Z.of_nat n).
Proof.
  intros Hne recent n. unfold calculateSentiment. fold recent. fold n.
  assert (Hn : n <> 0%nat).
  { subst n recent. rewrite slice_last_length, length_map.
    destruct l; [congruence | simpl; lia]. }
  destruct n as [|m] eqn:En; [congruence|].
  eexists. split; [reflexivity|].
  rewrite reduce_indexed_weighted. unfold window_weights.
  replace (length recent) with (S m) by (symmetry; exact En).
  rewrite Qplus_0_l. reflexivity.
Qed.

(** C5 (as amended). After [updateCustomerProfile] the stored profile
    has the new interaction appended and its sentiment is computed from
    the last [n] = min(10, count) sentiment values only: it is their sum
    weighted by [(index + 1) / n], strictly increasing with recency,
    divided by [n] (not by the sum of the weights); an interaction
    pushed out of the window of ten no longer contributes. *)
Theorem sentiment_is_windowed_weighted_sum (tx : Text) (sm : SharedMemory.t)
    (customerId : string) (interaction : Interaction.t) :
  let old := default (new_profile customerId) (customerProfiles sm !! customerId) in
  let sm' := (updateCustomerProfile tx sm customerId interaction).1 in
  let all := Profile.interactions old ++ [interaction] in
  let recent := slice_last 10 (map sentiment_or_zero all) in
  let n := length recent in
  (exists p, customerProfiles sm' !! customerId = Some p
             /\ Profile.interactions p = all
             /\ Profile.sentiment p = calculateSentiment all)
  /\ n = Nat.min 10 (length all)
  /\ (exists q, calculateSentiment all = Fin q
                /\ q == weighted_sum (window_weights n) recent / inject_Z (Z.of_nat n))
  /\ (forall i j, (i < j)%nat -> weight n i < weight n j)
  /\ (forall x l, (10 <= length l)%nat -> calculateSentiment (x :: l) = calculateSentiment l).
Proof.
  intros old sm' all recent n.
  assert (Hlen : n = Nat.min 10 (length all)).
  { subst n recent. rewrite slice_last_length, length_map. reflexivity. }
  assert (Hall : all <> []).
  { subst all. destruct (Profile.interactions old); discriminate. }
  split; [|split; [exact Hlen|split; [|split]]].
  - subst sm'. unfold updateCustomerProfile. cbn [fst].
    eexists. split; [apply lookup_insert_eq|].
    split; reflexivity.
  - apply calculateSentiment_closed_form, Hall.
  - intros i j Hij. apply weight_increasing; [|exact Hij].
    rewrite Hlen. subst all. rewrite length_app. cbn [length]. lia.
  - intros x l Hl. unfold calculateSentiment.
    rewrite map_cons, slice_last_cons by (rewrite length_map; exact Hl).
    reflexivity.
Qed.

Lemma sentiment_is_windowed_weighted_sum_witness :
  calculateSentiment (rated 0 :: repeat (rated 1) 10) = calculateSentiment (repeat (rated 1) 10)
  /\ weight 1 0 < weight 1 1.
Proof.
  destruct (sentiment_is_windowed_weighted_sum no_text new "c1" (rated 1))
    as (_ & _ & _ & Hinc & Hwin).
  split.
  - apply Hwin. simpl. lia.
  - apply Hinc. lia.
Defined.

(** C5, counterexample. A customer whose two interactions both have
    sentiment 1 is stored with sentiment 3/4; every weighted mean of the
    values 1 and 1 is 1, whatever the (positive, increasing) weights. *)
Lemma sentiment_is_not_a_weighted_mean :
  let sm1 := (updateCustomerProfile no_text new "c1" (rated 1)).1 in
  let sm2 := (updateCustomerProfile no_text sm1 "c1" (rated 1)).1 in
  exists q, Profile.sentiment <$> customerProfiles sm2 !! "c1"%string = Some (Fin q)
            /\ q == 3 # 4
            /\ ~ exists w1 w2, 0 < w1 /\ w1 < w2 /\ q == weighted_mean [w1; w2] [1; 1].
Proof.
  exists (6 # 8). split; [vm_compute; reflexivity|]. split; [reflexivity|].
  intros (w1 & w2 & H1 & H2 & Hq).
  unfold weighted_mean, weighted_sum in Hq. simpl in Hq.
  assert (Hm : (w1 * 1 + (w2 * 1 + 0)) / (w1 + (w2 + 0)) == 1).
  { field. lra. }
  rewrite Hm in Hq. discriminate Hq.
Qed.

End Sentiment_facts.

(** ** Coordinator: what a handler leaves alone *)

Section Coordinator_frames.
Import Js CollectiveIntelligence.
Variable h : Helpers.

Lemma learnFromCustomerInteraction_quiet now agentId context outcome :
  quiet (learnFromCustomerInteraction now agentId context outcome).
Proof.
  intros st. unfold learnFromCustomerInteraction.
  destruct context as [ctx|], outcome as [out|]; run_method; auto.
  destruct (gt_opt (Outcome.satisfaction out) (8 # 10)); run_method; auto.
Qed.

Lemma learnCrisisManagement_quiet agentId context outcome :
  quiet (learnCrisisManagement h agentId context outcome).
Proof.
  intros st. unfold learnCrisisManagement.
  destruct context as [ctx|], outcome as [out|]; run_method; auto.
  destruct (gt _ (7 # 10)); run_method; auto.
Qed.

Lemma recordSuccessPattern_quiet now agentId context outcome :
  quiet (recordSuccessPattern h now agentId context outcome).
Proof.
  intros st. unfold recordSuccessPattern.
  destruct context as [ctx|]; run_method; auto.
  destruct (3 <? _)%nat; run_method; auto.
Qed.

Lemma updateEmotionalIntelligence_quiet agentId emotion outcome :
  quiet (updateEmotionalIntelligence agentId emotion outcome).
Proof.
  intros st. unfold updateEmotionalIntelligence.
  destruct emotion as [em|], outcome as [out|]; run_method; auto.
Qed.

Lemma enhanceCollaborationPatterns_quiet data :
  quiet (enhanceCollaborationPatterns h data).
Proof.
  intros st. unfold enhanceCollaborationPatterns.
  destruct (gt _ (85 # 100)); run_method; auto.
Qed.

End Coordinator_frames.

(** ** Coordinator: the learning broadcast *)

Section Broadcast_facts.
Import Js CollectiveIntelligence.

Lemma recipients_spec (src id : string) (a : list (string * ReadyState)) :
  id ∈ recipients src a <-> id <> src /\ (id, OPEN) ∈ a.
Proof.
  unfold recipients. rewrite list_elem_of_fmap. split.
  - intros [[k rs] [-> Hin]]. apply list_elem_of_filter in Hin as [[Hk Hrs] Hin].
    simpl in *. subst rs. auto.
  - intros [Hne Hin]. exists (id, OPEN). split; [reflexivity|].
    apply list_elem_of_filter. auto.
Qed.

Lemma recipients_NoDup (src : string) (a : list (string * ReadyState)) :
  NoDup (map fst a) -> NoDup (recipients src a).
Proof.
  unfold recipients. induction a as [|[k rs] a IH]; simpl; intros Hnd.
  - constructor.
  - apply NoDup_cons in Hnd as [Hk Hnd]. rewrite filter_cons.
    destruct (decide _) as [_|_]; [|auto].
    simpl. apply NoDup_cons. split; [|auto].
    intros Hin. apply Hk. apply list_elem_of_fmap in Hin as [[k' rs'] [-> Hin]].
    apply list_elem_of_filter in Hin as [_ Hin].
    apply list_elem_of_fmap. exists (k', rs'). auto.
Qed.

Lemma map_set_keys {V : Type} (key : string) (v : V) (m : list (string * V)) :
  NoDup (map fst m) -> NoDup (map fst (map_set key v m)).
Proof.
  induction m as [|[k v0] m IH]; simpl; intros Hnd.
  - repeat constructor. apply not_elem_of_nil.
  - apply NoDup_cons in Hnd as [Hk Hnd].
    destruct (decide (k = key)) as [->|Hne]; simpl.
    + apply NoDup_cons; auto.
    + apply NoDup_cons. split; [|auto].
      intros Hin. apply Hk. clear IH Hnd Hk.
      induction m as [|[k1 v1] m IHm]; simpl in *.
      * apply list_elem_of_singleton in Hin. congruence.
      * destruct (decide (k1 = key)) as [->|Hne1]; simpl in *.
        { exact Hin. }
        { apply elem_of_cons in Hin as [->|Hin]; [left | right; auto]. }
Qed.

Lemma processAgentCommunication_sends (h : Helpers) (now now' : Z) (agentId : string)
    (d : Report.t) (st st' : CollectiveIntelligence.t) :
  processAgentCommunication h now now' agentId (Some d) st = (st', Normal tt) ->
  agents st' = agents st
  /\ sent st' = sent st ++ map (fun id => (id, learning_message now' agentId (Report.learning d)))
                               (recipients agentId (agents st)).
Proof.
  unfold processAgentCommunication. unfold bind at 1. simpl.
  match goal with |- bind ?m _ _ = _ -> _ => set (handler := m) end.
  assert (Hq : quiet handler).
  { subst handler. repeat case_decide.
    - apply learnFromCustomerInteraction_quiet.
    - apply learnCrisisManagement_quiet.
    - apply recordSuccessPattern_quiet.
    - apply updateEmotionalIntelligence_quiet.
    - apply enhanceCollaborationPatterns_quiet.
    - intros s. auto. }
  clearbody handler. unfold bind.
  specialize (Hq st). destruct (handler st) as [st1 [[]|e]]; simpl in *.
  - destruct Hq as [Ha Hs]. unfold broadcastLearning, modify.
    intros [= <-]. simpl. rewrite Ha, Hs. auto.
  - discriminate.
Qed.

(** C8. [broadcastLearning] sends its message to exactly the agents of
    the coordinator whose socket is open, the source agent excepted: an
    agent receives it if and only if it is connected and is not the
    source, the source never receives it, no agent receives it twice, and
    every send carries the learning of the source.  A report that
    [processAgentCommunication] handles to completion ends with that
    broadcast. *)
Theorem broadcast_reaches_all_but_source (h : Helpers) (now now' : Z) (src : string)
    (learning : json) (st : CollectiveIntelligence.t) :
  let st' := exec (broadcastLearning now' src learning) st in
  let to_ := recipients src (agents st) in
  sent st' = sent st ++ map (fun id => (id, learning_message now' src learning)) to_
  /\ (forall id, id ∈ to_ <-> id <> src /\ (id, OPEN) ∈ agents st)
  /\ ~ (src ∈ to_)
  /\ (NoDup (map fst (agents st)) -> NoDup to_)
  /\ (forall d st2,
        processAgentCommunication h now now' src (Some d) st = (st2, Normal tt) ->
        Report.learning d = learning ->
        sent st2 = sent st ++ map (fun id => (id, learning_message now' src learning)) to_).
Proof.
  intros st' to_. subst st' to_. split; [reflexivity|]. split; [|split; [|split]].
  - intros id. apply recipients_spec.
  - intros Hin. apply recipients_spec in Hin as [Hne _]. congruence.
  - apply recipients_NoDup.
  - intros d st2 Hrun <-. apply processAgentCommunication_sends in Hrun. tauto.
Qed.

Lemma broadcast_reaches_all_but_source_witness :
  NoDup (recipients "marcus" (agents two_agents))
  /\ sent (processAgentCommunication helpers_spec 0 0 "marcus"
             (Some (report "EMOTIONAL_SUMMARY" None None)) two_agents).1
     = [("sophia"%string, learning_message 0 "marcus" (JStr "EMOTIONAL_SUMMARY"))].
Proof.
  destruct (broadcast_reaches_all_but_source helpers_spec 0 0 "marcus"
              (JStr "EMOTIONAL_SUMMARY") two_agents) as (_ & _ & _ & Hnd & Hrun).
  split.
  - apply Hnd. simpl. apply NoDup_cons. split; [|apply NoDup_singleton].
    rewrite list_elem_of_singleton. discriminate.
  - apply (Hrun (report "EMOTIONAL_SUMMARY" None None)); reflexivity.
Defined.

End Broadcast_facts.

(** ** Coordinator: crisis management learning *)

Section Crisis_facts.
Import Js CollectiveIntelligence.
Variable h : Helpers.

Lemma learnCrisisManagement_step (agentId : string) (ctx : Context.t) (out : Outcome.t)
    (st : CollectiveIntelligence.t) :
  let c := crisis_of ctx out in
  let st' := exec (learnCrisisManagement h agentId (Some ctx) (Some out)) st in
  (learnCrisisManagement h agentId (Some ctx) (Some out) st).2 = Normal tt
  /\ (7 # 10 < calculateEffectiveness h c ->
        crisisResponses (brain st') = <[Context.crisisType ctx := c]> (crisisResponses (brain st))
        /\ calls st' = calls st ++ [Call.updateCrisisPlaybook (Context.crisisType ctx) c;
                                    Call.distributeTraining "crisis" c])
  /\ (calculateEffectiveness h c <= 7 # 10 ->
        crisisResponses (brain st') = crisisResponses (brain st)
        /\ calls st' = calls st ++ [Call.distributeTraining "crisis" c]).
Proof.
  intros c st'. subst c st'. unfold learnCrisisManagement. run_method.
  destruct (gt (calculateEffectiveness h (crisis_of ctx out)) (7 # 10)) eqn:Hg; run_method.
  - apply gt_spec in Hg. split; [reflexivity|]. split.
    + intros _. rewrite <- app_assoc. auto.
    + intros Hle. lra.
  - apply gt_false in Hg. split; [reflexivity|]. split.
    + intros Hlt. lra.
    + auto.
Qed.

Lemma learn_crises_snoc (st : CollectiveIntelligence.t) rs r :
  learn_crises h st (rs ++ [r]) =
  exec (learnCrisisManagement h r.1.1 (Some r.1.2) (Some r.2)) (learn_crises h st rs).
Proof. unfold learn_crises. apply fold_left_app. Qed.

Lemma learn_crises_latest (st : CollectiveIntelligence.t) rs (k : option string) :
  crisisResponses (brain (learn_crises h st rs)) !! k =
  match last (qualifying h k rs) with
  | Some c => Some c
  | None => crisisResponses (brain st) !! k
  end.
Proof.
  induction rs as [|[[agentId ctx] out] rs IH] using rev_ind.
  - reflexivity.
  - rewrite learn_crises_snoc. unfold qualifying. rewrite map_app, filter_app.
    fold (qualifying h k rs). simpl.
    destruct (learnCrisisManagement_step agentId ctx out (learn_crises h st rs))
      as (_ & Hyes & Hno).
    rewrite filter_cons, filter_nil.
    destruct (gt (calculateEffectiveness h (crisis_of ctx out)) (7 # 10)) eqn:Hg.
    + apply gt_spec in Hg. destruct (Hyes Hg) as [-> _].
      destruct (decide (Context.crisisType ctx = k)) as [<-|Hne].
      * rewrite lookup_insert_eq, decide_True by (split; reflexivity).
        rewrite last_snoc. reflexivity.
      * rewrite lookup_insert_ne by exact Hne.
        rewrite decide_False by (simpl; tauto). rewrite app_nil_r. exact IH.
    + rewrite decide_False by (intros [_ H']; discriminate H').
      apply gt_false in Hg. destruct (Hno Hg) as [-> _].
      rewrite app_nil_r. exact IH.
Qed.

End Crisis_facts.

(** C2 (as amended). [learnCrisisManagement] compares the effectiveness
    of a report with 0.7 only, never with the stored entry: a report
    rated above 0.7 always replaces the entry of [brain.crisisResponses]
    for its crisis type and is handed to [updateCrisisPlaybook]; a report
    rated 0.7 or less leaves the entry as it is.  After any run of
    reports the entry for a type is therefore the latest report of that
    type rated above 0.7, and its effectiveness exceeds 0.7. *)
Theorem crisis_entry_is_latest_qualifying (h : CollectiveIntelligence.Helpers)
    (st : CollectiveIntelligence.t) (agentId : string) (ctx : Context.t) (out : Outcome.t)
    (rs : list (string * Context.t * Outcome.t)) (k : option string) :
  let c := CollectiveIntelligence.crisis_of ctx out in
  let eff := CollectiveIntelligence.calculateEffectiveness h in
  let st' := CollectiveIntelligence.exec
               (CollectiveIntelligence.learnCrisisManagement h agentId (Some ctx) (Some out)) st in
  let stored s := CollectiveIntelligence.crisisResponses (CollectiveIntelligence.brain s) in
  (7 # 10 < eff c ->
     stored st' = <[Context.crisisType ctx := c]> (stored st)
     /\ CollectiveIntelligence.calls st' =
          CollectiveIntelligence.calls st
          ++ [Call.updateCrisisPlaybook (Context.crisisType ctx) c;
              Call.distributeTraining "crisis" c])
  /\ (eff c <= 7 # 10 ->
      stored st' = stored st
      /\ CollectiveIntelligence.calls st' =
           CollectiveIntelligence.calls st ++ [Call.distributeTraining "crisis" c])
  /\ stored (CollectiveIntelligence.learn_crises h st rs) !! k =
       match last (CollectiveIntelligence.qualifying h k rs) with
       | Some c' => Some c'
       | None => stored st !! k
       end
  /\ (forall c', last (CollectiveIntelligence.qualifying h k rs) = Some c' ->
        Crisis.type c' = k /\ 7 # 10 < eff c').
Proof.
  intros c eff st' stored.
  destruct (learnCrisisManagement_step h agentId ctx out st) as (_ & Hyes & Hno).
  split; [intros H; apply Hyes, H|]. split; [intros H; apply Hno, H|].
  split; [apply learn_crises_latest|].
  intros c' Hlast. apply last_Some in Hlast as [l Hl].
  assert (Hin : c' ∈ CollectiveIntelligence.qualifying h k rs).
  { rewrite Hl. apply elem_of_app. right. apply list_elem_of_singleton. reflexivity. }
  unfold CollectiveIntelligence.qualifying in Hin.
  apply list_elem_of_filter in Hin as [[Hk Hg] _].
  split; [exact Hk | apply gt_spec, Hg].
Qed.

Lemma crisis_entry_is_latest_qualifying_witness :
  7 # 10 < CollectiveIntelligence.calculateEffectiveness_spec
             (CollectiveIntelligence.crisis_of (CollectiveIntelligence.crisis_context "fire" (9 # 10))
                                               (CollectiveIntelligence.resolved_in 5))
  /\ CollectiveIntelligence.crisisResponses
       (CollectiveIntelligence.brain
          (CollectiveIntelligence.exec
             (CollectiveIntelligence.learnCrisisManagement CollectiveIntelligence.helpers_spec
                "marcus" (Some (CollectiveIntelligence.crisis_context "fire" (9 # 10)))
                (Some (CollectiveIntelligence.resolved_in 5)))
             CollectiveIntelligence.two_agents))
     = <[Some "fire"%string :=
           CollectiveIntelligence.crisis_of (CollectiveIntelligence.crisis_context "fire" (9 # 10))
                                            (CollectiveIntelligence.resolved_in 5)]>
         (CollectiveIntelligence.crisisResponses
            (CollectiveIntelligence.brain CollectiveIntelligence.two_agents)).
Proof.
  assert (H : 7 # 10 < CollectiveIntelligence.calculateEffectiveness_spec
             (CollectiveIntelligence.crisis_of (CollectiveIntelligence.crisis_context "fire" (9 # 10))
                                               (CollectiveIntelligence.resolved_in 5)))
    by reflexivity.
  split; [exact H|].
  destruct (crisis_entry_is_latest_qualifying CollectiveIntelligence.helpers_spec
              CollectiveIntelligence.two_agents "marcus"
              (CollectiveIntelligence.crisis_context "fire" (9 # 10))
              (CollectiveIntelligence.resolved_in 5) [] None) as (Hyes & _).
  destruct (Hyes H) as [Hstored _]. exact Hstored.
Defined.

(** C2, counterexample. Two resolved crises of the same type, rated 54/65
    and then 48/65, both above 0.7: the second replaces the first although
    it is less effective, and the stored entry is then less effective than
    a resolved report that was submitted. *)
Lemma crisis_entry_replaced_by_weaker :
  let first := CollectiveIntelligence.crisis_of
                 (CollectiveIntelligence.crisis_context "fire" (9 # 10))
                 (CollectiveIntelligence.resolved_in 5) in
  let second := CollectiveIntelligence.crisis_of
                  (CollectiveIntelligence.crisis_context "fire" (8 # 10))
                  (CollectiveIntelligence.resolved_in 5) in
  let eff := CollectiveIntelligence.calculateEffectiveness_spec in
  let stored s := CollectiveIntelligence.crisisResponses (CollectiveIntelligence.brain s)
                    !! Some "fire"%string in
  let st1 := CollectiveIntelligence.learn_crises CollectiveIntelligence.helpers_spec
               CollectiveIntelligence.two_agents
               [("marcus"%string, CollectiveIntelligence.crisis_context "fire" (9 # 10),
                 CollectiveIntelligence.resolved_in 5)] in
  let st2 := CollectiveIntelligence.learn_crises CollectiveIntelligence.helpers_spec st1
               [("sophia"%string, CollectiveIntelligence.crisis_context "fire" (8 # 10),
                 CollectiveIntelligence.resolved_in 5)] in
  Crisis.resolution first = Some true
  /\ 7 # 10 < eff second /\ eff second < eff first
  /\ stored st1 = Some first
  /\ stored st2 = Some second.
Proof.
  vm_compute. repeat split; reflexivity.
Qed.

(** ** Coordinator: success pattern mining *)

Section Success_facts.
Import Js CollectiveIntelligence.

Lemma recordSuccessPattern_step (h : Helpers) (now : Z) (agentId : string) (ctx : Context.t)
    (outcome : option Outcome.t) (st : CollectiveIntelligence.t) :
  let pattern := pattern_of now agentId ctx outcome in
  let similarity := findSimilarPatterns h st pattern in
  let st' := exec (recordSuccessPattern h now agentId (Some ctx) outcome) st in
  let promoted :=
    {| SuccessPattern.pattern := pattern;
       SuccessPattern.confidence := div_counts (length similarity) (length (agents st));
       SuccessPattern.variations := similarity |} in
  agents st' = agents st
  /\ ((4 <= length similarity)%nat ->
        successPatterns (brain st') =
          <[Context.action ctx := promoted]> (successPatterns (brain st))
        /\ calls st' = calls st ++ [Call.findSimilarPatterns pattern; Call.createSOP pattern])
  /\ ((length similarity < 4)%nat ->
        successPatterns (brain st') = successPatterns (brain st)
        /\ calls st' = calls st ++ [Call.findSimilarPatterns pattern]).
Proof.
  intros pattern similarity st' promoted. subst st'.
  unfold recordSuccessPattern. run_method.
  fold pattern. fold similarity.
  destruct (Nat.ltb_spec 3 (length similarity)) as [Hge|Hlt]; run_method.
  - split; [reflexivity|]. split; [|lia].
    intros _. rewrite <- app_assoc. auto.
  - split; [reflexivity|]. split; [lia|]. auto.
Qed.

Lemma div_counts_quotient (a b : nat) :
  b <> 0%nat ->
  exists q, div_counts a b = Fin q /\ q == inject_Z (Z.of_nat a) / inject_Z (Z.of_nat b).
Proof.
  intros Hb. destruct b as [|b]; [congruence|]. unfold div_counts.
  eexists. split; [reflexivity|].
  rewrite Qmake_Qdiv, <- positive_nat_Z, Nat2Pos.id by discriminate. reflexivity.
Qed.

Lemma record_successes_snoc (h : Helpers) (st : CollectiveIntelligence.t) rs r :
  record_successes h st (rs ++ [r]) =
  exec (recordSuccessPattern h r.1.1.1 r.1.1.2 (Some r.1.2) r.2) (record_successes h st rs).
Proof. unfold record_successes. apply fold_left_app. Qed.

Lemma action_count_snoc (a : option string) rs r :
  action_count a (rs ++ [r]) =
  (action_count a rs + if decide (Context.action r.1.2 = a) then 1 else 0)%nat.
Proof.
  unfold action_count. rewrite filter_app, length_app. f_equal.
  rewrite filter_cons, filter_nil. destruct (decide _); reflexivity.
Qed.

(** With similarity as the specification describes it, the reports found
    similar are the reports received so far with the same action. *)
Lemma spec_run_invariant (st : CollectiveIntelligence.t) rs :
  calls st = [] ->
  successPatterns (brain st) = ∅ ->
  let s := record_successes helpers_spec st rs in
  agents s = agents st
  /\ (forall a, length (filter (fun q => Pattern.action q = a) (seen_patterns (calls s)))
                = action_count a rs)
  /\ (forall a, is_Some (successPatterns (brain s) !! a) <-> (4 <= action_count a rs)%nat)
  /\ (forall a r, successPatterns (brain s) !! a = Some r ->
        SuccessPattern.confidence r = div_counts (action_count a rs) (length (agents st))
        /\ length (SuccessPattern.variations r) = action_count a rs).
Proof.
  intros Hcalls Hempty.
  induction rs as [|[[[now agentId] ctx] outcome] rs IH] using rev_ind; intros s.
  - subst s. simpl. rewrite Hcalls, Hempty. split; [reflexivity|].
    split; [reflexivity|]. split.
    + intros a. rewrite lookup_empty. unfold action_count. simpl.
      split; [intros [x Hx]; discriminate | lia].
    + intros a r. rewrite lookup_empty. discriminate.
  - subst s. rewrite record_successes_snoc. simpl.
    set (s0 := record_successes helpers_spec st rs) in *.
    destruct IH as (Hag & Hseen & Hsome & Hconf).
    pose proof (recordSuccessPattern_step helpers_spec now agentId ctx outcome s0)
      as (Hag' & Hyes & Hno).
    simpl in Hyes, Hno.
    set (p := pattern_of now agentId ctx outcome) in *.
    assert (Hsim : length (findSimilarPatterns_spec s0 p)
                   = action_count (Context.action ctx) (rs ++ [(now, agentId, ctx, outcome)])).
    { unfold findSimilarPatterns_spec. rewrite filter_app, length_app.
      rewrite (Hseen (Pattern.action p)). rewrite action_count_snoc. simpl.
      rewrite filter_cons, filter_nil.
      rewrite !decide_True by reflexivity. reflexivity. }
    assert (Hcalls' : forall a,
      length (filter (fun q => Pattern.action q = a)
                     (seen_patterns (calls (exec (recordSuccessPattern helpers_spec now agentId
                                                    (Some ctx) outcome) s0))))
      = action_count a (rs ++ [(now, agentId, ctx, outcome)])).
    { intros a. rewrite action_count_snoc. simpl.
      destruct (le_lt_dec 4 (length (findSimilarPatterns_spec s0 p))) as [Hge|Hlt].
      - destruct (Hyes Hge) as [_ ->]. unfold seen_patterns.
        rewrite omap_app. simpl. rewrite filter_app, length_app.
        fold (seen_patterns (calls s0)). rewrite Hseen. f_equal.
        rewrite filter_cons, filter_nil. simpl. destruct (decide _); reflexivity.
      - destruct (Hno Hlt) as [_ ->]. unfold seen_patterns.
        rewrite omap_app. simpl. rewrite filter_app, length_app.
        fold (seen_patterns (calls s0)). rewrite Hseen. f_equal.
        rewrite filter_cons, filter_nil. simpl. destruct (decide _); reflexivity. }
    split; [congruence|]. split; [exact Hcalls'|].
    destruct (le_lt_dec 4 (length (findSimilarPatterns_spec s0 p))) as [Hge|Hlt].
    + destruct (Hyes Hge) as [-> _]. split.
      * intros a. destruct (decide (Context.action ctx = a)) as [<-|Hne].
        { rewrite lookup_insert_eq. split; [intros _; lia | eauto]. }
        { rewrite lookup_insert_ne by exact Hne. rewrite Hsome, action_count_snoc.
          simpl. rewrite decide_False by exact Hne. lia. }
      * intros a r. destruct (decide (Context.action ctx = a)) as [<-|Hne].
        { rewrite lookup_insert_eq. intros [= <-]. simpl.
          rewrite Hsim, Hag. auto. }
        { rewrite lookup_insert_ne by exact Hne. rewrite action_count_snoc.
          simpl. rewrite decide_False by exact Hne. rewrite Nat.add_0_r. apply Hconf. }
    + destruct (Hno Hlt) as [-> _]. split.
      * intros a. rewrite Hsome, action_count_snoc. simpl.
        destruct (decide (Context.action ctx = a)) as [<-|Hne]; [|lia].
        rewrite action_count_snoc in Hsim. simpl in Hsim.
        rewrite decide_True in Hsim by reflexivity. lia.
      * intros a r Hr. rewrite action_count_snoc. simpl.
        destruct (decide (Context.action ctx = a)) as [<-|Hne].
        { exfalso. assert (His : is_Some (successPatterns (brain s0) !! Context.action ctx))
            by eauto.
          apply Hsome in His. rewrite action_count_snoc in Hsim. simpl in Hsim.
          rewrite decide_True in Hsim by reflexivity. lia. }
        { rewrite Nat.add_0_r. apply Hconf, Hr. }
Qed.

End Success_facts.

(** C1 (as amended). [recordSuccessPattern] promotes the action of a
    report, writing its [SuccessPattern] record and calling [createSOP],
    if and only if [findSimilarPatterns] returns at least 4 similar
    reports; the confidence of the record is that count divided by the
    number of agents of the coordinator, as it is, without clamping.
    With similarity as the specification describes it (same action, the
    report at hand included), after a run of reports on a fresh
    coordinator an action has a record if and only if at least 4 reports
    carried it, and the confidence of the record is the number of these
    reports divided by the number of agents. *)
Theorem success_promoted_from_four_unclamped (h : CollectiveIntelligence.Helpers) (now : Z)
    (agentId : string) (ctx : Context.t) (outcome : option Outcome.t)
    (st : CollectiveIntelligence.t)
    (connected : list (string * CollectiveIntelligence.ReadyState))
    (rs : list (Z * string * Context.t * option Outcome.t)) (a : option string) :
  let pattern := CollectiveIntelligence.pattern_of now agentId ctx outcome in
  let similarity := CollectiveIntelligence.findSimilarPatterns h st pattern in
  let st' := CollectiveIntelligence.exec
               (CollectiveIntelligence.recordSuccessPattern h now agentId (Some ctx) outcome) st in
  let records s := CollectiveIntelligence.successPatterns (CollectiveIntelligence.brain s) in
  let size := length (CollectiveIntelligence.agents st) in
  let run := CollectiveIntelligence.record_successes CollectiveIntelligence.helpers_spec
               (CollectiveIntelligence.with_agents connected CollectiveIntelligence.new) rs in
  ((4 <= length similarity)%nat ->
     records st' =
       <[Context.action ctx :=
           {| SuccessPattern.pattern := pattern;
              SuccessPattern.confidence := Js.div_counts (length similarity) size;
              SuccessPattern.variations := similarity |}]> (records st))
  /\ ((length similarity < 4)%nat -> records st' = records st)
  /\ (Call.createSOP pattern ∈ drop (length (CollectiveIntelligence.calls st))
                                     (CollectiveIntelligence.calls st')
      <-> (4 <= length similarity)%nat)
  /\ (size <> 0%nat ->
      exists q, Js.div_counts (length similarity) size = Js.Fin q
                /\ q == inject_Z (Z.of_nat (length similarity)) / inject_Z (Z.of_nat size))
  /\ (is_Some (records run !! a) <-> (4 <= CollectiveIntelligence.action_count a rs)%nat)
  /\ (forall r, records run !! a = Some r ->
        SuccessPattern.confidence r =
          Js.div_counts (CollectiveIntelligence.action_count a rs) (length connected)).
Proof.
  intros pattern similarity st' records size run.
  destruct (recordSuccessPattern_step h now agentId ctx outcome st) as (_ & Hyes & Hno).
  fold pattern similarity st' in Hyes, Hno.
  destruct (spec_run_invariant
              (CollectiveIntelligence.with_agents connected CollectiveIntelligence.new) rs
              eq_refl eq_refl) as (_ & _ & Hsome & Hconf).
  fold run in Hsome, Hconf.
  split; [intros H; apply Hyes, H|]. split; [intros H; apply Hno, H|].
  split; [|split; [apply div_counts_quotient|split; [apply Hsome|]]].
  - destruct (le_lt_dec 4 (length similarity)) as [Hge|Hlt].
    + destruct (Hyes Hge) as [_ ->]. rewrite drop_app_length.
      split; [auto|]. intros _. apply elem_of_cons. right. apply list_elem_of_singleton.
      reflexivity.
    + destruct (Hno Hlt) as [_ ->]. rewrite drop_app_length.
      split; [|lia]. intros Hin. apply list_elem_of_singleton in Hin. discriminate.
  - intros r Hr. apply Hconf in Hr as [Hc _]. exact Hc.
Qed.

Lemma success_promoted_from_four_unclamped_witness :
  let records s := CollectiveIntelligence.successPatterns (CollectiveIntelligence.brain s) in
  let run := CollectiveIntelligence.record_successes CollectiveIntelligence.helpers_spec
               (CollectiveIntelligence.with_agents
                  (CollectiveIntelligence.agents CollectiveIntelligence.two_agents)
                  CollectiveIntelligence.new)
               CollectiveIntelligence.five_desserts in
  is_Some (records run !! Some "offer_dessert"%string)
  /\ forall r, records run !! Some "offer_dessert"%string = Some r ->
       SuccessPattern.confidence r = Js.div_counts 5 2.
Proof.
  intros records run.
  destruct (success_promoted_from_four_unclamped CollectiveIntelligence.helpers_spec 0 "marcus"
              (CollectiveIntelligence.success_context "offer_dessert") None
              CollectiveIntelligence.new
              (CollectiveIntelligence.agents CollectiveIntelligence.two_agents)
              CollectiveIntelligence.five_desserts (Some "offer_dessert"%string))
    as (_ & _ & _ & _ & Hsome & Hconf).
  split.
  - apply Hsome. vm_compute. lia.
  - exact Hconf.
Defined.

(** C1, counterexample. Two agents are connected and five reports of
    the same action arrive: the record of the action has confidence 5/2,
    which is not in [0,1].  With no agent connected (reports arriving
    through the server) four reports give it the confidence [Infinity]. *)
Lemma success_confidence_exceeds_one :
  let records s := CollectiveIntelligence.successPatterns (CollectiveIntelligence.brain s)
                     !! Some "offer_dessert"%string in
  let run := CollectiveIntelligence.record_successes CollectiveIntelligence.helpers_spec
               CollectiveIntelligence.two_agents CollectiveIntelligence.five_desserts in
  let alone := CollectiveIntelligence.record_successes CollectiveIntelligence.helpers_spec
                 CollectiveIntelligence.new CollectiveIntelligence.four_desserts in
  SuccessPattern.confidence <$> records run = Some (Js.Fin (5 # 2))
  /\ 1 < 5 # 2
  /\ SuccessPattern.confidence <$> records alone = Some Js.Infinity.
Proof.
  split; [vm_compute; reflexivity|]. split; [reflexivity|]. vm_compute. reflexivity.
Qed.

(** ** Coordinator: reports that lack what the handler reads *)

Section Malformed_facts.
Import Js CollectiveIntelligence.

Lemma onMessage_parsed (h : Helpers) (now now' : Z) (agentId : string) (d : Report.t)
    (st : CollectiveIntelligence.t) :
  onMessage h now now' agentId (Parsed d) st =
  (let* _ :=
     (if decide (Report.type d = Some "CUSTOMER_INTERACTION"%string) then
        learnFromCustomerInteraction now agentId (Report.context d) (Report.outcome d)
      else if decide (Report.type d = Some "CRISIS_HANDLED"%string) then
        learnCrisisManagement h agentId (Report.context d) (Report.outcome d)
      else if decide (Report.type d = Some "SUCCESS_PATTERN"%string) then
        recordSuccessPattern h now agentId (Report.context d) (Report.outcome d)
      else if decide (Report.type d = Some "EMOTIONAL_READ"%string) then
        updateEmotionalIntelligence agentId (Report.emotion d) (Report.outcome d)
      else if decide (Report.type d = Some "COLLABORATIVE_SOLUTION"%string) then
        enhanceCollaborationPatterns h d
      else ret tt) in
   broadcastLearning now' agentId (Report.learning d)) st.
Proof. reflexivity. Qed.

(** The listener of a socket has no [try]/[catch]: what lacks the object
    its handler reads raises out of it, with the coordinator as it was. *)
Lemma listener_raises (h : Helpers) (now now' : Z) (agentId : string) (d : Report.t)
    (st : CollectiveIntelligence.t) :
  onMessage h now now' agentId NotJSON st = (st, Throw SyntaxError)
  /\ onMessage h now now' agentId ParsedNull st = (st, Throw TypeError)
  /\ (Report.context d = None ->
      Report.type d = Some "CUSTOMER_INTERACTION"%string
      \/ Report.type d = Some "CRISIS_HANDLED"%string
      \/ Report.type d = Some "SUCCESS_PATTERN"%string ->
      onMessage h now now' agentId (Parsed d) st = (st, Throw TypeError))
  /\ (Report.outcome d = None ->
      Report.type d = Some "CUSTOMER_INTERACTION"%string
      \/ Report.type d = Some "CRISIS_HANDLED"%string
      \/ Report.type d = Some "EMOTIONAL_READ"%string ->
      onMessage h now now' agentId (Parsed d) st = (st, Throw TypeError))
  /\ (Report.emotion d = None ->
      Report.type d = Some "EMOTIONAL_READ"%string ->
      onMessage h now now' agentId (Parsed d) st = (st, Throw TypeError)).
Proof.
  split; [reflexivity|]. split; [reflexivity|].
  rewrite onMessage_parsed.
  split; [|split].
  - intros Hc [Ht|[Ht|Ht]]; rewrite Ht, Hc; reflexivity.
  - intros Ho [Ht|[Ht|Ht]]; rewrite Ht, Ho.
    + destruct (Report.context d); reflexivity.
    + destruct (Report.context d); reflexivity.
    + destruct (Report.emotion d); reflexivity.
  - intros He Ht. rewrite Ht, He. reflexivity.
Qed.

(** The learning endpoint of the server wraps the same call: it never
    raises, and answers a report that lacks its [context] with status
    500 and a line on the error console, the coordinator as it was. *)
Lemma endpoint_catches (h : Helpers) (now now' : Z) (agentId : string) (d : Report.t)
    (st : CollectiveIntelligence.t) :
  Report.context d = None ->
  Report.type d = Some "CUSTOMER_INTERACTION"%string
  \/ Report.type d = Some "CRISIS_HANDLED"%string
  \/ Report.type d = Some "SUCCESS_PATTERN"%string ->
  Server.learn h now now' agentId (Some d) st
  = (st, {| Server.response := Server.Status500 "Failed to record learning";
            Server.console_error := ["Learning error:"%string] |}).
Proof.
  intros Hc Ht. unfold Server.learn.
  destruct (listener_raises h now now' agentId d st) as (_ & _ & Hctx & _).
  specialize (Hctx Hc Ht). unfold onMessage in Hctx. rewrite Hctx. reflexivity.
Qed.

(** A report is handled to completion exactly when the objects its
    handler dereferences are there; otherwise it raises [TypeError] with
    the coordinator as it was. *)
Lemma readable_completes (h : Helpers) (now now' : Z) (agentId : string) (d : Report.t)
    (st : CollectiveIntelligence.t) :
  (readable d = true -> (onMessage h now now' agentId (Parsed d) st).2 = Normal tt)
  /\ (readable d = false ->
      onMessage h now now' agentId (Parsed d) st = (st, Throw TypeError)).
Proof.
  rewrite onMessage_parsed. unfold readable.
  destruct (Report.context d) as [ctx|], (Report.outcome d) as [out|],
    (Report.emotion d) as [em|];
    repeat case_decide;
    unfold learnFromCustomerInteraction, learnCrisisManagement, recordSuccessPattern,
      updateEmotionalIntelligence, enhanceCollaborationPatterns, broadcastLearning;
    run_method;
    repeat match goal with
           | |- context [if ?c then _ else _] => destruct c; run_method
           end;
    split; intros Hr; try reflexivity; try discriminate Hr;
    exfalso; revert Hr; rewrite ?andb_true_iff, ?andb_false_iff, ?bool_decide_eq_true,
      ?bool_decide_eq_false; intros Hr;
    repeat match goal with
           | H : _ /\ _ |- _ => destruct H
           | H : _ \/ _ |- _ => destruct H
           | H : is_Some None |- _ => destruct H as [? H]; discriminate H
           | H : ~ is_Some (Some _) |- _ => apply H; eauto
           end.
Qed.

(** C4 (as amended). The coordinator validates nothing and catches
    nothing.  A frame that is not JSON raises [SyntaxError] out of the
    listener, a [null] message and a report without the [context],
    [outcome] or [emotion] object its handler reads raise [TypeError];
    the coordinator is then exactly as it was, nothing stored and
    nothing broadcast.  Every other report is handled to completion and
    broadcast whatever fields its objects lack, the methods the class
    calls and does not define being taken to return; in particular a
    customer interaction whose [context] and [outcome] are there is
    stored under its situation, the [undefined] one when it has none,
    with the result it carries or none. *)
Theorem malformed_report_unvalidated (h : Helpers) (now now' : Z) (agentId : string)
    (d : Report.t) (ctx : Context.t) (out : Outcome.t) (st : CollectiveIntelligence.t) :
  onMessage h now now' agentId NotJSON st = (st, Throw SyntaxError)
  /\ onMessage h now now' agentId ParsedNull st = (st, Throw TypeError)
  /\ (Report.context d = None ->
      Report.type d = Some "CUSTOMER_INTERACTION"%string
      \/ Report.type d = Some "CRISIS_HANDLED"%string
      \/ Report.type d = Some "SUCCESS_PATTERN"%string ->
      onMessage h now now' agentId (Parsed d) st = (st, Throw TypeError))
  /\ (Report.outcome d = None ->
      Report.type d = Some "CUSTOMER_INTERACTION"%string
      \/ Report.type d = Some "CRISIS_HANDLED"%string
      \/ Report.type d = Some "EMOTIONAL_READ"%string ->
      onMessage h now now' agentId (Parsed d) st = (st, Throw TypeError))
  /\ (Report.emotion d = None ->
      Report.type d = Some "EMOTIONAL_READ"%string ->
      onMessage h now now' agentId (Parsed d) st = (st, Throw TypeError))
  /\ (readable d = false ->
      onMessage h now now' agentId (Parsed d) st = (st, Throw TypeError))
  /\ (readable d = true ->
      let r := onMessage h now now' agentId (Parsed d) st in
      r.2 = Normal tt
      /\ sent r.1 = sent st ++ map (fun id => (id, learning_message now' agentId (Report.learning d)))
                                   (recipients agentId (agents st)))
  /\ (Report.type d = Some "CUSTOMER_INTERACTION"%string ->
      Report.context d = Some ctx -> Report.outcome d = Some out ->
      let r := onMessage h now now' agentId (Parsed d) st in
      r.2 = Normal tt
      /\ customerPatterns (brain r.1) !! Context.situation ctx =
           Some (default [] (customerPatterns (brain st) !! Context.situation ctx)
                 ++ [{| CustomerPattern.situation := Context.situation ctx;
                        CustomerPattern.customerMood := Context.mood ctx;
                        CustomerPattern.approach := Context.approach ctx;
                        CustomerPattern.result := Outcome.satisfaction out;
                        CustomerPattern.timestamp := now |}])).
Proof.
  destruct (listener_raises h now now' agentId d st) as (Hnot & Hnull & Hctx & Hout & Hem).
  destruct (readable_completes h now now' agentId d st) as (Hok & Hbad).
  split; [exact Hnot|]. split; [exact Hnull|].
  split; [exact Hctx|]. split; [exact Hout|]. split; [exact Hem|].
  split; [exact Hbad|]. split.
  - intros Hr. cbv zeta. specialize (Hok Hr). split; [exact Hok|].
    destruct (onMessage h now now' agentId (Parsed d) st) as [st' c] eqn:Hrun.
    simpl in Hok. subst c. simpl.
    apply (processAgentCommunication_sends h now now' agentId d st st') in Hrun. tauto.
  - intros Ht Hc Ho. cbv zeta. rewrite onMessage_parsed.
    rewrite Ht, Hc, Ho. simpl.
    unfold learnFromCustomerInteraction. run_method.
    destruct (gt_opt (Outcome.satisfaction out) (8 # 10)); run_method;
      (split; [reflexivity|]); apply lookup_insert_eq.
Qed.

Lemma malformed_report_unvalidated_witness :
  onMessage helpers_spec 0 0 "marcus" (Parsed (report "CRISIS_HANDLED" None None)) two_agents
  = (two_agents, Throw TypeError)
  /\ (onMessage helpers_spec 0 0 "marcus"
        (Parsed (report "CUSTOMER_INTERACTION" (Some no_context) (Some no_outcome)))
        two_agents).2 = Normal tt.
Proof.
  destruct (malformed_report_unvalidated helpers_spec 0 0 "marcus"
              (report "CRISIS_HANDLED" None None) no_context no_outcome two_agents)
    as (_ & _ & Hctx & _).
  destruct (malformed_report_unvalidated helpers_spec 0 0 "marcus"
              (report "CUSTOMER_INTERACTION" (Some no_context) (Some no_outcome))
              no_context no_outcome two_agents)
    as (_ & _ & _ & _ & _ & _ & Hok & _).
  split.
  - apply Hctx; [reflexivity | right; left; reflexivity].
  - apply Hok. reflexivity.
Defined.

(** C4, counterexample. A customer-interaction report with empty
    [context] and [outcome] objects is not dropped: it is handled to
    completion and changes the pattern store.  The same report without
    the two objects raises [TypeError] out of the listener. *)
Lemma malformed_report_not_dropped :
  let missing := report "CUSTOMER_INTERACTION" None None in
  let hollow := report "CUSTOMER_INTERACTION" (Some no_context) (Some no_outcome) in
  (onMessage helpers_spec 0 0 "marcus" (Parsed hollow) two_agents).2 = Normal tt
  /\ customerPatterns (brain (onMessage helpers_spec 0 0 "marcus" (Parsed hollow) two_agents).1)
     <> customerPatterns (brain two_agents)
  /\ (onMessage helpers_spec 0 0 "marcus" (Parsed missing) two_agents).2 = Throw TypeError.
Proof.
  split; [reflexivity|]. split; [|reflexivity].
  intros Heq. apply (f_equal (fun m => m !! (None : option string))) in Heq.
  vm_compute in Heq. discriminate Heq.
Qed.

End Malformed_facts.

(** ** Predictive engine: proactive actions *)

Section Proactive_facts.
Import Js PredictiveEngine.

Lemma generateProactiveActions_configured (predictions : Predictions.t) :
  generateProactiveActions predictions = generateProactiveActions_at configured predictions.
Proof. reflexivity. Qed.

Lemma gt_lower (x t t' : Q) : t' <= t -> gt x t = true -> gt x t' = true.
Proof. rewrite !gt_spec. intros Hle Hlt. lra. Qed.

Lemma once_sublist {A : Type} (b b' : bool) (x : A) :
  (b = true -> b' = true) ->
  (if b then [x] else []) `sublist_of` (if b' then [x] else []).
Proof.
  intros Himp. destruct b.
  - rewrite Himp by reflexivity. reflexivity.
  - apply sublist_nil_l.
Qed.

Lemma filter_sublist_mono {A : Type} (P Q : A -> Prop)
    `{!forall x, Decision (P x)} `{!forall x, Decision (Q x)} (l : list A) :
  (forall x, P x -> Q x) -> filter P l `sublist_of` filter Q l.
Proof.
  intros Himp. induction l as [|x l IH]; [reflexivity|].
  rewrite !filter_cons. destruct (decide (P x)) as [Hp|Hp].
  - rewrite decide_True by auto. apply sublist_skip, IH.
  - destruct (decide (Q x)); [apply sublist_cons|]; exact IH.
Qed.

Lemma or_iff_both (A B C D : Prop) : (A <-> B) -> (C <-> D) -> (A \/ C <-> B \/ D).
Proof. tauto. Qed.

Lemma actions_justified (t : Thresholds.t) (predictions : Predictions.t) (a : ProactiveAction.t) :
  a ∈ generateProactiveActions_at t predictions <-> justified t predictions a.
Proof.
  unfold generateProactiveActions_at, justified.
  rewrite !elem_of_app. 
  apply or_iff_both; [|apply or_iff_both; [|apply or_iff_both]].
  - destruct (Predictions.arrivalTime predictions) as [p|].
    + destruct (gt (ArrivalTime.probability p) (Thresholds.arrival t)) eqn:Hg.
      * apply gt_spec in Hg. rewrite list_elem_of_singleton. split.
        { intros ->. eauto. }
        { intros (p' & [= <-] & _ & ->). reflexivity. }
      * apply gt_false in Hg. split.
        { intros Hin. apply elem_of_nil in Hin. contradiction. }
        { intros (p' & [= <-] & Hlt & _). lra. }
    + split; [intros Hin; apply elem_of_nil in Hin; contradiction|].
      intros (p' & Hp & _). discriminate.
  - destruct (Predictions.nextOrder predictions) as [o|].
    + destruct (gt (NextOrder.confidence o) (Thresholds.order t)) eqn:Hg.
      * apply gt_spec in Hg. rewrite list_elem_of_singleton. split.
        { intros ->. eauto. }
        { intros (o' & [= <-] & _ & ->). reflexivity. }
      * apply gt_false in Hg. split.
        { intros Hin. apply elem_of_nil in Hin. contradiction. }
        { intros (o' & [= <-] & Hlt & _). lra. }
    + split; [intros Hin; apply elem_of_nil in Hin; contradiction|].
      intros (o' & Ho & _). discriminate.
  - destruct (Predictions.churnRisk predictions) as [c|]; simpl.
    + destruct (gt c (Thresholds.churn t)) eqn:Hg.
      * apply gt_spec in Hg. rewrite list_elem_of_singleton. split.
        { intros ->. eauto. }
        { intros (c' & _ & _ & ->). reflexivity. }
      * apply gt_false in Hg. split.
        { intros Hin. apply elem_of_nil in Hin. contradiction. }
        { intros (c' & [= <-] & Hlt & _). lra. }
    + split; [intros Hin; apply elem_of_nil in Hin; contradiction|].
      intros (c' & Hc & _). discriminate.
  - destruct (Predictions.specialRequest predictions) as [requests|].
    + rewrite list_elem_of_fmap. split.
      * intros (r & -> & Hin). apply list_elem_of_filter in Hin as [Hg Hin].
        apply gt_spec in Hg. exists requests, r. auto.
      * intros (requests' & r & [= <-] & Hin & Hlt & ->). exists r.
        split; [reflexivity|]. apply list_elem_of_filter. split; [|exact Hin].
        apply gt_spec, Hlt.
    + split; [intros Hin; apply elem_of_nil in Hin; contradiction|].
      intros (requests' & r & Hr & _). discriminate.
Qed.

Lemma actions_monotone (t t' : Thresholds.t) (predictions : Predictions.t) :
  lowered t' t ->
  generateProactiveActions_at t predictions `sublist_of` generateProactiveActions_at t' predictions.
Proof.
  intros (Ha & Ho & Hc & Hs). unfold generateProactiveActions_at.
  repeat apply sublist_app.
  - destruct (Predictions.arrivalTime predictions) as [p|]; [|reflexivity].
    apply once_sublist, gt_lower, Ha.
  - destruct (Predictions.nextOrder predictions) as [o|]; [|reflexivity].
    apply once_sublist, gt_lower, Ho.
  - apply once_sublist. destruct (Predictions.churnRisk predictions) as [c|]; simpl; [|auto].
    apply gt_lower, Hc.
  - destruct (Predictions.specialRequest predictions) as [requests|]; [|reflexivity].
    apply fmap_sublist, filter_sublist_mono. intros r. apply gt_lower, Hs.
Qed.

Lemma gt_shift (x d t : Q) : gt (x + d) t = gt x (t - d).
Proof.
  destruct (gt x (t - d)) eqn:Hg.
  - apply gt_spec in Hg. apply gt_spec. lra.
  - apply gt_false in Hg. apply gt_false. lra.
Qed.

(** Running the source on the bundle moved up by margins is running it
    with the thresholds lowered by these margins. *)
Lemma raised_lowers_thresholds (by_ : Thresholds.t) (predictions : Predictions.t) :
  generateProactiveActions (raised by_ predictions)
  = generateProactiveActions_at (lowered_by by_) predictions.
Proof.
  unfold generateProactiveActions, generateProactiveActions_at, raised, lowered_by.
  cbn [Predictions.arrivalTime Predictions.nextOrder Predictions.churnRisk
       Predictions.specialRequest Thresholds.arrival Thresholds.order Thresholds.churn
       Thresholds.special].
  f_equal; [|f_equal; [|f_equal]].
  - destruct (Predictions.arrivalTime predictions) as [p|]; [|reflexivity].
    cbn. rewrite gt_shift. destruct (gt _ _); reflexivity.
  - destruct (Predictions.nextOrder predictions) as [o|]; [|reflexivity].
    cbn. rewrite gt_shift. destruct (gt _ _); reflexivity.
  - destruct (Predictions.churnRisk predictions) as [c|]; [|reflexivity].
    cbn. rewrite gt_shift. reflexivity.
  - destruct (Predictions.specialRequest predictions) as [requests|]; [|reflexivity].
    cbn [fmap option_fmap option_map].
    induction requests as [|r requests IH]; [reflexivity|].
    cbn [map]. rewrite !filter_cons. cbn [SpecialRequest.confidence].
    rewrite gt_shift.
    destruct (decide (gt (SpecialRequest.confidence r) ((8 # 10) - Thresholds.special by_)
                      = true)) as [Hg|Hg].
    + cbn [map]. f_equal. exact IH.
    + exact IH.
Qed.

(** C9. Every action [generateProactiveActions] produces is derived from
    a prediction that exceeds its threshold, and every such prediction
    yields its action: an arrival probability above 0.7 a
    [PREPARE_TABLE] for marcus at the estimated time, a next-order
    confidence above 0.8 a [PREP_INGREDIENTS] for sophia with the items
    of the order, a churn risk above 0.6 a [RETENTION] for marcus, a
    request confidence above 0.8 a [SPECIAL_PREP] with the action of the
    request, for chen when it is a birthday and for marcus otherwise.
    The thresholds are literals: lowering them by any margins is running
    the code on the bundle with its values moved up by these margins,
    and then the former result is kept, in order, within the new one. *)
Theorem proactive_actions_follow_thresholds (predictions : Predictions.t)
    (by_ t' : Thresholds.t) (a : ProactiveAction.t) :
  (a ∈ generateProactiveActions predictions <->
   (exists p, Predictions.arrivalTime predictions = Some p
              /\ 7 # 10 < ArrivalTime.probability p
              /\ a = {| ProactiveAction.type := "PREPARE_TABLE";
                        ProactiveAction.time := Some (ArrivalTime.estimatedTime p);
                        ProactiveAction.items := None;
                        ProactiveAction.priority := "high";
                        ProactiveAction.agent := "marcus";
                        ProactiveAction.action :=
                          ("Prepare preferred table for customer arrival at "
                           +:+ ArrivalTime.estimatedTime p)%string |})
   \/ (exists o, Predictions.nextOrder predictions = Some o
                 /\ 8 # 10 < NextOrder.confidence o
                 /\ a = {| ProactiveAction.type := "PREP_INGREDIENTS";
                           ProactiveAction.time := None;
                           ProactiveAction.items := Some (NextOrder.items o);
                           ProactiveAction.priority := "medium";
                           ProactiveAction.agent := "sophia";
                           ProactiveAction.action :=
                             ("Begin prep for likely order: "
                              +:+ String.concat ", " (NextOrder.items o))%string |})
   \/ (exists c, Predictions.churnRisk predictions = Some c
                 /\ 6 # 10 < c
                 /\ a = {| ProactiveAction.type := "RETENTION";
                           ProactiveAction.time := None;
                           ProactiveAction.items := None;
                           ProactiveAction.priority := "high";
                           ProactiveAction.agent := "marcus";
                           ProactiveAction.action :=
                             "Offer personalized promotion or complimentary item" |})
   \/ (exists requests r, Predictions.specialRequest predictions = Some requests
                          /\ r ∈ requests
                          /\ 8 # 10 < SpecialRequest.confidence r
                          /\ a = {| ProactiveAction.type := "SPECIAL_PREP";
                                    ProactiveAction.time := None;
                                    ProactiveAction.items := None;
                                    ProactiveAction.priority := "high";
                                    ProactiveAction.agent :=
                                      if decide (SpecialRequest.type r = "birthday"%string)
                                      then "chen" else "marcus";
                                    ProactiveAction.action := SpecialRequest.action r |}))
  /\ (0 <= Thresholds.arrival by_ -> 0 <= Thresholds.order by_ ->
      0 <= Thresholds.churn by_ -> 0 <= Thresholds.special by_ ->
      generateProactiveActions predictions
        `sublist_of` generateProactiveActions (raised by_ predictions))
  /\ generateProactiveActions (raised by_ predictions)
     = generateProactiveActions_at (lowered_by by_) predictions
  /\ (lowered t' configured ->
      generateProactiveActions predictions
        `sublist_of` generateProactiveActions_at t' predictions).
Proof.
  split; [|split; [|split]].
  - rewrite generateProactiveActions_configured. apply actions_justified.
  - intros Ha Ho Hc Hs. rewrite raised_lowers_thresholds.
    rewrite generateProactiveActions_configured. apply actions_monotone.
    unfold lowered, lowered_by. simpl. repeat split; lra.
  - apply raised_lowers_thresholds.
  - rewrite generateProactiveActions_configured. apply actions_monotone.
Qed.

Lemma proactive_actions_follow_thresholds_witness :
  generateProactiveActions hesitant = []
  /\ generateProactiveActions hesitant `sublist_of` generateProactiveActions (raised fifth hesitant)
  /\ map ProactiveAction.type (generateProactiveActions (raised fifth hesitant))
     = ["PREPARE_TABLE"; "PREP_INGREDIENTS"; "RETENTION"; "SPECIAL_PREP"]%string
  /\ lowered halved configured
  /\ generateProactiveActions confident_order
       `sublist_of` generateProactiveActions_at halved confident_order.
Proof.
  assert (H : lowered halved configured).
  { unfold lowered. simpl. repeat split; discriminate. }
  destruct (proactive_actions_follow_thresholds hesitant fifth halved retention)
    as (_ & Hup & _ & _).
  destruct (proactive_actions_follow_thresholds confident_order fifth halved retention)
    as (_ & _ & _ & Hlow).
  split; [reflexivity|]. split; [apply Hup; discriminate|]. split; [reflexivity|].
  split; [exact H|]. apply Hlow, H.
Defined.

End Proactive_facts.

(** ** Predictive engine: insufficient history *)

Section History_facts.
Import Js PredictiveEngine.

Lemma forecastDemand_daily (e : Engine) (today : Z) (hist : list (list Q)) (f : Forecast.t) :
  getHistoricalDemand e = Normal hist ->
  forecastDemand e today = Normal f ->
  map DayForecast.confidence (Forecast.daily f)
  = map (calculateForecastConfidence e hist) (seq 0 7).
Proof.
  intros Hh. unfold forecastDemand. rewrite Hh. simpl.
  destruct (tensor2d e hist) as [ts|]; simpl; [|discriminate].
  destruct (demandForecast e ts) as [fd|]; simpl; [|discriminate].
  destruct (getTopItems e) as [top|]; simpl; [|discriminate].
  destruct (for_each _ top) as [fs|]; simpl; [|discriminate].
  intros [= <-]. reflexivity.
Qed.

(** C3. [predictNextOrder] answers a history of fewer than 3 entries
    with [{items: [], confidence: 0}] and consults no model.
    [forecastDemand] has no such guard, whatever the length of the
    history: it hands the history to [tf.tensor2d] and rejects when that
    throws, and when it does return, the confidence of each of its seven
    days is what [calculateForecastConfidence] gives for the history,
    not the constant 0. *)
Theorem history_guard_in_predictNextOrder_only (e : Engine) (customerId : string)
    (history : list json) (hist : list (list Q)) (today : Z) :
  (getCustomerHistory e customerId = Normal history -> (length history < 3)%nat ->
   predictNextOrder e customerId =
     Normal {| NextOrder.items := []; NextOrder.confidence := 0; NextOrder.reasoning := None |})
  /\ (getHistoricalDemand e = Normal hist ->
      (forall err, tensor2d e hist = Throw err -> forecastDemand e today = Throw err)
      /\ (forall f, forecastDemand e today = Normal f ->
            map DayForecast.confidence (Forecast.daily f)
            = map (calculateForecastConfidence e hist) (seq 0 7))).
Proof.
  split.
  - intros Hh Hlen. unfold predictNextOrder. rewrite Hh. simpl.
    apply Nat.ltb_lt in Hlen. rewrite Hlen. reflexivity.
  - intros Hh. split.
    + intros err Ht. unfold forecastDemand. rewrite Hh. simpl. rewrite Ht. reflexivity.
    + intros f. apply forecastDemand_daily, Hh.
Qed.

Lemma history_guard_in_predictNextOrder_only_witness :
  predictNextOrder no_history "c1" =
    Normal {| NextOrder.items := []; NextOrder.confidence := 0; NextOrder.reasoning := None |}
  /\ forecastDemand no_history 0 = Throw tensor2d_error.
Proof.
  destruct (history_guard_in_predictNextOrder_only no_history "c1" [] [] 0) as (Hnext & Hdemand).
  split.
  - apply Hnext; [reflexivity | simpl; lia].
  - destruct (Hdemand eq_refl) as (Hthrow & _). apply Hthrow. reflexivity.
Defined.

(** With no demand history at all the forecast is not a zero-confidence
    result: the call rejects. *)
Lemma forecastDemand_rejects_empty_history :
  getHistoricalDemand no_history = Normal []
  /\ forecastDemand no_history 0 = Throw (tensor2d_error).
Proof. split; reflexivity. Qed.

End History_facts.

(** ** Predictive engine: composite confidence *)

Section Confidence_facts.
Import Js PredictiveEngine.

Lemma calculateConfidence_positional (readings : list (option Q)) :
  let confidences := truthy_confidences readings in
  calculateConfidence_of readings
  == weighted_sum (map weight_at (seq 0 (length confidences))) confidences.
Proof.
  intros confidences. unfold calculateConfidence_of. fold confidences.
  assert (Hgen : forall (l : list Q) i acc,
    reduce_indexed (fun sum conf i => sum + conf * weight_at i) l i acc
    == acc + weighted_sum (map weight_at (seq i (length l))) l).
  { induction l as [|x l IH]; intros i acc; simpl.
    - unfold weighted_sum. simpl. lra.
    - rewrite IH. unfold weighted_sum. simpl. lra. }
  destruct confidences as [|c cs] eqn:Hc.
  - reflexivity.
  - rewrite Hgen. lra.
Qed.

(** C6. [calculateConfidence] multiplies the confidences present, in
    order, by the fixed weights of their positions and adds them up; the
    weights are not renormalised.  For a bundle in which only the next
    order carries a confidence, equal to 1, it returns 0.3, where the
    weighted mean of the one confidence present is 1. *)
Theorem composite_confidence_not_renormalised (readings : list (option Q)) :
  calculateConfidence_of readings
    == weighted_sum (map weight_at (seq 0 (length (truthy_confidences readings))))
                    (truthy_confidences readings)
  /\ truthy_confidences (confidence_readings confident_order) = [1]
  /\ calculateConfidence confident_order = 3 # 10
  /\ weighted_mean [3 # 10] [1] == 1
  /\ calculateConfidence confident_order < weighted_mean [3 # 10] [1].
Proof.
  split; [apply calculateConfidence_positional|]. repeat split.
Qed.

End Confidence_facts.

(** * Further properties of the code *)

(** ** Sorting with a comparator that subtracts keys *)

Section Sort_facts.
Import Js.
Import Ranking.
Context {A : Type} (key : A -> Q).

Lemma sort_insert_permutation (cmp : A -> A -> Q) (x : A) (l : list A) :
  sort_insert cmp x l ≡ₚ x :: l.
Proof.
  induction l as [|y l IH]; simpl; [reflexivity|].
  destruct (gt (cmp x y) 0); [|reflexivity].
  rewrite IH. apply Permutation_swap.
Qed.

Lemma sort_permutation (cmp : A -> A -> Q) (l : list A) : sort cmp l ≡ₚ l.
Proof.
  induction l as [|x l IH]; simpl; [reflexivity|].
  rewrite sort_insert_permutation, IH. reflexivity.
Qed.

Lemma sort_insert_descending (x : A) (l : list A) :
  StronglySorted (descending key) l ->
  StronglySorted (descending key) (sort_insert (fun a b => key b - key a) x l).
Proof.
  induction 1 as [|y l' Hs IH Hy]; simpl.
  - repeat constructor.
  - destruct (gt (key y - key x) 0) eqn:Hc.
    + apply gt_spec in Hc. constructor; [exact IH|].
      rewrite sort_insert_permutation. constructor; [|exact Hy].
      unfold descending. lra.
    + apply gt_false in Hc. constructor; [constructor; assumption|].
      constructor; [unfold descending; lra|].
      eapply Forall_impl; [exact Hy|]. unfold descending. intros z Hz. lra.
Qed.

Lemma sort_descending (l : list A) :
  StronglySorted (descending key) (sort (fun a b => key b - key a) l).
Proof.
  induction l as [|x l IH]; simpl; [constructor | apply sort_insert_descending, IH].
Qed.

(** A list already in order comes back as it is: equal keys keep the
    order they had. *)
Lemma sort_descending_id (l : list A) :
  StronglySorted (descending key) l -> sort (fun a b => key b - key a) l = l.
Proof.
  induction 1 as [|x l Hs IH Hx]; simpl; [reflexivity|].
  rewrite IH. destruct l as [|y l]; simpl; [reflexivity|].
  apply Forall_cons in Hx as [Hxy _]. unfold descending in Hxy.
  rewrite (proj2 (gt_false (key y - key x) 0)) by lra. reflexivity.
Qed.

End Sort_facts.

(** ** Relationship graph: nodes, edges and the strongest connections *)

Section Graph_more.
Import Js Graph.

(** X1. An edge can only start at a node that was added: [addEdge]
    raises [TypeError] otherwise.  After [addNode] it succeeds: it
    appends the edge, with weight 1 when none is given, behind the edges
    the node already had, and leaves every other node as it was. *)
Theorem addEdge_needs_addNode (g : Graph.t) (from to_ : string) (w : option Q) (data : json) :
  (edges g !! from = None -> addEdge g from to_ w = Throw TypeError)
  /\ exists g', addEdge (addNode g from data) from to_ w = Normal g'
       /\ edges g' !! from
          = Some (default [] (edges g !! from) ++ [{| to := to_; weight := default 1 w |}])
       /\ nodes g' !! from = Some data
       /\ forall n, n <> from -> edges g' !! n = edges g !! n /\ nodes g' !! n = nodes g !! n.
Proof.
  split.
  - intros Hnone. unfold addEdge. rewrite Hnone. reflexivity.
  - unfold addEdge, addNode. simpl.
    destruct (edges g !! from) as [s|] eqn:Hs; simpl.
    + rewrite Hs. eexists. split; [reflexivity|]. simpl.
      rewrite !lookup_insert_eq. split; [reflexivity|]. split; [reflexivity|].
      intros n Hn. rewrite !lookup_insert_ne by congruence. auto.
    + rewrite lookup_insert_eq. eexists. split; [reflexivity|]. simpl.
      rewrite !lookup_insert_eq. split; [reflexivity|]. split; [reflexivity|].
      intros n Hn. rewrite !lookup_insert_ne by congruence. auto.
Qed.

Lemma addEdge_needs_addNode_witness :
  addEdge Graph.empty "marcus" "sophia" None = Throw TypeError.
Proof.
  destruct (addEdge_needs_addNode Graph.empty "marcus" "sophia" None JNull) as [Hthrow _].
  apply Hthrow. reflexivity.
Defined.

Lemma slice0_take {B : Type} (l : list B) (limit : Z) :
  (0 <= limit)%Z -> slice0 l limit = take (Z.to_nat limit) l.
Proof.
  intros Hl. unfold slice0. destruct (Z.ltb_spec limit 0) as [Hneg|_]; [lia|].
  destruct (Z.le_gt_cases limit (Z.of_nat (length l))) as [Hle|Hgt].
  - rewrite Z.min_l by lia. reflexivity.
  - rewrite Z.min_r by lia. rewrite Nat2Z.id, !take_ge by lia. reflexivity.
Qed.

(** X2. With a limit that is a count, [findStrongestConnections] keeps
    the strongest edges: what it returns and what it drops are together
    the edges of the node, it returns [limit] of them or all when there
    are fewer, and no dropped edge is heavier than a returned one. *)
Theorem strongest_connections_are_kept (g : Graph.t) (nodeId : string) (limit : Z) :
  (0 <= limit)%Z ->
  let all := default [] (edges g !! nodeId) in
  let r := findStrongestConnections g nodeId (Some limit) in
  exists dropped,
    r ++ dropped ≡ₚ all
    /\ length r = Nat.min (Z.to_nat limit) (length all)
    /\ forall a b, a ∈ r -> b ∈ dropped -> weight b <= weight a.
Proof.
  intros Hl all r. subst r. unfold findStrongestConnections. fold all. simpl.
  rewrite slice0_take by exact Hl.
  set (sorted := sort (fun a b => weight b - weight a) all).
  exists (drop (Z.to_nat limit) sorted). split; [|split].
  - rewrite take_drop. apply sort_permutation.
  - rewrite length_take. subst sorted. rewrite (sort_permutation _ all). reflexivity.
  - intros a b Ha Hb.
    pose proof (sort_descending weight all) as Hs. fold sorted in Hs.
    rewrite <- (take_drop (Z.to_nat limit) sorted) in Hs.
    exact (StronglySorted_app_1_elem_of _ _ _ a b Hs Ha Hb).
Qed.

Lemma strongest_connections_are_kept_witness :
  exists dropped,
    findStrongestConnections sample "marcus" (Some 2%Z) ++ dropped
      ≡ₚ default [] (edges sample !! "marcus"%string)
    /\ length (findStrongestConnections sample "marcus" (Some 2%Z)) = 2%nat.
Proof.
  destruct (strongest_connections_are_kept sample "marcus" 2 ltac:(lia))
    as (dropped & Hperm & Hlen & _).
  exists dropped. split; [exact Hperm | exact Hlen].
Defined.

(** X3. Edges recorded in non-increasing order of weight, and so all
    edges of default weight, are returned in the order they were added:
    the result is the first [limit] of them. *)
Theorem connections_in_order_keep_their_order (g : Graph.t) (nodeId : string) (limit : Z) :
  (0 <= limit)%Z ->
  StronglySorted heavier (default [] (edges g !! nodeId)) ->
  findStrongestConnections g nodeId (Some limit)
  = take (Z.to_nat limit) (default [] (edges g !! nodeId)).
Proof.
  intros Hl Hs. unfold findStrongestConnections. simpl.
  rewrite slice0_take by exact Hl.
  rewrite (sort_descending_id weight) by exact Hs. reflexivity.
Qed.

Lemma connections_in_order_keep_their_order_witness :
  findStrongestConnections Ranking.regulars "marcus" (Some 2%Z)
  = [ {| to := "sophia"; weight := 1 |}; {| to := "chen"; weight := 1 |} ].
Proof.
  rewrite (connections_in_order_keep_their_order Ranking.regulars "marcus" 2 ltac:(lia)).
  - reflexivity.
  - repeat (constructor; try (unfold heavier; simpl; lra)).
Defined.

End Graph_more.

(** ** Shared memory: customer profiles over a run *)

Section Profile_facts.
Import Js SharedMemory Profiles.

Lemma update_all_snoc (tx : Text) (sm : SharedMemory.t) us u :
  update_all tx sm (us ++ [u]) = (updateCustomerProfile tx (update_all tx sm us) u.1 u.2).1.
Proof. unfold update_all. apply fold_left_app. Qed.

Lemma interactions_of_snoc (c : string) us u :
  interactions_of c (us ++ [u])
  = interactions_of c us ++ (if decide (u.1 = c) then [u.2] else []).
Proof.
  unfold interactions_of. rewrite filter_app, map_app. f_equal.
  rewrite filter_cons, filter_nil. destruct (decide _); reflexivity.
Qed.

Lemma updateCustomerProfile_lookup (tx : Text) (sm : SharedMemory.t) (c c' : string)
    (i : Interaction.t) :
  customerProfiles (updateCustomerProfile tx sm c i).1 !! c'
  = if decide (c = c') then Some (stored tx sm c i) else customerProfiles sm !! c'.
Proof.
  unfold stored, updateCustomerProfile. cbn [fst customerProfiles].
  rewrite lookup_insert_eq. apply lookup_insert.
Qed.

(** What is written before the preferences are extracted stays
    written. *)
Lemma stored_keeps (tx : Text) (sm : SharedMemory.t) (c : string) (i : Interaction.t) :
  let old := default (new_profile c) (customerProfiles sm !! c) in
  Profile.id (stored tx sm c i) = Profile.id old
  /\ Profile.interactions (stored tx sm c i) = Profile.interactions old ++ [i]
  /\ Profile.sentiment (stored tx sm c i) = calculateSentiment (Profile.interactions old ++ [i]).
Proof.
  unfold stored, updateCustomerProfile. cbn [fst customerProfiles].
  rewrite lookup_insert_eq. repeat split; reflexivity.
Qed.

(** X4. After any run of [updateCustomerProfile] on a new memory, a
    customer has a profile if and only if the run holds an interaction
    of that customer; the profile carries the id of the customer, the
    interactions of the customer in the order they came, and the
    sentiment computed from exactly these. *)
Theorem profile_holds_own_interactions (tx : Text) (us : list (string * Interaction.t))
    (c : string) :
  match customerProfiles (update_all tx SharedMemory.new us) !! c with
  | None => interactions_of c us = []
  | Some p =>
      interactions_of c us <> []
      /\ Profile.id p = c
      /\ Profile.interactions p = interactions_of c us
      /\ Profile.sentiment p = calculateSentiment (interactions_of c us)
  end.
Proof.
  induction us as [|[c0 i] us IH] using rev_ind; [reflexivity|].
  rewrite update_all_snoc, interactions_of_snoc, updateCustomerProfile_lookup. simpl.
  destruct (decide (c0 = c)) as [->|Hne].
  - destruct (stored_keeps tx (update_all tx SharedMemory.new us) c i) as (Hid & Hint & Hsen).
    rewrite Hid, Hint, Hsen.
    destruct (customerProfiles (update_all tx SharedMemory.new us) !! c) as [p|]; simpl.
    + destruct IH as (_ & Hpid & Hpint & _). rewrite Hpid, Hpint.
      split; [|auto]. destruct (interactions_of c us); discriminate.
    + rewrite IH. simpl. split; [discriminate|auto].
  - rewrite app_nil_r. exact IH.
Qed.

Lemma uniq_spec (seen l : list string) :
  NoDup (uniq seen l)
  /\ forall x, x ∈ uniq seen l <-> x ∈ l /\ x ∉ seen.
Proof.
  revert seen. induction l as [|y l IH]; intros seen; simpl.
  - split; [constructor|]. intros x. rewrite elem_of_nil. tauto.
  - destruct (bool_decide_reflect (y ∈ seen)) as [Hin|Hnin].
    + destruct (IH seen) as [Hnd Hel]. split; [exact Hnd|].
      intros x. rewrite Hel, elem_of_cons. split; [tauto|].
      intros [[->|Hx] Hs]; [contradiction | tauto].
    + destruct (IH (y :: seen)) as [Hnd Hel]. split.
      * apply NoDup_cons. split; [|exact Hnd].
        rewrite Hel, elem_of_cons. tauto.
      * intros x. rewrite !elem_of_cons, Hel, elem_of_cons.
        destruct (decide (x = y)) as [->|Hxy]; tauto.
Qed.

Lemma favourites_fold (liked : bool) (its fav : list string) :
  let fav' := fold_left (fun f item =>
                if liked && negb (bool_decide (item ∈ f)) then f ++ [item] else f) its fav in
  (NoDup fav -> NoDup fav')
  /\ fav `prefix_of` fav'
  /\ (forall x, x ∈ fav' -> x ∈ fav \/ x ∈ its)
  /\ (liked = true -> forall x, x ∈ its -> x ∈ fav')
  /\ (liked = false -> fav' = fav).
Proof.
  cbv zeta. revert fav. induction its as [|y its IH]; intros fav; cbn [fold_left].
  - split; [auto|]. split; [reflexivity|]. split; [auto|].
    split; [|auto]. intros _ x Hx. apply elem_of_nil in Hx. contradiction.
  - destruct (liked && negb (bool_decide (y ∈ fav))) eqn:Hcond.
    + apply andb_true_iff in Hcond as [Hl Hy]. apply negb_true_iff in Hy.
      apply bool_decide_eq_false in Hy.
      destruct (IH (fav ++ [y])) as (Hnd & Hpre & Hsub & Hall & _).
      assert (Hyin : y ∈ fold_left (fun f item =>
                if liked && negb (bool_decide (item ∈ f)) then f ++ [item] else f)
                its (fav ++ [y])).
      { destruct Hpre as [k Hk]. rewrite Hk, !elem_of_app, list_elem_of_singleton. auto. }
      split.
      { intros Hf. apply Hnd. apply NoDup_app. split; [exact Hf|].
        split; [|apply NoDup_singleton].
        intros x Hx Hx'. apply list_elem_of_singleton in Hx'. subst. contradiction. }
      split; [eapply prefix_app_l; exact Hpre|]. split.
      { intros x Hx. rewrite elem_of_cons.
        destruct (Hsub x Hx) as [Hx'|Hx']; [|auto].
        apply elem_of_app in Hx' as [Hx'|Hx']; [auto|].
        apply list_elem_of_singleton in Hx'. auto. }
      split; [|congruence]. intros _ x Hx. apply elem_of_cons in Hx as [->|Hx].
      { exact Hyin. }
      { apply Hall; auto. }
    + destruct (IH fav) as (Hnd & Hpre & Hsub & Hall & Hsame).
      split; [exact Hnd|]. split; [exact Hpre|]. split.
      { intros x Hx. rewrite elem_of_cons. destruct (Hsub x Hx); auto. }
      split; [|exact Hsame]. intros Hl x Hx. apply elem_of_cons in Hx as [->|Hx].
      { rewrite Hl in Hcond. simpl in Hcond. apply negb_false_iff in Hcond.
        apply bool_decide_eq_true in Hcond. destruct Hpre as [k Hk].
        rewrite Hk. apply elem_of_app. auto. }
      { apply Hall; auto. }
Qed.

Lemma items_forEach_spec (tx : Text) (feedback : string) (its fav : list string) :
  items_forEach tx feedback its fav
  = match getSentiment tx feedback with
    | Normal s =>
        (fold_left (fun f item =>
                      if gt s 0 && negb (bool_decide (item ∈ f)) then f ++ [item] else f)
                   its fav,
         Normal tt)
    | Throw e => (fav, match its with [] => Normal tt | _ :: _ => Throw e end)
    end.
Proof.
  revert fav. induction its as [|item its IH]; intros fav; cbn [items_forEach fold_left].
  - destruct (getSentiment tx feedback); reflexivity.
  - destruct (getSentiment tx feedback) as [s|e] eqn:Hs; [|reflexivity].
    apply IH.
Qed.

(** The three lists of the stored profile, and how the call ended. *)
Lemma stored_lists (tx : Text) (sm : SharedMemory.t) (c : string) (i : Interaction.t) :
  let old := default (new_profile c) (customerProfiles sm !! c) in
  let looped :=
    match Interaction.items i with
    | Some its =>
        items_forEach tx (default ""%string (Interaction.feedback i)) its
                      (Profile.favorite_items old)
    | None => (Profile.favorite_items old, Normal tt)
    end in
  Profile.favorite_items (stored tx sm c i) = looped.1
  /\ (updateCustomerProfile tx sm c i).2 = and_then looped.2 (fun _ => Normal (stored tx sm c i))
  /\ Profile.allergies (stored tx sm c i)
     = match looped.2, Interaction.notes i with
       | Normal _, Some (String ch s) =>
           uniq [] (Profile.allergies old ++ (extractDietaryInfo tx (String ch s)).1)
       | _, _ => Profile.allergies old
       end
  /\ Profile.preferences (stored tx sm c i)
     = match looped.2, Interaction.notes i with
       | Normal _, Some (String ch s) =>
           uniq [] (Profile.preferences old ++ (extractDietaryInfo tx (String ch s)).2)
       | _, _ => Profile.preferences old
       end.
Proof.
  unfold stored, updateCustomerProfile. cbn [fst snd customerProfiles].
  rewrite lookup_insert_eq. cbn [default]. unfold extractPreferences.
  cbn [fst snd Profile.favorite_items Profile.allergies Profile.preferences].
  split; [reflexivity|]. split; [reflexivity|].
  destruct (match Interaction.items i with Some _ => _ | None => _ end) as [fav [[]|e]];
    destruct (Interaction.notes i) as [[|ch s]|]; split; reflexivity.
Qed.

Lemma stored_tidy (tx : Text) (sm : SharedMemory.t) (c : string) (i : Interaction.t) :
  tidy (default (new_profile c) (customerProfiles sm !! c)) -> tidy (stored tx sm c i).
Proof.
  intros (Hfav & Hall & Hpref & Hsub). unfold tidy.
  destruct (stored_lists tx sm c i) as (-> & _ & -> & ->).
  set (old := default (new_profile c) (customerProfiles sm !! c)) in *.
  split.
  { destruct (Interaction.items i) as [its|]; [|exact Hfav].
    rewrite items_forEach_spec.
    destruct (getSentiment tx _) as [s|e]; [|exact Hfav].
    apply (favourites_fold (gt s 0) its (Profile.favorite_items old)), Hfav. }
  destruct (match Interaction.items i with Some _ => _ | None => _ end) as [fav [[]|e]];
    cbn [snd]; [|auto].
  destruct (Interaction.notes i) as [[|ch s]|]; auto.
  split; [apply uniq_spec|]. split; [apply uniq_spec|].
  intros x Hx. apply uniq_spec in Hx as [Hx _].
  apply elem_of_app in Hx as [Hx|Hx]; [apply Hsub, Hx|].
  unfold extractDietaryInfo in Hx. simpl in Hx.
  apply list_elem_of_filter in Hx as [_ Hx]. exact Hx.
Qed.

(** X5. In every memory reached from a new one by calls of
    [updateCustomerProfile], whether they returned or threw, no profile
    lists a favourite item, an allergy or a preference twice, and every
    preference is one of the five keywords [extractDietaryInfo] looks
    for. *)
Theorem profiles_stay_tidy (tx : Text) (us : list (string * Interaction.t)) (c : string)
    (p : Profile.t) :
  customerProfiles (update_all tx SharedMemory.new us) !! c = Some p -> tidy p.
Proof.
  revert c p. induction us as [|[c0 i] us IH] using rev_ind; intros c p.
  - simpl. rewrite lookup_empty. discriminate.
  - rewrite update_all_snoc, updateCustomerProfile_lookup. simpl.
    destruct (decide (c0 = c)) as [->|Hne]; [|apply IH].
    intros [= <-]. apply stored_tidy.
    destruct (customerProfiles (update_all tx SharedMemory.new us) !! c) as [q|] eqn:Hq;
      simpl.
    + apply (IH c q Hq).
    + unfold tidy. simpl.
      split; [constructor|]. split; [constructor|]. split; [constructor|].
      intros y Hy. apply elem_of_nil in Hy. contradiction.
Qed.

Lemma profiles_stay_tidy_witness :
  exists p, customerProfiles (update_all natural_text SharedMemory.new
                                          [("c1"%string, dietary_notes); ("c1"%string, dinner);
                                           ("c1"%string, dietary_notes)])
              !! "c1"%string = Some p
            /\ tidy p
            /\ Profile.favorite_items p = []
            /\ Profile.allergies p = ["nuts"%string]
            /\ Profile.preferences p = ["vegan"%string].
Proof.
  eexists. split; [vm_compute; reflexivity|]. split; [|repeat split].
  eapply (profiles_stay_tidy natural_text
            [("c1"%string, dietary_notes); ("c1"%string, dinner); ("c1"%string, dietary_notes)]
            "c1"%string).
  vm_compute. reflexivity.
Defined.

(** X6. [updateCustomerProfile] calls the analyzer for each item of the
    interaction, after it has pushed the interaction and set the
    sentiment.  When the analyzer throws, as the analyzer of the package
    does on the string it is handed, an interaction with an item makes
    the call throw that error: the interaction and the sentiment are
    stored, the favourites, the allergies and the preferences are as
    before, and the notes are not read.  Without an item the analyzer is
    not called and the call returns.  Favourites are only ever appended,
    and only items of the interaction; with an analyzer that returns a
    rating every item is a favourite afterwards when the rating is above
    0, and none is added otherwise. *)
Theorem favourites_follow_the_analyzer (tx : Text) (sm : SharedMemory.t) (c : string)
    (i : Interaction.t) :
  let old := default (new_profile c) (customerProfiles sm !! c) in
  let p := stored tx sm c i in
  let r := (updateCustomerProfile tx sm c i).2 in
  let rating := getSentiment tx (default ""%string (Interaction.feedback i)) in
  customerProfiles (updateCustomerProfile tx sm c i).1 !! c = Some p
  /\ Profile.interactions p = Profile.interactions old ++ [i]
  /\ Profile.sentiment p = calculateSentiment (Profile.interactions old ++ [i])
  /\ Profile.favorite_items old `prefix_of` Profile.favorite_items p
  /\ (forall x, x ∈ Profile.favorite_items p ->
        x ∈ Profile.favorite_items old
        \/ exists its, Interaction.items i = Some its /\ x ∈ its)
  /\ (forall e item its,
        rating = Throw e -> Interaction.items i = Some (item :: its) ->
        r = Throw e
        /\ Profile.favorite_items p = Profile.favorite_items old
        /\ Profile.allergies p = Profile.allergies old
        /\ Profile.preferences p = Profile.preferences old)
  /\ (Interaction.items i = None \/ Interaction.items i = Some [] ->
      r = Normal p /\ Profile.favorite_items p = Profile.favorite_items old)
  /\ (forall s its,
        rating = Normal s -> Interaction.items i = Some its ->
        r = Normal p
        /\ (gt s 0 = true -> forall x, x ∈ its -> x ∈ Profile.favorite_items p)
        /\ (gt s 0 = false -> Profile.favorite_items p = Profile.favorite_items old)).
Proof.
  intros old p r rating.
  destruct (stored_keeps tx sm c i) as (_ & Hint & Hsen).
  destruct (stored_lists tx sm c i) as (Hfav & Hr & Hal & Hpr).
  fold old p r in Hfav, Hr, Hal, Hpr, Hint, Hsen.
  split; [rewrite updateCustomerProfile_lookup, decide_True by reflexivity; reflexivity|].
  split; [exact Hint|]. split; [exact Hsen|].
  destruct (Interaction.items i) as [its|] eqn:Hits.
  - rewrite items_forEach_spec in Hfav, Hr, Hal, Hpr. fold rating in Hfav, Hr, Hal, Hpr.
    destruct rating as [s|e] eqn:Hrating; cbn [fst snd and_then] in *.
    + destruct (favourites_fold (gt s 0) its (Profile.favorite_items old))
        as (_ & Hpre & Hsub & Hall & Hsame).
      rewrite <- Hfav in Hpre, Hsub, Hall, Hsame.
      split; [exact Hpre|]. split; [intros x Hx; destruct (Hsub x Hx); eauto|].
      split; [intros e item its' He; discriminate He|].
      split.
      { intros [Hn|Hn]; [discriminate Hn|]. injection Hn as ->.
        split; [exact Hr | exact Hfav]. }
      intros s' its' [= <-] [= <-]. split; [exact Hr|]. split; assumption.
    + rewrite Hfav. split; [reflexivity|]. split; [auto|].
      split.
      { intros e' item its' [= <-] [= ->]. cbn in Hr, Hal, Hpr.
        split; [exact Hr|]. split; [reflexivity|]. split; assumption. }
      split.
      { intros [Hn|Hn]; [discriminate Hn|]. injection Hn as ->.
        split; [exact Hr | reflexivity]. }
      intros s its' Hs; discriminate Hs.
  - cbn [fst snd and_then] in *. rewrite Hfav. split; [reflexivity|]. split; [auto|].
    split; [intros e item its _ Hn; discriminate Hn|].
    split; [intros _; split; [exact Hr | reflexivity]|].
    intros s its _ Hn; discriminate Hn.
Qed.

Lemma favourites_follow_the_analyzer_witness :
  (updateCustomerProfile natural_text SharedMemory.new "c1" dinner).2 = Throw TypeError
  /\ Profile.interactions (stored natural_text SharedMemory.new "c1" dinner) = [dinner]
  /\ Profile.favorite_items (stored natural_text SharedMemory.new "c1" dinner) = []
  /\ Profile.preferences (stored natural_text SharedMemory.new "c1" dinner) = [].
Proof.
  destruct (favourites_follow_the_analyzer natural_text SharedMemory.new "c1" dinner)
    as (_ & Hint & _ & _ & _ & Hthrow & _).
  destruct (Hthrow TypeError "soup"%string ["soup"; "risotto"]%string eq_refl eq_refl)
    as (Hr & Hfav & _ & Hpref).
  split; [exact Hr|]. split; [exact Hint|]. split; [exact Hfav | exact Hpref].
Defined.

End Profile_facts.

(** ** Shared memory: the range of the stored sentiment *)

Section Sentiment_range.
Import Js SharedMemory.

Lemma weighted_sum_const (ws xs : list Q) (c : Q) :
  length ws = length xs -> (forall x, x ∈ xs -> x == c) ->
  weighted_sum ws xs == c * fold_right Qplus 0 ws.
Proof.
  revert xs. induction ws as [|w ws IH]; intros [|x xs] Hlen Hc; try discriminate.
  - unfold weighted_sum. simpl. ring.
  - unfold weighted_sum in *. simpl.
    rewrite (IH xs) by (try (simpl in Hlen; lia); intros y Hy; apply Hc; right; exact Hy).
    rewrite (Hc x) by (left). ring.
Qed.

Lemma weights_from (n a k : nat) :
  fold_right Qplus 0 (map (weight n) (seq a k))
  == (inject_Z (Z.of_nat k) * inject_Z (Z.of_nat a)
      + inject_Z (Z.of_nat k) * (inject_Z (Z.of_nat k) + 1) * (1 # 2))
     * / inject_Z (Z.of_nat n).
Proof.
  revert a. induction k as [|k IH]; intros a.
  - simpl. ring.
  - cbn [seq map fold_right]. rewrite IH. unfold weight, Qdiv.
    replace (a + 1)%nat with (S a) by lia.
    rewrite !Nat2Z.inj_succ. unfold Z.succ. rewrite !inject_Z_plus. ring.
Qed.

Lemma window_nonempty (l : list Interaction.t) :
  l <> [] ->
  length (slice_last 10 (map sentiment_or_zero l)) = Nat.min 10 (length l)
  /\ (0 < Nat.min 10 (length l))%nat.
Proof.
  intros Hne. rewrite slice_last_length, length_map. split; [reflexivity|].
  destruct l; [congruence | simpl; lia].
Qed.

(** X7. A customer whose interactions all carry the same sentiment [c]
    is stored with [c * (n + 1) / (2 * n)], [n] being the number of
    interactions in the window of ten: [c] itself after one interaction,
    falling to [11/20 * c] from the tenth on. *)
Theorem steady_sentiment_is_damped (l : list Interaction.t) (c : Q) :
  l <> [] ->
  (forall i, i ∈ l -> sentiment_or_zero i == c) ->
  let n := inject_Z (Z.of_nat (Nat.min 10 (length l))) in
  exists q, calculateSentiment l = Fin q
            /\ q == c * (n + 1) / (2 * n)
            /\ ((10 <= length l)%nat -> q == (11 # 20) * c).
Proof.
  intros Hne Hc n.
  destruct (calculateSentiment_closed_form l Hne) as (q & Hq & Heq).
  destruct (window_nonempty l Hne) as [Hlen Hpos].
  exists q. split; [exact Hq|].
  cbv zeta in Heq. rewrite Hlen in Heq. fold n in Heq.
  assert (Hn : ~ n == 0).
  { subst n. change 0 with (inject_Z 0). rewrite inject_Z_injective. lia. }
  assert (Hsum : q == c * (n + 1) / (2 * n)).
  { rewrite Heq, weighted_sum_const with (c := c).
    - unfold window_weights. rewrite weights_from. fold n. simpl (inject_Z (Z.of_nat 0)).
      field. exact Hn.
    - unfold window_weights. rewrite length_map, length_seq. symmetry. exact Hlen.
    - intros x Hx. unfold slice_last in Hx. apply subseteq_drop in Hx.
      apply list_elem_of_fmap in Hx as (i & -> & Hi). apply Hc, Hi. }
  split; [exact Hsum|].
  intros Hten. rewrite Hsum. subst n. rewrite Nat.min_l by exact Hten.
  simpl. field.
Qed.

Lemma steady_sentiment_is_damped_witness :
  exists q, calculateSentiment (repeat (rated (8 # 10)) 12) = Fin q /\ q == (11 # 20) * (8 # 10).
Proof.
  destruct (steady_sentiment_is_damped (repeat (rated (8 # 10)) 12) (8 # 10))
    as (q & Hq & _ & Hten).
  - discriminate.
  - intros i Hi. apply list_elem_of_In, repeat_spec in Hi. subst i. reflexivity.
  - exists q. split; [exact Hq|]. apply Hten. simpl. lia.
Defined.

Lemma weighted_sum_within (ws xs : list Q) (B : Q) :
  0 <= B -> length ws = length xs ->
  Forall (fun w => 0 <= w <= 1) ws -> Forall (fun x => - B <= x <= B) xs ->
  - (B * inject_Z (Z.of_nat (length xs))) <= weighted_sum ws xs
  /\ weighted_sum ws xs <= B * inject_Z (Z.of_nat (length xs)).
Proof.
  intros HB. revert xs. induction ws as [|w ws IH]; intros [|x xs] Hlen Hw Hx;
    try discriminate.
  - unfold weighted_sum. cbn [zip_with fold_right length].
    change (inject_Z (Z.of_nat 0)) with 0. split; lra.
  - apply Forall_cons in Hw as [[Hw0 Hw1] Hw]. apply Forall_cons in Hx as [[Hx0 Hx1] Hx].
    destruct (IH xs) as [Hlo Hhi]; [simpl in Hlen; lia | exact Hw | exact Hx |].
    unfold weighted_sum in *. cbn [zip_with fold_right length].
    rewrite Nat2Z.inj_succ. unfold Z.succ. rewrite inject_Z_plus.
    assert (Hwx1 : w * x <= B) by nra.
    assert (Hwx0 : - B <= w * x) by nra.
    change (inject_Z 1) with 1. split; lra.
Qed.

(** X8. The stored sentiment never leaves the range of the ratings: if
    every interaction of a customer has a sentiment between [-B] and
    [B], so has the customer. *)
Theorem sentiment_stays_in_range (l : list Interaction.t) (B : Q) :
  l <> [] ->
  (forall i, i ∈ l -> - B <= sentiment_or_zero i <= B) ->
  exists q, calculateSentiment l = Fin q /\ - B <= q <= B.
Proof.
  intros Hne Hb.
  destruct (calculateSentiment_closed_form l Hne) as (q & Hq & Heq).
  destruct (window_nonempty l Hne) as [Hlen Hpos].
  exists q. split; [exact Hq|]. cbv zeta in Heq. rewrite Hlen in Heq.
  set (n := Nat.min 10 (length l)) in *.
  assert (HB : 0 <= B).
  { destruct l as [|i l]; [congruence|]. specialize (Hb i ltac:(left)). lra. }
  assert (Hn : 0 < inject_Z (Z.of_nat n)).
  { change 0 with (inject_Z 0). rewrite <- Zlt_Qlt. lia. }
  destruct (weighted_sum_within (window_weights n) (slice_last 10 (map sentiment_or_zero l)) B)
    as [Hlo Hhi]; [exact HB | | | |].
  - unfold window_weights. rewrite length_map, length_seq. symmetry. exact Hlen.
  - unfold window_weights. apply Forall_forall. intros w Hw.
    apply list_elem_of_fmap in Hw as (j & -> & Hj). apply elem_of_seq in Hj.
    unfold weight. split.
    + apply Qle_shift_div_l; [exact Hn|]. rewrite Qmult_0_l.
      change 0 with (inject_Z 0). rewrite <- Zle_Qle. lia.
    + apply Qle_shift_div_r; [exact Hn|]. rewrite Qmult_1_l. rewrite <- Zle_Qle. lia.
  - apply Forall_forall. intros x Hx. unfold slice_last in Hx.
    apply subseteq_drop in Hx. apply list_elem_of_fmap in Hx as (i & -> & Hi).
    apply Hb, Hi.
  - rewrite Hlen in Hlo, Hhi. rewrite Heq. split.
    + apply Qle_shift_div_l; [exact Hn|]. lra.
    + apply Qle_shift_div_r; [exact Hn|]. lra.
Qed.

Lemma sentiment_stays_in_range_witness :
  exists q, calculateSentiment [rated (-1); rated (1 # 2); rated 1] = Fin q /\ - (1) <= q <= 1.
Proof.
  apply (sentiment_stays_in_range [rated (-1); rated (1 # 2); rated 1] 1).
  - discriminate.
  - intros i Hi.
    repeat (apply elem_of_cons in Hi as [->|Hi]; [split; vm_compute; discriminate|]).
    apply elem_of_nil in Hi. contradiction.
Defined.

End Sentiment_range.

(** ** Shared memory: a submission without effectiveness *)

Section Poisoned_cell.
Import Js SharedMemory.

(** X9. A cell's [averageEffectiveness] is [NaN] exactly when one of
    the submissions filed under its key carried no effectiveness: one
    such submission spoils the average for every later one. *)
Theorem missing_effectiveness_spoils_average (subs : list EmotionalData) (k : string)
    (c : Cell) :
  emotionalMatrix (submit_all SharedMemory.new subs) !! k = Some c ->
  (averageEffectiveness c = NaN
   <-> exists d, d ∈ submissions_for k subs /\ effectiveness d = None).
Proof.
  rewrite submit_all_lookup. unfold cell_of.
  destruct (submissions_for k subs) as [|d0 l] eqn:Hl; [intros H; discriminate H|].
  intros [= <-]. cbn [averageEffectiveness]. unfold sum_samples.
  change (effectiveness d0 :: map effectiveness l) with (map effectiveness (d0 :: l)).
  destruct (fold_left add_sample (map effectiveness (d0 :: l)) (Some 0)) as [s|] eqn:Hs.
  - split; [intros H; discriminate H|]. intros (d & Hd & Hnone). exfalso.
    assert (Hn : fold_left add_sample (map effectiveness (d0 :: l)) (Some 0) = None).
    { apply fold_add_sample_none. right. rewrite <- Hnone.
      apply list_elem_of_fmap. exists d. auto. }
    congruence.
  - split; [|reflexivity]. intros _.
    apply fold_add_sample_none in Hs as [Hs|Hs]; [discriminate|].
    apply list_elem_of_fmap in Hs as (d & Hd & Hin). exists d. auto.
Qed.

Lemma missing_effectiveness_spoils_average_witness :
  exists c, emotionalMatrix
              (submit_all SharedMemory.new
                 [sad_dessert (1 # 2); Profiles.unrated_dessert; sad_dessert 1])
              !! "sad_dessert"%string = Some c
            /\ averageEffectiveness c = NaN.
Proof.
  eexists. split; [reflexivity|].
  eapply (missing_effectiveness_spoils_average
            [sad_dessert (1 # 2); Profiles.unrated_dessert; sad_dessert 1]
            "sad_dessert"%string).
  - reflexivity.
  - exists Profiles.unrated_dessert. split; [|reflexivity].
    apply elem_of_cons. right. apply elem_of_cons. left. reflexivity.
Defined.

End Poisoned_cell.

(** ** Coordinator: the patterns of customer interactions *)

Section Patterns_facts.
Import Js CollectiveIntelligence Coordinator.

Lemma learn_interactions_snoc (st : CollectiveIntelligence.t) rs r :
  learn_interactions st (rs ++ [r])
  = exec (learnFromCustomerInteraction r.1.1.1 r.1.1.2 (Some r.1.2) (Some r.2))
         (learn_interactions st rs).
Proof. unfold learn_interactions. apply fold_left_app. Qed.

Lemma patterns_for_snoc (k : option string) rs r :
  patterns_for k (rs ++ [r])
  = patterns_for k rs ++ (if decide (Context.situation r.1.2 = k) then [customer_pattern r] else []).
Proof.
  unfold patterns_for. rewrite filter_app, map_app. f_equal.
  rewrite filter_cons, filter_nil. destruct (decide _); reflexivity.
Qed.

(** X12. After a run of customer interactions the patterns filed under
    a situation are those the store held before followed by the patterns
    of the run for that situation, in the order they came, none lost and
    none filed elsewhere; [extractBestPractice] was called for exactly
    the reports rated above 0.8 and [notifyRelevantAgents] for every
    report, in that order. *)
Theorem customer_patterns_accumulate (st : CollectiveIntelligence.t)
    (rs : list (Z * string * Context.t * Outcome.t)) (k : option string) :
  let st' := learn_interactions st rs in
  default [] (customerPatterns (brain st') !! k)
  = default [] (customerPatterns (brain st) !! k) ++ patterns_for k rs
  /\ (patterns_for k rs = [] ->
      customerPatterns (brain st') !! k = customerPatterns (brain st) !! k)
  /\ calls st' = calls st ++ interaction_calls rs.
Proof.
  induction rs as [|[[[now agentId] ctx] out] rs IH] using rev_ind.
  - simpl. rewrite !app_nil_r. auto.
  - cbv zeta in *. rewrite learn_interactions_snoc, patterns_for_snoc. simpl.
    destruct IH as (Hpat & Hnone & Hcalls).
    unfold interaction_calls. rewrite map_app, concat_app. simpl.
    fold (interaction_calls rs). rewrite app_nil_r.
    set (s0 := learn_interactions st rs) in *.
    unfold learnFromCustomerInteraction. run_method.
    assert (Hlook : forall (m : gmap (option string) (list CustomerPattern.t)) v,
      default [] (<[Context.situation ctx := v]> m !! k)
      = if decide (Context.situation ctx = k) then v else default [] (m !! k)).
    { intros m v. rewrite lookup_insert. destruct (decide _); reflexivity. }
    destruct (gt_opt (Outcome.satisfaction out) (8 # 10)); run_method;
      rewrite Hlook; (split; [|split]).
    + destruct (decide (Context.situation ctx = k)) as [<-|Hne].
      * rewrite Hpat, <- app_assoc. reflexivity.
      * rewrite Hpat, app_nil_r. reflexivity.
    + destruct (decide (Context.situation ctx = k)) as [<-|Hne].
      * intros Hnil. apply app_eq_nil in Hnil as [_ Hnil]. discriminate.
      * rewrite app_nil_r. intros Hnil. rewrite lookup_insert_ne by exact Hne. auto.
    + rewrite Hcalls, <- !app_assoc. reflexivity.
    + destruct (decide (Context.situation ctx = k)) as [<-|Hne].
      * rewrite Hpat, <- app_assoc. reflexivity.
      * rewrite Hpat, app_nil_r. reflexivity.
    + destruct (decide (Context.situation ctx = k)) as [<-|Hne].
      * intros Hnil. apply app_eq_nil in Hnil as [_ Hnil]. discriminate.
      * rewrite app_nil_r. intros Hnil. rewrite lookup_insert_ne by exact Hne. auto.
    + rewrite Hcalls, <- !app_assoc. reflexivity.
Qed.

Lemma customer_patterns_accumulate_witness :
  customerPatterns
    (brain (learn_interactions two_agents
              [(1%Z, "marcus"%string, interaction_context "complaint", satisfied (9 # 10))]))
    !! Some "reservation"%string
  = customerPatterns (brain two_agents) !! Some "reservation"%string.
Proof.
  destruct (customer_patterns_accumulate two_agents
              [(1%Z, "marcus"%string, interaction_context "complaint", satisfied (9 # 10))]
              (Some "reservation"%string)) as (_ & Hnone & _).
  apply Hnone. reflexivity.
Defined.

End Patterns_facts.

(** ** Coordinator: the registry of agents *)

Section Registry_facts.
Import Js CollectiveIntelligence Coordinator.

Lemma map_set_ids {V : Type} (key : string) (v : V) (m : list (string * V)) :
  map fst (map_set key v m)
  = if decide (key ∈ map fst m) then map fst m else map fst m ++ [key].
Proof.
  induction m as [|[k v0] m IH].
  - cbn [map_set map fst app]. destruct (decide (key ∈ [])) as [Hin|_]; [|reflexivity].
    apply elem_of_nil in Hin. contradiction.
  - cbn [map_set]. destruct (decide (k = key)) as [->|Hne]; cbn [map fst].
    + destruct (decide (key ∈ key :: map fst m)) as [_|Hn]; [reflexivity|].
      exfalso. apply Hn. left.
    + rewrite IH. destruct (decide (key ∈ map fst m)) as [Hin|Hnin];
        destruct (decide (key ∈ k :: map fst m)) as [Hin'|Hnin']; try reflexivity.
      * exfalso. apply Hnin'. right. exact Hin.
      * exfalso. apply elem_of_cons in Hin' as [->|Hin']; [congruence | contradiction].
Qed.

Lemma map_set_elem {V : Type} (key : string) (v : V) (m : list (string * V)) (a : string)
    (x : V) :
  NoDup (map fst m) ->
  ((a, x) ∈ map_set key v m <-> (a = key /\ x = v) \/ (a <> key /\ (a, x) ∈ m)).
Proof.
  induction m as [|[k v0] m IH]; simpl; intros Hnd.
  - rewrite list_elem_of_singleton, elem_of_nil. split.
    + intros [= -> ->]. auto.
    + intros [[-> ->]|[_ []]]. reflexivity.
  - apply NoDup_cons in Hnd as [Hk Hnd].
    destruct (decide (k = key)) as [->|Hne]; rewrite !elem_of_cons.
    + split.
      * intros [[= -> ->]|Hin]; [auto|].
        right. split; [|auto]. intros ->. apply Hk.
        apply list_elem_of_fmap. exists (key, x). auto.
      * intros [[-> ->]|[Hne [[= -> ->]|Hin]]]; [auto | congruence | auto].
    + rewrite (IH Hnd). split.
      * intros [[= -> ->]|[[-> ->]|[Ha Hin]]]; auto.
      * intros [[-> ->]|[Ha [[= -> ->]|Hin]]]; auto.
Qed.

(** X13. A connection registers the agent under the id of its request
    with the new socket.  An id seen before keeps its place in the
    registry and gets the new socket in place of the old one; a new id
    is added at the end.  The other agents keep their sockets, the ids
    stay distinct, and [syncAgentKnowledge] is called for the agent. *)
Theorem connection_registers_agent (h : Helpers) (ws : ReadyState) (req : json)
    (st : CollectiveIntelligence.t) :
  let id := extractAgentId h req in
  let st' := exec (onConnection h ws req) st in
  NoDup (agent_ids st) ->
  NoDup (agent_ids st')
  /\ (forall a rs, (a, rs) ∈ agents st' <-> (a = id /\ rs = ws) \/ (a <> id /\ (a, rs) ∈ agents st))
  /\ agent_ids st' = (if decide (id ∈ agent_ids st) then agent_ids st else agent_ids st ++ [id])
  /\ calls st' = calls st ++ [Call.syncAgentKnowledge id]
  /\ brain st' = brain st /\ sharedMemory st' = sharedMemory st /\ sent st' = sent st.
Proof.
  intros id st' Hnd. subst st'. unfold onConnection, agent_ids in *. run_method. fold id.
  split; [apply map_set_keys, Hnd|]. split; [|split; [apply map_set_ids|auto]].
  intros a rs. apply map_set_elem, Hnd.
Qed.

Lemma connection_registers_agent_witness :
  agent_ids (exec (onConnection helpers_spec CLOSED (JStr "marcus")) two_agents)
  = ["marcus"; "sophia"]%string
  /\ ("marcus"%string, CLOSED) ∈ agents (exec (onConnection helpers_spec CLOSED (JStr "marcus"))
                                                two_agents).
Proof.
  assert (Hnd : NoDup (agent_ids two_agents)).
  { apply NoDup_cons. split; [|apply NoDup_singleton].
    rewrite list_elem_of_singleton. discriminate. }
  destruct (connection_registers_agent helpers_spec CLOSED (JStr "marcus") two_agents Hnd)
    as (_ & Hel & Hids & _).
  split; [exact Hids|]. apply Hel. left. split; reflexivity.
Defined.

Lemma processAgentCommunication_agents (h : Helpers) (now now' : Z) (agentId : string)
    (data : option Report.t) (st : CollectiveIntelligence.t) :
  agents (processAgentCommunication h now now' agentId data st).1 = agents st.
Proof.
  destruct data as [d|]; [|reflexivity].
  unfold processAgentCommunication. unfold bind at 1. simpl.
  match goal with |- context [bind ?m _ _] => set (handler := m) end.
  assert (Hq : quiet handler).
  { subst handler. repeat case_decide.
    - apply learnFromCustomerInteraction_quiet.
    - apply learnCrisisManagement_quiet.
    - apply recordSuccessPattern_quiet.
    - apply updateEmotionalIntelligence_quiet.
    - apply enhanceCollaborationPatterns_quiet.
    - intros s. auto. }
  clearbody handler. unfold bind.
  specialize (Hq st). destruct (handler st) as [st1 [[]|e]]; simpl in *; tauto.
Qed.

Lemma step_agent_ids (h : Helpers) (ev : Event) (st : CollectiveIntelligence.t) :
  agent_ids (step h ev st) = agent_ids st
  \/ exists id, ~ (id ∈ agent_ids st) /\ agent_ids (step h ev st) = agent_ids st ++ [id].
Proof.
  destruct ev as [ws req|now now' agentId frame|now now' agentId interaction|agentId rs];
    simpl.
  - unfold onConnection, agent_ids. run_method. rewrite map_set_ids.
    destruct (decide _) as [Hin|Hnin]; [left; reflexivity|].
    right. eexists. split; [exact Hnin | reflexivity].
  - left. unfold agent_ids, exec. destruct frame as [| |d]; simpl; try reflexivity;
      rewrite processAgentCommunication_agents; reflexivity.
  - left. unfold agent_ids, Server.learn.
    pose proof (processAgentCommunication_agents h now now' agentId interaction st) as Ha.
    destruct (processAgentCommunication h now now' agentId interaction st) as [st' [[]|e]];
      simpl in *; rewrite Ha; reflexivity.
  - left. unfold agent_ids. simpl. rewrite map_map. apply map_ext.
    intros [a x]. simpl. destruct (decide (a = agentId)); reflexivity.
Qed.

Lemma run_snoc (h : Helpers) (st : CollectiveIntelligence.t) evs ev :
  run h st (evs ++ [ev]) = step h ev (run h st evs).
Proof. unfold run. apply fold_left_app. Qed.

(** X14. Whatever happens to a coordinator (connections, frames,
    requests to the learning endpoint, sockets opening or closing), no
    agent ever leaves its registry, not even one whose socket has
    closed; and in every coordinator reached from a new one the ids are
    distinct, so that no broadcast is sent to an agent twice. *)
Theorem agents_are_never_removed (h : Helpers) (st : CollectiveIntelligence.t)
    (evs : list Event) (src : string) :
  agent_ids st `prefix_of` agent_ids (run h st evs)
  /\ NoDup (agent_ids (run h CollectiveIntelligence.new evs))
  /\ NoDup (recipients src (agents (run h CollectiveIntelligence.new evs))).
Proof.
  assert (Hpre : forall s, agent_ids s `prefix_of` agent_ids (run h s evs)).
  { intros s. induction evs as [|ev evs IH] using rev_ind; [reflexivity|].
    rewrite run_snoc. destruct (step_agent_ids h ev (run h s evs)) as [->|(id & _ & ->)].
    - exact IH.
    - apply prefix_app_r, IH. }
  assert (Hnd : NoDup (agent_ids (run h CollectiveIntelligence.new evs))).
  { clear Hpre. induction evs as [|ev evs IH] using rev_ind; [constructor|].
    rewrite run_snoc.
    destruct (step_agent_ids h ev (run h CollectiveIntelligence.new evs))
      as [->|(id & Hid & ->)]; [exact IH|].
    apply NoDup_app. split; [exact IH|]. split; [|apply NoDup_singleton].
    intros x Hx Hx'. apply list_elem_of_singleton in Hx'. subst. contradiction. }
  split; [apply Hpre|]. split; [exact Hnd|]. apply recipients_NoDup, Hnd.
Qed.

End Registry_facts.

(** ** Coordinator: ranking the next actions *)

Section NextAction_facts.
Import Js CollectiveIntelligence Coordinator Ranking.

(** X15. [predictNextAction] returns one prediction for each similar
    situation, none added and none lost, ranked by probability times
    confidence, highest first.  The confidence is the number of data
    points divided by 100, so a situation with more than 100 data points
    comes with a confidence above 1. *)
Theorem next_actions_are_ranked
    (findSimilarContext : CollectiveIntelligence.t -> json -> list Situation.t)
    (context : json) (st : CollectiveIntelligence.t) :
  let r := predictNextAction findSimilarContext context st in
  r ≡ₚ map prediction_of (findSimilarContext st context)
  /\ StronglySorted (descending score) r
  /\ (forall s, s ∈ findSimilarContext st context -> 100 < Situation.dataPoints s ->
      exists p, p ∈ r /\ ActionPrediction.action p = Situation.bestAction s
                /\ 1 < ActionPrediction.confidence p).
Proof.
  intros r. subst r. unfold predictNextAction.
  split; [apply sort_permutation|]. split; [apply (sort_descending score)|].
  intros s Hs Hdata. exists (prediction_of s). split; [|split].
  - rewrite sort_permutation. apply list_elem_of_fmap. exists s. auto.
  - reflexivity.
  - simpl. apply Qlt_shift_div_l; [reflexivity | lra].
Qed.

Lemma next_actions_are_ranked_witness :
  exists p, p ∈ predictNextAction seen_before JNull CollectiveIntelligence.new
            /\ ActionPrediction.action p = JStr "offer dessert"
            /\ 1 < ActionPrediction.confidence p.
Proof.
  destruct (next_actions_are_ranked seen_before JNull CollectiveIntelligence.new)
    as (_ & _ & Hover).
  apply (Hover {| Situation.bestAction := JStr "offer dessert"; Situation.successRate := 9 # 10;
                  Situation.dataPoints := 250 |}).
  - apply elem_of_cons. right. apply list_elem_of_singleton. reflexivity.
  - reflexivity.
Defined.

End NextAction_facts.

(** ** Predictive engine: arrival time and special requests *)

Section Arrival_facts.
Import Js PredictiveEngine Engine Ranking.
Import CollectiveIntelligence (map_set).

Lemma map_set_inv {V : Type} (key : string) (v : V) (m : list (string * V)) (a : string)
    (x : V) :
  (a, x) ∈ map_set key v m -> (a = key /\ x = v) \/ (a, x) ∈ m.
Proof.
  induction m as [|[k v0] m IH]; simpl.
  - intros H. apply list_elem_of_singleton in H. injection H as -> ->. auto.
  - destruct (decide (k = key)) as [->|Hne]; rewrite !elem_of_cons.
    + intros [[= -> ->]|H]; auto.
    + intros [H|H]; [auto|]. apply IH in H as [H|H]; auto.
Qed.

Lemma fold_map_set_spec {V : Type} (f : string -> V) (slots : list string)
    (acc : list (string * V)) :
  (forall k v, (k, v) ∈ acc -> v = f k) ->
  (forall k v, (k, v) ∈ fold_left (fun m slot => map_set slot (f slot) m) slots acc -> v = f k)
  /\ (forall k, k ∈ map fst (fold_left (fun m slot => map_set slot (f slot) m) slots acc)
                <-> k ∈ slots \/ k ∈ map fst acc).
Proof.
  revert acc. induction slots as [|s slots IH]; intros acc Hacc; simpl.
  - split; [exact Hacc|]. intros k. rewrite elem_of_nil. tauto.
  - destruct (IH (map_set s (f s) acc)) as [Hv Hk].
    + intros k v H. apply map_set_inv in H as [[-> ->]|H]; auto.
    + split; [exact Hv|]. intros k. rewrite Hk, map_set_ids, elem_of_cons.
      destruct (decide (s ∈ map fst acc)).
      * split; [tauto|]. intros [[->|H]|H]; auto.
      * rewrite elem_of_app, list_elem_of_singleton. tauto.
Qed.

Lemma arrival_probabilities_spec (r : Rest) (factors : Factors.t) :
  (forall k v, (k, v) ∈ arrival_probabilities r factors ->
     v = calculateArrivalProbability r k factors /\ k ∈ generateTimeSlots r)
  /\ (forall k, k ∈ generateTimeSlots r ->
        (k, calculateArrivalProbability r k factors) ∈ arrival_probabilities r factors).
Proof.
  unfold arrival_probabilities.
  destruct (fold_map_set_spec (fun slot => calculateArrivalProbability r slot factors)
              (generateTimeSlots r) []) as [Hv Hk].
  { intros k v H. apply elem_of_nil in H. contradiction. }
  split.
  - intros k v H. split; [apply Hv, H|].
    assert (Hin : k ∈ map fst (fold_left
              (fun m slot => map_set slot (calculateArrivalProbability r slot factors) m)
              (generateTimeSlots r) [])).
    { apply list_elem_of_fmap. exists (k, v). auto. }
    apply Hk in Hin as [Hin|Hin]; [exact Hin|]. apply elem_of_nil in Hin. contradiction.
  - intros k Hin. assert (Hkey : k ∈ generateTimeSlots r \/ k ∈ map fst (@nil (string * Q)))
      by (left; exact Hin).
    apply Hk in Hkey. apply list_elem_of_fmap in Hkey as [[k' v] [Hfst Hel]].
    simpl in Hfst. subst k'. rewrite <- (Hv k v Hel). exact Hel.
Qed.

(** X16. [predictArrivalTime] rejects with a [TypeError] when the
    customer has no arrival patterns, when the request carries no
    context, and when there is no time slot at all.  Otherwise the time
    it estimates is one of the time slots, its probability is the one
    calculated for that slot, and no slot has a higher probability. *)
Theorem arrival_time_is_most_likely_slot (r : Rest) (customerId : string) :
  (getArrivalPatterns r customerId = Normal None ->
   forall context, predictArrivalTime r customerId context = Throw TypeError)
  /\ (forall patterns traffic,
        getArrivalPatterns r customerId = Normal (Some patterns) ->
        getTrafficData r = Normal traffic ->
        predictArrivalTime r customerId None = Throw TypeError
        /\ forall context,
             (generateTimeSlots r = [] ->
              predictArrivalTime r customerId (Some context) = Throw TypeError)
             /\ (generateTimeSlots r <> [] ->
                 exists a, predictArrivalTime r customerId (Some context) = Normal a
                   /\ ArrivalTime.estimatedTime a ∈ generateTimeSlots r
                   /\ ArrivalTime.probability a
                      = calculateArrivalProbability r (ArrivalTime.estimatedTime a)
                          (arrival_factors patterns context traffic)
                   /\ forall slot, slot ∈ generateTimeSlots r ->
                        calculateArrivalProbability r slot
                          (arrival_factors patterns context traffic)
                        <= ArrivalTime.probability a)).
Proof.
  split.
  - intros Hp context. unfold predictArrivalTime. rewrite Hp. reflexivity.
  - intros patterns traffic Hp Ht. unfold predictArrivalTime. rewrite Hp. simpl.
    split; [reflexivity|]. intros context. rewrite Ht. simpl.
    set (factors := arrival_factors patterns context traffic).
    destruct (arrival_probabilities_spec r factors) as [Hv Hk].
    pose proof (sort_permutation (fun a b : string * Q => b.2 - a.2)
                  (arrival_probabilities r factors)) as Hperm.
    pose proof (sort_descending (A := string * Q) snd (arrival_probabilities r factors))
      as Hsorted.
    split.
    + intros Hnil. unfold arrival_probabilities. rewrite Hnil. reflexivity.
    + intros Hslots.
      destruct (sort (fun a b : string * Q => b.2 - a.2) (arrival_probabilities r factors))
        as [|[t p] rest] eqn:Hs.
      * exfalso. destruct (generateTimeSlots r) as [|s0 slots] eqn:Hg; [congruence|].
        assert (Hin : (s0, calculateArrivalProbability r s0 factors)
                      ∈ arrival_probabilities r factors) by (apply Hk; left).
        rewrite <- Hperm in Hin. apply elem_of_nil in Hin. exact Hin.
      * eexists. split; [reflexivity|]. simpl.
        assert (Hhead : (t, p) ∈ arrival_probabilities r factors).
        { rewrite <- Hperm. left. }
        destruct (Hv t p Hhead) as [Hp' Ht'].
        split; [exact Ht'|]. split; [exact Hp'|].
        intros slot Hslot. apply Hk in Hslot. rewrite <- Hperm in Hslot.
        apply elem_of_cons in Hslot as [Heq|Hrest].
        { injection Heq as _ <-. lra. }
        { apply StronglySorted_inv in Hsorted as [_ Hall].
          rewrite Forall_forall in Hall. apply (Hall _ Hrest). }
Qed.

Lemma arrival_time_is_most_likely_slot_witness :
  exists a, predictArrivalTime regular_rest "c1" (Some friday) = Normal a
    /\ ArrivalTime.estimatedTime a ∈ generateTimeSlots regular_rest
    /\ calculateArrivalProbability regular_rest "18:00"
         (arrival_factors {| ArrivalPatterns.lastReservation := JStr "19:00";
                             ArrivalPatterns.averageArrivalTime := JStr "19:30" |}
                          friday (JStr "light"))
       <= ArrivalTime.probability a.
Proof.
  destruct (arrival_time_is_most_likely_slot regular_rest "c1") as [_ Hsome].
  destruct (Hsome {| ArrivalPatterns.lastReservation := JStr "19:00";
                     ArrivalPatterns.averageArrivalTime := JStr "19:30" |}
                  (JStr "light") eq_refl eq_refl) as [_ Hctx].
  destruct (Hctx friday) as [_ Hslots].
  destruct Hslots as (a & Ha & Hin & _ & Hmax); [discriminate|].
  exists a. split; [exact Ha|]. split; [exact Hin|]. apply Hmax. left.
Defined.

(** X17. [predictSpecialRequests] rejects with a [TypeError] when the
    customer has no profile.  Otherwise it returns at most three
    requests, each with a confidence above 0.7: the birthday request
    first when the birthday is near, the anniversary request when the
    anniversary is near, and last the dietary request when its
    confidence exceeds 0.7.  In the actions generated from them, a near
    birthday always gives a [SPECIAL_PREP] for chen and a near
    anniversary one for marcus, and every [SPECIAL_PREP] comes from a
    request with a confidence above 0.8: a dietary request between the
    two thresholds is returned and gives no action. *)
Theorem special_requests_pass_their_threshold (r : Rest) (customerId : string) (date : Z) :
  (getCustomerProfile r customerId = Normal None ->
   predictSpecialRequests r customerId date = Throw TypeError)
  /\ (forall profile,
        getCustomerProfile r customerId = Normal (Some profile) ->
        exists l, predictSpecialRequests r customerId date = Normal l
          /\ (length l <= 3)%nat
          /\ (forall q, q ∈ l -> 7 # 10 < SpecialRequest.confidence q)
          /\ (isNearBirthday r (CustomerRecord.birthday profile) date = true ->
              head l = Some birthday_request)
          /\ (isNearAnniversary r (CustomerRecord.visits profile) date = true ->
              anniversary_request ∈ l)
          /\ (forall history,
                CustomerRecord.dietaryHistory profile = Some history ->
                7 # 10 < SpecialRequest.confidence (predictDietaryNeeds r history) ->
                last l = Some (predictDietaryNeeds r history))
          /\ forall predictions,
               Predictions.specialRequest predictions = Some l ->
               (isNearBirthday r (CustomerRecord.birthday profile) date = true ->
                special_prep birthday_request ∈ generateProactiveActions predictions
                /\ ProactiveAction.agent (special_prep birthday_request) = "chen"%string)
               /\ (isNearAnniversary r (CustomerRecord.visits profile) date = true ->
                   special_prep anniversary_request ∈ generateProactiveActions predictions
                   /\ ProactiveAction.agent (special_prep anniversary_request)
                      = "marcus"%string)
               /\ (forall a, a ∈ generateProactiveActions predictions ->
                     ProactiveAction.type a = "SPECIAL_PREP"%string ->
                     exists q, q ∈ l /\ 8 # 10 < SpecialRequest.confidence q
                               /\ a = special_prep q)).
Proof.
  split.
  - intros Hp. unfold predictSpecialRequests. rewrite Hp. reflexivity.
  - intros profile Hp. unfold predictSpecialRequests. rewrite Hp. cbn [and_then].
    eexists. split; [reflexivity|].
    set (dietary := match CustomerRecord.dietaryHistory profile with
                    | Some history =>
                        if gt (SpecialRequest.confidence (predictDietaryNeeds r history)) (7 # 10)
                        then [predictDietaryNeeds r history] else []
                    | None => []
                    end).
    assert (Hd : dietary = []
                 \/ exists history, CustomerRecord.dietaryHistory profile = Some history
                      /\ 7 # 10 < SpecialRequest.confidence (predictDietaryNeeds r history)
                      /\ dietary = [predictDietaryNeeds r history]).
    { subst dietary. destruct (CustomerRecord.dietaryHistory profile) as [history|]; [|auto].
      destruct (gt _ _) eqn:Hg; [|auto]. apply gt_spec in Hg. right. eauto. }
    assert (Hlast : forall history,
              CustomerRecord.dietaryHistory profile = Some history ->
              7 # 10 < SpecialRequest.confidence (predictDietaryNeeds r history) ->
              dietary = [predictDietaryNeeds r history]).
    { intros history Hh Hc. subst dietary. rewrite Hh.
      rewrite (proj2 (gt_spec _ _) Hc). reflexivity. }
    clearbody dietary.
    set (l := (if isNearBirthday r (CustomerRecord.birthday profile) date
               then [birthday_request] else [])
              ++ (if isNearAnniversary r (CustomerRecord.visits profile) date
                  then [anniversary_request] else [])
              ++ dietary).
    assert (Hlen : (length l <= 3)%nat).
    { subst l. rewrite !length_app.
      assert (length dietary <= 1)%nat by (destruct Hd as [->|(? & _ & _ & ->)]; simpl; lia).
      destruct (isNearBirthday _ _ _), (isNearAnniversary _ _ _); simpl; lia. }
    assert (Hconf : forall q, q ∈ l -> 7 # 10 < SpecialRequest.confidence q).
    { subst l. intros q. rewrite !elem_of_app. intros [Hq|[Hq|Hq]].
      - destruct (isNearBirthday _ _ _); [|apply elem_of_nil in Hq; contradiction].
        apply list_elem_of_singleton in Hq. subst q. reflexivity.
      - destruct (isNearAnniversary _ _ _); [|apply elem_of_nil in Hq; contradiction].
        apply list_elem_of_singleton in Hq. subst q. reflexivity.
      - destruct Hd as [->|(history & _ & Hc & ->)]; [apply elem_of_nil in Hq; contradiction|].
        apply list_elem_of_singleton in Hq. subst q. exact Hc. }
    assert (Hb : isNearBirthday r (CustomerRecord.birthday profile) date = true ->
                 head l = Some birthday_request).
    { subst l. intros ->. reflexivity. }
    assert (Ha : isNearAnniversary r (CustomerRecord.visits profile) date = true ->
                 anniversary_request ∈ l).
    { subst l. intros ->. rewrite !elem_of_app. right. left. left. }
    split; [exact Hlen|]. split; [exact Hconf|]. split; [exact Hb|]. split; [exact Ha|].
    split.
    + intros history Hh Hc. subst l. rewrite (Hlast history Hh Hc).
      rewrite !app_assoc. apply last_snoc.
    + intros predictions Hs. rewrite generateProactiveActions_configured.
      split; [|split].
      * intros Hnear. split; [|reflexivity]. apply actions_justified.
        right. right. right. exists l, birthday_request. split; [exact Hs|].
        split; [|split; reflexivity].
        apply Hb in Hnear. destruct l as [|q l']; [discriminate|].
        injection Hnear as ->. left.
      * intros Hnear. split; [|reflexivity]. apply actions_justified.
        right. right. right. exists l, anniversary_request. split; [exact Hs|].
        split; [exact (Ha Hnear)|]. split; reflexivity.
      * intros a Hin Hty. apply actions_justified in Hin
          as [(p & _ & _ & ->)|[(o & _ & _ & ->)|[(c & _ & _ & ->)|(l' & q & Hl & Hq & Hc & ->)]]];
          try discriminate Hty.
        rewrite Hs in Hl. injection Hl as <-. exists q. auto.
Qed.

Lemma special_requests_pass_their_threshold_witness :
  exists l, predictSpecialRequests regular_rest "c1" 0 = Normal l
    /\ head l = Some birthday_request
    /\ last l = Some {| SpecialRequest.type := "dietary";
                        SpecialRequest.action := "Offer vegan menu";
                        SpecialRequest.confidence := 75 # 100 |}
    /\ forall a, a ∈ generateProactiveActions
                       {| Predictions.nextOrder := None; Predictions.arrivalTime := None;
                          Predictions.specialRequest := Some l;
                          Predictions.satisfaction := None; Predictions.churnRisk := None |} ->
         ProactiveAction.type a = "SPECIAL_PREP"%string ->
         exists q, q ∈ l /\ 8 # 10 < SpecialRequest.confidence q /\ a = special_prep q.
Proof.
  destruct (special_requests_pass_their_threshold regular_rest "c1" 0) as [_ Hsome].
  destruct (Hsome {| CustomerRecord.birthday := JStr "11-03";
                     CustomerRecord.visits := JArr [];
                     CustomerRecord.dietaryHistory := Some (JStr "vegan") |} eq_refl)
    as (l & Hl & _ & _ & Hb & _ & Hd & Hact).
  exists l. split; [exact Hl|]. split; [apply Hb; reflexivity|].
  split; [apply (Hd (JStr "vegan")); reflexivity|].
  apply (Hact {| Predictions.nextOrder := None; Predictions.arrivalTime := None;
                 Predictions.specialRequest := Some l;
                 Predictions.satisfaction := None; Predictions.churnRisk := None |} eq_refl).
Defined.

End Arrival_facts.

(** ** Predictive engine: the demand forecast and what is planned from it *)

Section Forecast_facts.
Import Js PredictiveEngine Engine.

Lemma for_each_Forall2 {A B : Type} (f : A -> completion B) (l : list A) (ys : list B) :
  for_each f l = Normal ys <-> Forall2 (fun x y => f x = Normal y) l ys.
Proof.
  revert ys. induction l as [|x l IH]; intros ys; simpl.
  - split.
    + intros [= <-]. constructor.
    + intros H. inversion H. reflexivity.
  - destruct (f x) as [y|err] eqn:Hx; simpl.
    + destruct (for_each f l) as [ys'|err'] eqn:Hl; simpl.
      * split.
        { intros [= <-]. constructor; [exact Hx | apply IH; reflexivity]. }
        { intros H. inversion H as [|x0 y0 l0 ys0 Hy Hrest]; subst.
          apply IH in Hrest. congruence. }
      * split; [discriminate|].
        intros H. inversion H as [|x0 y0 l0 ys0 Hy Hrest]; subst.
        apply IH in Hrest. discriminate.
    + split; [discriminate|].
      intros H. inversion H as [|x0 y0 l0 ys0 Hy Hrest]; subst. congruence.
Qed.

Lemma for_each_throws {A B : Type} (f : A -> completion B) (l : list A) (x : A) (err : error) :
  x ∈ l -> f x = Throw err -> exists err', for_each f l = Throw err'.
Proof.
  induction l as [|y l IH]; intros Hin Hx; [apply elem_of_nil in Hin; contradiction|].
  simpl. apply elem_of_cons in Hin as [<-|Hin].
  - rewrite Hx. simpl. eauto.
  - destruct (f y); simpl; [|eauto].
    destruct (IH Hin Hx) as [err' ->]. simpl. eauto.
Qed.

Lemma fold_insert_snoc (l : list (string * json)) (kv : string * json)
    (m : gmap string json) :
  fold_left (fun m kv => <[kv.1 := kv.2]> m) (l ++ [kv]) m
  = <[kv.1 := kv.2]> (fold_left (fun m kv => <[kv.1 := kv.2]> m) l m).
Proof. apply fold_left_app. Qed.

Lemma fold_insert_lookup (l : list (string * json)) (id : string) (j : json) :
  fold_left (fun m kv => <[kv.1 := kv.2]> m) l (∅ : gmap string json) !! id = Some j ->
  (id, j) ∈ l.
Proof.
  induction l as [|kv l IH] using rev_ind; [simpl; rewrite lookup_empty; discriminate|].
  rewrite fold_insert_snoc, elem_of_app, list_elem_of_singleton.
  destruct (decide (kv.1 = id)) as [<-|Hne].
  - rewrite lookup_insert_eq. intros [= <-]. right. destruct kv; reflexivity.
  - rewrite lookup_insert_ne by exact Hne. auto.
Qed.

Lemma fold_insert_keys (l : list (string * json)) (id : string) :
  is_Some (fold_left (fun m kv => <[kv.1 := kv.2]> m) l (∅ : gmap string json) !! id)
  <-> id ∈ map fst l.
Proof.
  induction l as [|kv l IH] using rev_ind.
  - simpl. rewrite lookup_empty, elem_of_nil. split; [intros [? [=]] | tauto].
  - rewrite fold_insert_snoc, map_app, elem_of_app. simpl. rewrite list_elem_of_singleton.
    destruct (decide (kv.1 = id)) as [<-|Hne].
    + rewrite lookup_insert_eq. split; [auto | eauto].
    + rewrite lookup_insert_ne by exact Hne. rewrite IH. split; [auto|].
      intros [H|H]; [exact H | congruence].
Qed.

(** The last forecast for an id is the one the map keeps. *)
Lemma fold_insert_last (pre post : list (string * json)) (kv : string * json) :
  ~ (kv.1 ∈ map fst post) ->
  fold_left (fun m kv => <[kv.1 := kv.2]> m) (pre ++ kv :: post) (∅ : gmap string json) !! kv.1
  = Some kv.2.
Proof.
  induction post as [|kv' post IH] using rev_ind; intros Hnot.
  - rewrite fold_insert_snoc. apply lookup_insert_eq.
  - rewrite map_app, elem_of_app in Hnot. simpl in Hnot.
    rewrite app_comm_cons, app_assoc, fold_insert_snoc.
    rewrite lookup_insert_ne.
    + apply IH. tauto.
    + intros Heq. apply Hnot. right. rewrite Heq. left.
Qed.

Lemma forecast_keys (e : Engine) (top forecasts : list (string * json)) :
  Forall2 (fun item kv => exists j, forecastItemDemand e item = Normal j /\ kv = (item.1, j))
          top forecasts ->
  map fst forecasts = map fst top.
Proof.
  induction 1 as [|item kv top forecasts (j & _ & ->) _ IH]; simpl;
    [reflexivity | f_equal; exact IH].
Qed.

(** What a forecast that was returned is made of. *)
Lemma forecastDemand_inv (e : Engine) (today : Z) (f : Forecast.t) :
  forecastDemand e today = Normal f ->
  exists hist ts data top forecasts,
    getHistoricalDemand e = Normal hist /\ tensor2d e hist = Normal ts
    /\ demandForecast e ts = Normal data /\ getTopItems e = Normal top
    /\ Forall2 (fun item kv => exists j, forecastItemDemand e item = Normal j
                                         /\ kv = (item.1, j)) top forecasts
    /\ f = {| Forecast.daily := map (dayForecast e today hist data) (seq 0 7);
              Forecast.hourly := [];
              Forecast.items := fold_left (fun m kv => <[kv.1 := kv.2]> m) forecasts ∅ |}.
Proof.
  unfold forecastDemand.
  destruct (getHistoricalDemand e) as [hist|]; simpl; [|discriminate].
  destruct (tensor2d e hist) as [ts|] eqn:Hts; simpl; [|discriminate].
  destruct (demandForecast e ts) as [data|] eqn:Hdata; simpl; [|discriminate].
  destruct (getTopItems e) as [top|]; simpl; [|discriminate].
  destruct (for_each _ top) as [forecasts|] eqn:Hfe; simpl; [|discriminate].
  intros [= <-]. exists hist, ts, data, top, forecasts.
  split; [reflexivity|]. split; [exact Hts|]. split; [exact Hdata|].
  split; [reflexivity|]. split; [|reflexivity].
  apply for_each_Forall2 in Hfe. eapply Forall2_impl; [exact Hfe|].
  intros item kv. simpl. destruct (forecastItemDemand e item) as [j|]; simpl; [|discriminate].
  intros [= <-]. eauto.
Qed.

(** X18. A forecast that [forecastDemand] returns always has seven
    days, dated from today on, and no hourly entry.  The covers of day
    [i] are read at index [2 i] of the output of the model and the peak
    hour at index [2 i + 1]: each is [NaN] exactly when the output is too
    short to have that index.  The item forecasts are keyed by the ids of
    the top items, one entry per id, each the forecast of a top item with
    that id; when several top items share an id, the forecast of the
    last of them is the one kept.  If the forecast of any top item
    fails, the whole forecast is rejected. *)
Theorem forecast_has_seven_days (e : Engine) (today : Z) (hist ts : list (list Q))
    (data : list Q) (top : list (string * json)) :
  getHistoricalDemand e = Normal hist ->
  tensor2d e hist = Normal ts ->
  demandForecast e ts = Normal data ->
  getTopItems e = Normal top ->
  (forall item err, item ∈ top -> forecastItemDemand e item = Throw err ->
     exists err', forecastDemand e today = Throw err')
  /\ (forall f, forecastDemand e today = Normal f ->
        length (Forecast.daily f) = 7%nat
        /\ Forecast.hourly f = []
        /\ (forall i d, Forecast.daily f !! i = Some d ->
              DayForecast.date d = addDays e today i
              /\ (DayForecast.expectedCovers d = None <-> (length data <= 2 * i)%nat)
              /\ (DayForecast.peakHour d = None <-> (length data <= 2 * i + 1)%nat))
        /\ (forall id, is_Some (Forecast.items f !! id) <-> id ∈ map fst top)
        /\ (forall id j, Forecast.items f !! id = Some j ->
              exists item, item ∈ top /\ item.1 = id /\ forecastItemDemand e item = Normal j)
        /\ (forall pre item post j,
              top = pre ++ item :: post -> ~ (item.1 ∈ map fst post) ->
              forecastItemDemand e item = Normal j ->
              Forecast.items f !! item.1 = Some j)).
Proof.
  intros Hh Ht Hd Htop. split.
  - intros item err Hin Herr. unfold forecastDemand. rewrite Hh. simpl. rewrite Ht. simpl.
    rewrite Hd. simpl. rewrite Htop. simpl.
    destruct (for_each_throws
                (fun item => and_then (forecastItemDemand e item) (fun f => Normal (item.1, f)))
                top item err Hin) as [err' ->]; [rewrite Herr; reflexivity|].
    simpl. eauto.
  - intros f Hf. apply forecastDemand_inv in Hf
      as (hist' & ts' & data' & top' & forecasts & Hh' & Ht' & Hd' & Htop' & Hfs & ->).
    rewrite Hh in Hh'. injection Hh' as <-. rewrite Ht in Ht'. injection Ht' as <-.
    rewrite Hd in Hd'. injection Hd' as <-. rewrite Htop in Htop'. injection Htop' as <-.
    cbn [Forecast.daily Forecast.hourly Forecast.items].
    pose proof (forecast_keys e top forecasts Hfs) as Hkeys.
    split; [rewrite length_map, length_seq; reflexivity|]. split; [reflexivity|].
    split; [|split; [|split]].
    + intros i d Hi. rewrite list_lookup_fmap in Hi.
      destruct (seq 0 7 !! i) as [i'|] eqn:Hseq; [|discriminate].
      apply lookup_seq in Hseq as [-> _]. simpl in Hi. injection Hi as <-.
      unfold dayForecast. cbn [DayForecast.date DayForecast.expectedCovers DayForecast.peakHour].
      split; [reflexivity|]. rewrite !fmap_None, !lookup_ge_None.
      split; split; lia.
    + intros id. rewrite fold_insert_keys, Hkeys. reflexivity.
    + intros id j Hj. apply fold_insert_lookup in Hj.
      apply list_elem_of_lookup in Hj as [n Hn].
      destruct (Forall2_lookup_r _ _ _ _ _ Hfs Hn) as (item & Hitem & j' & Hrun & Heq).
      injection Heq as -> ->. exists item. split; [|auto].
      apply list_elem_of_lookup. eauto.
    + intros pre item post j -> Hnot Hj.
      apply Forall2_app_inv_l in Hfs as (fpre & frest & _ & Hrest & ->).
      apply Forall2_cons_inv_l in Hrest as (kv & fpost & (j' & Hj' & ->) & Hpost & ->).
      rewrite Hj in Hj'. injection Hj' as <-.
      apply (fold_insert_last fpre fpost (item.1, j)).
      rewrite (forecast_keys e post fpost Hpost). exact Hnot.
Qed.

Lemma forecast_has_seven_days_witness :
  exists f, forecastDemand regular_engine 0 = Normal f
    /\ length (Forecast.daily f) = 7%nat
    /\ (forall d, Forecast.daily f !! 6%nat = Some d -> DayForecast.expectedCovers d = None)
    /\ Forecast.items f !! "soup"%string = Some (JNum 13).
Proof.
  destruct (forecastDemand regular_engine 0) as [f|err] eqn:Hf;
    [|vm_compute in Hf; discriminate Hf].
  destruct (forecast_has_seven_days regular_engine 0 (repeat [40; 19] 14) (repeat [40; 19] 14)
              (concat (repeat [40; 19] 6))
              [("soup"%string, JNum 12); ("risotto"%string, JNum 7); ("soup"%string, JNum 13)]
              eq_refl eq_refl eq_refl eq_refl) as [_ Hshape].
  destruct (Hshape f Hf) as (Hlen & _ & Hdays & _ & _ & Hlast).
  exists f. split; [reflexivity|]. split; [exact Hlen|]. split.
  - intros d Hd. destruct (Hdays 6%nat d Hd) as (_ & Hcovers & _). apply Hcovers. simpl. lia.
  - apply (Hlast [("soup"%string, JNum 12); ("risotto"%string, JNum 7)]
                 ("soup"%string, JNum 13) [] (JNum 13)); [reflexivity| |reflexivity].
    intros Hin. apply elem_of_nil in Hin. exact Hin.
Defined.

(** X19. [optimizeStaffing] plans from the forecast of demand: when the
    forecast is rejected, so is the plan, with the same error and
    whatever the staff availability; when the staff availability is
    rejected, so is the plan.  A plan that is returned has one day
    schedule for each of the seven days of the forecast, in order, and
    its cost is the sum of their costs. *)
Theorem staffing_plan_follows_forecast (e : Engine) (r : Rest) (today : Z) (constraints : json) :
  (forall err, forecastDemand e today = Throw err ->
     optimizeStaffing e r today constraints = Throw err)
  /\ (forall demand err, forecastDemand e today = Normal demand ->
        getStaffAvailability r = Throw err ->
        optimizeStaffing e r today constraints = Throw err)
  /\ (forall o, optimizeStaffing e r today constraints = Normal o ->
        exists demand staff,
          forecastDemand e today = Normal demand
          /\ getStaffAvailability r = Normal staff
          /\ length (Optimization.schedule o) = 7%nat
          /\ (forall i s, Optimization.schedule o !! i = Some s ->
                exists day, Forecast.daily demand !! i = Some day
                            /\ s = optimizeDaySchedule r day staff constraints)
          /\ Optimization.cost o
             == fold_right Qplus 0 (map DaySchedule.cost (Optimization.schedule o))).
Proof.
  unfold optimizeStaffing. split; [|split].
  - intros err ->. reflexivity.
  - intros demand err -> ->. reflexivity.
  - intros o. destruct (forecastDemand e today) as [demand|] eqn:Hf; simpl; [|discriminate].
    destruct (getStaffAvailability r) as [staff|]; simpl; [|discriminate].
    intros [= <-]. exists demand, staff. cbn [Optimization.schedule Optimization.cost].
    split; [reflexivity|]. split; [reflexivity|].
    apply forecastDemand_inv in Hf as (hist & ts & data & top & fs & _ & _ & _ & _ & _ & ->).
    cbn [Forecast.daily]. split; [rewrite !length_map, length_seq; reflexivity|].
    split.
    + intros i s Hi. rewrite list_lookup_fmap in Hi.
      destruct (map _ (seq 0 7) !! i) as [day|]; [|discriminate].
      injection Hi as <-. eauto.
    + generalize (map (fun day => optimizeDaySchedule r day staff constraints)
                      (map (dayForecast e today hist data) (seq 0 7))).
      intros l. assert (Hgen : forall c,
        fold_left (fun c daySchedule => c + DaySchedule.cost daySchedule) l c
        == c + fold_right Qplus 0 (map DaySchedule.cost l)).
      { induction l as [|s l IH]; intros c; simpl; [lra|]. rewrite IH. lra. }
      rewrite Hgen. lra.
Qed.

Lemma staffing_plan_follows_forecast_witness :
  optimizeStaffing no_history regular_rest 0 JNull = Throw tensor2d_error.
Proof.
  destruct (staffing_plan_follows_forecast no_history regular_rest 0 JNull) as [Hrej _].
  apply Hrej. reflexivity.
Defined.

End Forecast_facts.

(** ** Predictive engine: revenue and the needs of a customer *)

Section Needs_facts.
Import Js PredictiveEngine Engine.

(** X20. In a revenue forecast the best case is the expected revenue
    times 1.2 and the worst case the expected revenue times 0.8.  The
    two bracket the expected revenue only when it is not negative: for
    a negative expected revenue the best case lies below it and the
    worst case above.  When the model gives no output the forecast is
    still returned, with none of the three. *)
Theorem revenue_band_flips_below_zero (r : Rest) (timeframe : option Q) (v : Revenue.t) :
  predictRevenue r timeframe = Normal v ->
  match Revenue.expected v with
  | None => Revenue.bestCase v = None /\ Revenue.worstCase v = None
  | Some x =>
      exists b w, Revenue.bestCase v = Some b /\ Revenue.worstCase v = Some w
        /\ b == x * (12 # 10) /\ w == x * (8 # 10)
        /\ (0 <= x -> w <= x /\ x <= b)
        /\ (x < 0 -> b < x /\ x < w)
  end.
Proof.
  unfold predictRevenue.
  destruct (getHistoricalRevenue r _) as [hr|]; simpl; [|discriminate].
  destruct (getBookings r _) as [bk|]; simpl; [|discriminate].
  destruct (getScheduledEvents r _) as [ev|]; simpl; [|discriminate].
  destruct (getMarketingImpact r) as [mk|]; simpl; [|discriminate].
  destruct (getCompetitiveFactors r) as [cp|]; simpl; [|discriminate].
  destruct (revenueModel r _) as [revenueData|]; simpl; [|discriminate].
  intros [= <-]. cbn [Revenue.expected Revenue.bestCase Revenue.worstCase].
  destruct (revenueData !! 0%nat) as [x|]; simpl; [|auto].
  eexists _, _. split; [reflexivity|]. split; [reflexivity|].
  split; [reflexivity|]. split; [reflexivity|]. split; intros Hx; lra.
Qed.

Lemma revenue_band_flips_below_zero_witness :
  exists v b w, predictRevenue regular_rest None = Normal v
    /\ Revenue.expected v = Some (-500)
    /\ Revenue.bestCase v = Some b /\ Revenue.worstCase v = Some w
    /\ b < -500 /\ -500 < w.
Proof.
  pose proof (revenue_band_flips_below_zero regular_rest None _ eq_refl) as H.
  simpl in H. destruct H as (b & w & Hb & Hw & _ & _ & _ & Hneg).
  eexists _, b, w. split; [reflexivity|]. split; [reflexivity|].
  split; [exact Hb|]. split; [exact Hw|]. apply Hneg. reflexivity.
Defined.

Lemma predictArrivalTime_context (r : Rest) (customerId : string) (a : ArrivalTime.t) :
  predictArrivalTime r customerId None <> Normal a.
Proof.
  unfold predictArrivalTime.
  destruct (getArrivalPatterns r customerId) as [[p|]|]; simpl; discriminate.
Qed.

Lemma predictArrivalTime_slot (r : Rest) (customerId : string) (context : option RequestContext.t)
    (a : ArrivalTime.t) :
  predictArrivalTime r customerId context = Normal a ->
  ArrivalTime.estimatedTime a ∈ generateTimeSlots r.
Proof.
  unfold predictArrivalTime.
  destruct (getArrivalPatterns r customerId) as [[p|]|]; simpl; try discriminate.
  destruct context as [ctx|]; [|discriminate].
  destruct (getTrafficData r) as [traffic|]; simpl; [|discriminate].
  pose proof (sort_permutation (fun a b : string * Q => b.2 - a.2)
                (arrival_probabilities r (arrival_factors p ctx traffic))) as Hperm.
  destruct (sort _ _) as [|[t q] rest]; [discriminate|].
  intros [= <-]. simpl.
  assert (Hin : (t, q) ∈ arrival_probabilities r (arrival_factors p ctx traffic)).
  { rewrite <- Hperm. left. }
  apply arrival_probabilities_spec in Hin. tauto.
Qed.

Lemma predictSpecialRequests_length (r : Rest) (customerId : string) (date : Z)
    (s : list SpecialRequest.t) :
  predictSpecialRequests r customerId date = Normal s -> (length s <= 3)%nat.
Proof.
  unfold predictSpecialRequests.
  destruct (getCustomerProfile r customerId) as [[profile|]|]; simpl; try discriminate.
  intros [= <-]. rewrite !length_app.
  destruct (isNearBirthday _ _ _), (isNearAnniversary _ _ _),
    (CustomerRecord.dietaryHistory profile) as [history|];
    try destruct (gt _ _); simpl; lia.
Qed.

Lemma predictCustomerNeeds_no_context (e : Engine) (r : Rest) (customerId : string) (date : Z)
    (o : NextOrder.t) (p : ArrivalPatterns.t) :
  predictNextOrder e customerId = Normal o ->
  getArrivalPatterns r customerId = Normal (Some p) ->
  predictCustomerNeeds e r customerId None date = Throw TypeError.
Proof.
  intros Ho Hp. unfold predictCustomerNeeds, predictArrivalTime. rewrite Ho, Hp. reflexivity.
Qed.

Lemma predictCustomerNeeds_inv (e : Engine) (r : Rest) (customerId : string)
    (context : option RequestContext.t) (date : Z) (n : Needs.t) :
  predictCustomerNeeds e r customerId context date = Normal n ->
  exists ctx o a s sat churn,
    context = Some ctx
    /\ predictNextOrder e customerId = Normal o
    /\ predictArrivalTime r customerId context = Normal a
    /\ predictSpecialRequests r customerId date = Normal s
    /\ predictSatisfaction r context = Normal sat
    /\ predictChurnRisk r customerId = Normal churn
    /\ Needs.predictions n
       = {| Predictions.nextOrder := Some o; Predictions.arrivalTime := Some a;
            Predictions.specialRequest := Some s; Predictions.satisfaction := sat;
            Predictions.churnRisk := churn |}
    /\ Needs.actions n = generateProactiveActions (Needs.predictions n)
    /\ Needs.confidence n = calculateConfidence (Needs.predictions n).
Proof.
  unfold predictCustomerNeeds.
  destruct (predictNextOrder e customerId) as [o|]; simpl; [|discriminate].
  destruct (predictArrivalTime r customerId context) as [a|] eqn:Ha; simpl; [|discriminate].
  destruct (predictSpecialRequests r customerId date) as [s|]; simpl; [|discriminate].
  destruct (predictSatisfaction r context) as [sat|]; simpl; [|discriminate].
  destruct (predictChurnRisk r customerId) as [churn|]; simpl; [|discriminate].
  intros [= <-]. destruct context as [ctx|].
  - exists ctx, o, a, s, sat, churn. repeat split; reflexivity.
  - exfalso. exact (predictArrivalTime_context r customerId a Ha).
Qed.

Lemma once_length {A : Type} (b : bool) (x : A) : (length (if b then [x] else []) <= 1)%nat.
Proof. destruct b; simpl; lia. Qed.

(** X21. [predictCustomerNeeds] needs the context of the request: for
    a customer whose next order and arrival patterns are available it
    rejects with a [TypeError] when there is none.  When it returns, the
    next order, the arrival time and the special requests are all in
    the bundle; there are at most six actions; a table is only ever
    prepared for one of the time slots of the engine; and the
    confidence counts the next order and the satisfaction alone:
    0.3 times the confidence of the order plus 0.2 times that of the
    satisfaction, or 0.3 times that of the satisfaction when the order
    has confidence 0. *)
Theorem customer_needs_compose (e : Engine) (r : Rest) (customerId : string) (date : Z) :
  (forall o p,
     predictNextOrder e customerId = Normal o ->
     getArrivalPatterns r customerId = Normal (Some p) ->
     predictCustomerNeeds e r customerId None date = Throw TypeError)
  /\ (forall context n,
        predictCustomerNeeds e r customerId context date = Normal n ->
        exists o a s,
          Predictions.nextOrder (Needs.predictions n) = Some o
          /\ Predictions.arrivalTime (Needs.predictions n) = Some a
          /\ Predictions.specialRequest (Needs.predictions n) = Some s
          /\ (length (Needs.actions n) <= 6)%nat
          /\ (forall act, act ∈ Needs.actions n ->
                ProactiveAction.type act = "PREPARE_TABLE"%string ->
                exists slot, slot ∈ generateTimeSlots r /\ ProactiveAction.time act = Some slot)
          /\ Needs.confidence n
             == (3 # 10) * NextOrder.confidence o
                + (if Qeq_bool (NextOrder.confidence o) 0 then 3 # 10 else 2 # 10)
                  * default 0 (Predictions.satisfaction (Needs.predictions n)
                               ≫= Satisfaction.confidence)).
Proof.
  split; [intros o p; apply predictCustomerNeeds_no_context|].
  intros context n Hn.
  apply predictCustomerNeeds_inv in Hn
    as (ctx & o & a & s & sat & churn & -> & Ho & Ha & Hs & Hsat & Hchurn & Hp & Hact & Hconf).
  exists o, a, s. rewrite Hact, Hconf, Hp.
  cbn [Predictions.nextOrder Predictions.arrivalTime Predictions.specialRequest
       Predictions.satisfaction].
  do 3 (split; [reflexivity|]). split; [|split].
  - unfold generateProactiveActions.
    cbn [Predictions.nextOrder Predictions.arrivalTime Predictions.specialRequest
         Predictions.churnRisk].
    rewrite !length_app, length_map.
    pose proof (once_length (gt (ArrivalTime.probability a) (7 # 10)) (prepare_table a)).
    pose proof (once_length (gt (NextOrder.confidence o) (8 # 10)) (prep_ingredients o)).
    pose proof (once_length (gt_opt churn (6 # 10)) retention).
    pose proof (length_filter (fun q => gt (SpecialRequest.confidence q) (8 # 10) = true) s).
    pose proof (predictSpecialRequests_length r customerId date s Hs). lia.
  - intros act Hin Hty. rewrite generateProactiveActions_configured in Hin.
    apply actions_justified in Hin
      as [(a' & Ha' & _ & ->)|[(o' & _ & _ & ->)|[(c & _ & _ & ->)|(l' & q & _ & _ & _ & ->)]]];
      try discriminate Hty.
    simpl in Ha'. injection Ha' as <-. exists (ArrivalTime.estimatedTime a).
    split; [|reflexivity]. eapply predictArrivalTime_slot, Ha.
  - unfold calculateConfidence, calculateConfidence_of, confidence_readings, truthy_confidences.
    cbn [Predictions.nextOrder Predictions.satisfaction fmap option_fmap option_map omap
         list_omap mbind option_bind].
    destruct (Qeq_bool (NextOrder.confidence o) 0) eqn:Ho0.
    + apply Qeq_bool_iff in Ho0.
      destruct (sat ≫= Satisfaction.confidence) as [c|]; cbn.
      * destruct (Qeq_bool c 0) eqn:Hc0; cbn.
        { apply Qeq_bool_iff in Hc0. lra. }
        { unfold weight_at. cbn. lra. }
      * lra.
    + destruct (sat ≫= Satisfaction.confidence) as [c|]; cbn.
      * destruct (Qeq_bool c 0) eqn:Hc0; cbn.
        { apply Qeq_bool_iff in Hc0. unfold weight_at. cbn. lra. }
        { unfold weight_at. cbn. lra. }
      * unfold weight_at. cbn. lra.
Qed.

Lemma customer_needs_compose_witness :
  predictCustomerNeeds regular_engine regular_rest "c1" None 0 = Throw TypeError.
Proof.
  destruct (customer_needs_compose regular_engine regular_rest "c1" 0) as [Hnone _].
  eapply Hnone; reflexivity.
Defined.

End Needs_facts.

(** ** server.js: the prediction endpoint *)

Section Api_facts.
Import Js CollectiveIntelligence PredictiveEngine Engine.

(** X22. The prediction endpoint answers with status 500 and leaves the
    coordinator untouched when the engine rejects, as it does for a
    request without context.  When the engine returns, the endpoint
    answers with the predictions and hands the coordinator a customer
    interaction of agent "api" that carries no satisfaction: the
    pattern is filed under the situation of the context with an
    undefined result, [extractBestPractice] is not called, and a
    learning that is undefined is sent to every open agent other than
    "api". *)
Theorem prediction_endpoint_shares_unrated_pattern (e : Engine) (r : Rest) (h : Helpers)
    (date now now' : Z) (customerId : string) (st : CollectiveIntelligence.t) :
  (forall context err,
     predictCustomerNeeds e r customerId context date = Throw err ->
     Api.predict e r h date now now' customerId context st
     = (st, {| Api.response := Api.Status500 "Failed to generate predictions";
               Api.console_error := ["Prediction error:"%string] |}))
  /\ (forall o p,
        predictNextOrder e customerId = Normal o ->
        getArrivalPatterns r customerId = Normal (Some p) ->
        Api.predict e r h date now now' customerId None st
        = (st, {| Api.response := Api.Status500 "Failed to generate predictions";
                  Api.console_error := ["Prediction error:"%string] |}))
  /\ (forall context n,
        predictCustomerNeeds e r customerId context date = Normal n ->
        exists ctx pattern,
          context = Some ctx
          /\ pattern = {| CustomerPattern.situation := Context.situation (RequestContext.fields ctx);
                          CustomerPattern.customerMood := Context.mood (RequestContext.fields ctx);
                          CustomerPattern.approach := Context.approach (RequestContext.fields ctx);
                          CustomerPattern.result := None;
                          CustomerPattern.timestamp := now |}
          /\ (Api.predict e r h date now now' customerId context st).2
             = {| Api.response := Api.Predicted n; Api.console_error := [] |}
          /\ customerPatterns (brain (Api.predict e r h date now now' customerId context st).1)
             = <[CustomerPattern.situation pattern :=
                   default [] (customerPatterns (brain st) !! CustomerPattern.situation pattern)
                   ++ [pattern]]> (customerPatterns (brain st))
          /\ calls (Api.predict e r h date now now' customerId context st).1
             = calls st ++ [Call.notifyRelevantAgents (CustomerPattern.situation pattern) pattern]
          /\ sent (Api.predict e r h date now now' customerId context st).1
             = sent st ++ map (fun id => (id, learning_message now' "api" JUndefined))
                              (recipients "api" (agents st))).
Proof.
  split; [|split].
  - intros context err Herr. unfold Api.predict. rewrite Herr. reflexivity.
  - intros o p Ho Hp. unfold Api.predict.
    rewrite (predictCustomerNeeds_no_context e r customerId date o p Ho Hp). reflexivity.
  - intros context n Hn. pose proof Hn as Hinv.
    apply predictCustomerNeeds_inv in Hinv as (ctx & _ & _ & _ & _ & _ & -> & _).
    eexists ctx, _. split; [reflexivity|]. split; [reflexivity|].
    unfold Api.predict. rewrite Hn.
    unfold processAgentCommunication, Api.shared_report, learnFromCustomerInteraction,
      broadcastLearning.
    run_method.
    destruct (decide (Some "CUSTOMER_INTERACTION"%string = Some "CUSTOMER_INTERACTION"%string))
      as [_|Hne]; [|congruence].
    run_method. repeat split; reflexivity.
Qed.

Lemma prediction_endpoint_shares_unrated_pattern_witness :
  Api.predict regular_engine regular_rest helpers_spec 0 0 0 "c1" None two_agents
  = (two_agents, {| Api.response := Api.Status500 "Failed to generate predictions";
                    Api.console_error := ["Prediction error:"%string] |}).
Proof.
  destruct (prediction_endpoint_shares_unrated_pattern regular_engine regular_rest helpers_spec
              0 0 0 "c1" two_agents) as (_ & Hnone & _).
  eapply Hnone; reflexivity.
Defined.

End Api_facts.
